(** * Quality check of a delimitation line: a model of [qa_line/views.py]

    The development follows the class [CheckQualityLine]: the layers and
    tables of a submission are records, the logger writes records to the
    report file of the run, and every method that logs or may raise is an
    action of a small state-and-exception monad.  Library code (shapely,
    pandas) enters through interfaces; Python floats are IEEE 754
    doubles. *)

From Stdlib Require Import List String Ascii Bool Arith ZArith Lia.
From Stdlib Require Import Floats DecimalString Sorted Permutation.
Import ListNotations.

Open Scope string_scope.
Open Scope list_scope.

(** String concatenation, as in an f-string; [++] stays list append. *)
Infix "+++" := String.append (right associativity, at level 60).

(* ================================================================== *)
(** ** Python strings *)
(* ================================================================== *)

Module PyStr.

(** [s.split(sep)] for a one-character separator: never empty. *)
Fixpoint split (sep : ascii) (s : string) : list string :=
  match s with
  | EmptyString => [EmptyString]
  | String c s' =>
      if Ascii.eqb c sep then EmptyString :: split sep s'
      else match split sep s' with
           | [] => [String c EmptyString]
           | p :: ps => String c p :: ps
           end
  end.

Definition hyphen : ascii := "-"%char.

(** [s.split('-')[-1]] *)
Definition last_part (s : string) : string :=
  last (split hyphen s) EmptyString.

(** [x in l] for a list of strings. *)
Definition mem (x : string) (l : list string) : bool :=
  existsb (String.eqb x) l.

(** [s.endswith(suffix)] *)
Definition endswith (s suffix : string) : bool :=
  let n := String.length s in
  let k := String.length suffix in
  (k <=? n)%nat && String.eqb (substring (n - k) k s) suffix.

Definition is_digit (c : ascii) : bool :=
  let n := nat_of_ascii c in ((48 <=? n) && (n <=? 57))%nat.

(** The digits at the front of [s], and what follows them. *)
Fixpoint take_digits (s : string) : string :=
  match s with
  | String c s' => if is_digit c then String c (take_digits s') else EmptyString
  | EmptyString => EmptyString
  end.

(** [re.search(r'\d+', s)]: the first maximal run of digits, if any. *)
Fixpoint search_digits (s : string) : option string :=
  match s with
  | EmptyString => None
  | String c s' =>
      if is_digit c then Some (String c (take_digits s'))
      else search_digits s'
  end.

(** [int(d)] for a string of digits. *)
Definition int_of_digits (d : string) : nat :=
  fold_left (fun acc c => 10 * acc + (nat_of_ascii c - 48))
            (list_ascii_of_string d) 0.

(** [str(n)] for a non-negative integer. *)
Definition of_nat (n : nat) : string :=
  NilEmpty.string_of_uint (Nat.to_uint n).

(** Whether [sub] occurs in [s]. *)
Fixpoint contains (sub s : string) : bool :=
  prefix sub s ||
  match s with
  | EmptyString => false
  | String _ s' => contains sub s'
  end.

Definition chr (n : nat) : ascii := ascii_of_nat n.

(** The one-byte line boundaries of [str.splitlines]. *)
Definition is_linebreak (c : ascii) : bool :=
  let n := nat_of_ascii c in
  ((n =? 10) || (n =? 13) || (n =? 11) || (n =? 12)
   || (n =? 28) || (n =? 29) || (n =? 30))%nat.

(** [str.splitlines()].  A carriage return followed by a line feed is one
    boundary; the encodings of U+0085, U+2028 and U+2029 are boundaries
    too; text after the last boundary is a line only when not empty. *)
Fixpoint splitlines_from (cur : string) (s : string) : list string :=
  match s with
  | EmptyString => if String.eqb cur EmptyString then [] else [cur]
  | String c s1 =>
      let one := String c EmptyString in
      match s1 with
      | String c1 s2 =>
          if Ascii.eqb c (chr 13) && Ascii.eqb c1 (chr 10)
          then cur :: splitlines_from EmptyString s2
          else if Ascii.eqb c (chr 194) && Ascii.eqb c1 (chr 133)
          then cur :: splitlines_from EmptyString s2
          else
            match s2 with
            | String c2 s3 =>
                if Ascii.eqb c (chr 226) && Ascii.eqb c1 (chr 128)
                   && (Ascii.eqb c2 (chr 168) || Ascii.eqb c2 (chr 169))
                then cur :: splitlines_from EmptyString s3
                else if is_linebreak c then cur :: splitlines_from EmptyString s1
                else splitlines_from (cur +++ one) s1
            | EmptyString =>
                if is_linebreak c then cur :: splitlines_from EmptyString s1
                else splitlines_from (cur +++ one) s1
            end
      | EmptyString =>
          if is_linebreak c then [cur] else [cur +++ one]
      end
  end.

Definition splitlines (s : string) : list string :=
  splitlines_from EmptyString s.

(** Reading a file in text mode: [\r\n] and a lone [\r] become [\n]. *)
Fixpoint read_text (s : string) : string :=
  match s with
  | EmptyString => EmptyString
  | String c s1 =>
      if Ascii.eqb c (chr 13) then
        match s1 with
        | String c1 s2 =>
            if Ascii.eqb c1 (chr 10) then String (chr 10) (read_text s2)
            else String (chr 10) (read_text s1)
        | EmptyString => String (chr 10) EmptyString
        end
      else String c (read_text s1)
  end.

End PyStr.

(* ================================================================== *)
(** ** Python floats *)
(* ================================================================== *)

(** The operations the checks perform on coordinates.  [fround1 x] is
    [round(x, 1)], [ftol] the constant [0.01], [fzero] the constant [0]. *)
Class PyFloat (num : Type) : Type := {
  fround1 : num -> num;
  fsub : num -> num -> num;
  fabs : num -> num;
  fgtb : num -> num -> bool;
  feqb : num -> num -> bool;
  ftol : num;
  fzero : num
}.

(** Python floats: IEEE 754 binary64, as the primitive floats are. *)
Module Float64.

(** The integer nearest to [n / d], for [d] positive; a tie goes to the
    even one. *)
Definition round_half_even (n d : Z) : Z :=
  let f := (n / d)%Z in
  let r := (n mod d)%Z in
  match (2 * r ?= d)%Z with
  | Lt => f
  | Gt => (f + 1)%Z
  | Eq => if Z.even f then f else (f + 1)%Z
  end.

(** [round(x, 1)] as CPython computes it: the exact value of [x] is
    rounded to the nearest decimal with one digit after the point, a tie
    going to the even digit, and that decimal is read back as the nearest
    double, with the sign of [x].  A nan, an infinity, a zero and a whole
    number are returned as they are. *)
Definition round1 (x : float) : float :=
  match Prim2SF x with
  | S754_finite s m e =>
      if (0 <=? e)%Z then x
      else
        match round_half_even (Zpos m * 10) (2 ^ (- e)) with
        | Zpos tenths =>
            SF2Prim (SFdiv prec emax (S754_finite s tenths 0) (S754_finite false 10 0))
        | _ => if s then (-0)%float else 0%float
        end
  | _ => x
  end.

(** [a > b] *)
Definition gtb (a b : float) : bool := PrimFloat.ltb b a.

(** [0.01] is the double nearest to that decimal, as in Python. *)
#[export, warnings="-inexact-float"] Instance float64 : PyFloat float := {|
  fround1 := round1;
  fsub := PrimFloat.sub;
  fabs := PrimFloat.abs;
  fgtb := gtb;
  feqb := PrimFloat.eqb;
  ftol := 0.01%float;
  fzero := 0%float
|}.

End Float64.

(* ================================================================== *)
(** ** Data model: the layers and tables of one submission *)
(* ================================================================== *)

Inductive GeomType := LineString | MultiLineString.

(** A line geometry as shapely holds it.  [geoms_repr] is the text an
    f-string prints for [geometry.geoms]. *)
Record LineGeom (num : Type) := {
  geom_type : GeomType;
  vertices : list (num * num);
  geoms_repr : string
}.
Arguments geom_type {num} _.
Arguments vertices {num} _.
Arguments geoms_repr {num} _.

(** A point geometry: x, y and, for a 3D point, z. *)
Record PointGeom (num : Type) := {
  px : num;
  py : num;
  pz : option num
}.
Arguments px {num} _.
Arguments py {num} _.
Arguments pz {num} _.

(** The predicates of shapely and geopandas the checks consult. *)
Class Shapely (num : Type) : Type := {
  line_is_empty : LineGeom num -> bool;
  line_is_valid : LineGeom num -> bool;
  point_is_empty : PointGeom num -> bool;
  point_is_valid : PointGeom num -> bool;
  geom_ne : LineGeom num -> LineGeom num -> bool;
  crosses : LineGeom num -> LineGeom num -> bool;
  contains : LineGeom num -> LineGeom num -> bool
}.

(** [DataFrame.sort_values(by=[column])] of pandas, on rows paired with
    the integer of the sorting column.  The call of the code leaves the
    sorting algorithm to the library, whose default (quicksort) does not
    keep rows with equal keys in their order: the interface fixes that
    the result holds the same rows, in ascending order of the key, and
    leaves open which of the rows with equal keys comes first. *)
Class Pandas : Type := {
  sort_values : forall {A : Type}, list (nat * A) -> list (nat * A);
  sort_values_perm :
    forall {A : Type} (l : list (nat * A)), Permutation (sort_values l) l;
  sort_values_Sorted :
    forall {A : Type} (l : list (nat * A)),
      Sorted (fun a b => fst a <= fst b) (sort_values l)
}.

(** A feature of the layer Lin_TramPpta. *)
Record Tram (num : Type) := {
  tram_ID : string;
  tram_ID_LINIA : Z;
  tram_ID_FITA1 : string;
  tram_ID_FITA2 : string;
  tram_geometry : LineGeom num
}.
Arguments tram_ID {num} _.
Arguments tram_ID_LINIA {num} _.
Arguments tram_ID_FITA1 {num} _.
Arguments tram_ID_FITA2 {num} _.
Arguments tram_geometry {num} _.

(** A feature of the layer Punt. *)
Record Punt (num : Type) := {
  punt_ID_PUNT : string;
  punt_ETIQUETA : string;
  punt_FOTOS : option string;
  punt_CONTACTE : option string;
  punt_geometry : PointGeom num
}.
Arguments punt_ID_PUNT {num} _.
Arguments punt_ETIQUETA {num} _.
Arguments punt_FOTOS {num} _.
Arguments punt_CONTACTE {num} _.
Arguments punt_geometry {num} _.

(** A record of the table P_Proposta; a numeric cell may be null. *)
Record Proposta := {
  pp_ID_PUNT : string;
  pp_PFF : option Z;
  pp_ESFITA : option Z;
  pp_ORDPF : option Z
}.

(** A record of the table PUNT_FIT. *)
Record PuntFit := {
  pf_ID_PUNT : string;
  pf_ID_FITA : string;
  pf_TROBADA : string;
  pf_AUX : string
}.

(** Features of the database layers tram_linia_mem and fita_mem. *)
Record TramMem (num : Type) := {
  tm_id_linia : Z;
  tm_geometry : LineGeom num
}.
Arguments tm_id_linia {num} _.
Arguments tm_geometry {num} _.

Record FitaMem := { fm_id_linia : Z }.

(** What [set_layers_gdf] has loaded, with the request's line ID and the
    listing of the photo folder.  [line_id_int] is [int(self.line_id)],
    [None] when that conversion raises; an entry of [photo_folder] is a
    name with whether it is a regular file. *)
Record Layers (num : Type) := {
  line_id : string;
  line_id_int : option Z;
  tram_line_mem_gdf : list (TramMem num);
  fita_mem_gdf : list FitaMem;
  lin_tram_ppta_columns : list string;
  lin_tram_ppta_line_gdf : list (Tram num);
  punt_line_gdf : list (Punt num);
  p_proposta_df : list Proposta;
  punt_fit_df : list PuntFit;
  photo_folder : list (string * bool)
}.
Arguments line_id {num} _.
Arguments line_id_int {num} _.
Arguments tram_line_mem_gdf {num} _.
Arguments fita_mem_gdf {num} _.
Arguments lin_tram_ppta_columns {num} _.
Arguments lin_tram_ppta_line_gdf {num} _.
Arguments punt_line_gdf {num} _.
Arguments p_proposta_df {num} _.
Arguments punt_fit_df {num} _.
Arguments photo_folder {num} _.

(* ================================================================== *)
(** ** Python dictionaries that are iterated: insertion order kept *)
(* ================================================================== *)

Module PyDict.
Section Dict.
Context {V : Type}.

Definition t := list (string * V).

(** [d[k] = v]: an existing key keeps its place and takes the value. *)
Fixpoint set (k : string) (v : V) (d : t) : t :=
  match d with
  | [] => [(k, v)]
  | (k', v') :: d' =>
      if String.eqb k' k then (k', v) :: d'
      else (k', v') :: set k v d'
  end.

(** [dict(pairs)] *)
Definition of_pairs (l : list (string * V)) : t :=
  fold_left (fun d kv => set (fst kv) (snd kv) d) l [].

Definition items (d : t) : list (string * V) := d.
Definition values (d : t) : list V := map snd d.
Definition keys (d : t) : list string := map fst d.
End Dict.
Arguments t : clear implicits.
End PyDict.

(** The value [get_founded_points_dict] returns: a dictionary, or [False]. *)
Inductive FoundedPoints :=
| PyFalse
| FoundedDict (d : PyDict.t string).

(** Truth value in an [if]: [False] and the empty dictionary are false. *)
Definition truthy (f : FoundedPoints) : bool :=
  match f with
  | PyFalse => false
  | FoundedDict [] => false
  | FoundedDict (_ :: _) => true
  end.

(* ================================================================== *)
(** ** The logger, the response and the monad of the checks *)
(* ================================================================== *)

Inductive Level := INFO | ERROR.

(** A record handed to the logger. *)
Record LogRecord := { levelname : Level; msg : string }.

Definition level_text (l : Level) : string :=
  match l with INFO => "INFO" | ERROR => "ERROR" end.

(** [Formatter("%(levelname)s - %(message)s")], with the handler's
    terminator. *)
Definition format_record (r : LogRecord) : string :=
  level_text (levelname r) +++ " - " +++ msg r +++ String (PyStr.chr 10) "".

Inductive PyExc :=
| IndexError | AttributeError | ValueError | UnboundLocalError
| NotImplementedError | DimensionError.

Inductive Outcome (A : Type) :=
| Return (a : A)
| Raise (e : PyExc).
Arguments Return {A} _.
Arguments Raise {A} _.

(** An item of the list [reports] of the response. *)
Record ReportItem := { level : string; report_message : string }.

(** The class attribute [response_data]: one dictionary for every request
    served by the process, with the three keys the view ever sets. *)
Record ResponseData := {
  result : option string;
  message : option string;
  reports : option (list ReportItem)
}.

(** The state a run acts on: the records written to the report file so
    far, and the shared response dictionary. *)
Record World := {
  log : list LogRecord;
  response_data : ResponseData
}.

(** The text of the report file. *)
Definition log_text (w : World) : string :=
  String.concat "" (map format_record (log w)).

Definition M (A : Type) : Type := World -> Outcome A * World.

Definition ret {A} (a : A) : M A := fun w => (Return a, w).

Definition bind {A B} (m : M A) (f : A -> M B) : M B :=
  fun w =>
    match m w with
    | (Return a, w') => f a w'
    | (Raise e, w') => (Raise e, w')
    end.

Definition raise {A} (e : PyExc) : M A := fun w => (Raise e, w).

Declare Scope py_scope.
Delimit Scope py_scope with py.
Notation "x <- m ;; k" := (bind m (fun x => k))
  (at level 100, m at next level, right associativity) : py_scope.
Notation "m ;; k" := (bind m (fun _ => k))
  (at level 100, right associativity) : py_scope.
Open Scope py_scope.

Definition emit (r : LogRecord) : M unit :=
  fun w => (Return tt, {| log := log w ++ [r]; response_data := response_data w |}).

Definition logger_info (s : string) : M unit := emit {| levelname := INFO; msg := s |}.
Definition logger_error (s : string) : M unit := emit {| levelname := ERROR; msg := s |}.

(** [for x in l: body] *)
Fixpoint for_each {A} (l : list A) (body : A -> M unit) : M unit :=
  match l with
  | [] => ret tt
  | a :: l' => body a ;; for_each l' body
  end.

(** A loop that updates local variables [s]. *)
Fixpoint for_fold {A S} (l : list A) (s : S) (body : S -> A -> M S) : M S :=
  match l with
  | [] => ret s
  | a :: l' => s' <- body s a ;; for_fold l' s' body
  end.

Definition when (b : bool) (m : M unit) : M unit := if b then m else ret tt.

Definition is_empty {A} (l : list A) : bool :=
  match l with [] => true | _ => false end.

(* ================================================================== *)
(** ** The class CheckQualityLine *)
(* ================================================================== *)

(** The instance attributes the checks read: the loaded layers and the
    four structures [get] derives from them before checking. *)
Record Self (num : Type) := {
  layers : Layers num;
  ppf_list : list string;
  founded_points_dict : FoundedPoints;
  points_coords_dict : PyDict.t (num * num);
  line_coords_list : list (num * num)
}.
Arguments layers {num} _.
Arguments ppf_list {num} _.
Arguments founded_points_dict {num} _.
Arguments points_coords_dict {num} _.
Arguments line_coords_list {num} _.

Section CheckQualityLine.

Context {num : Type} {F : PyFloat num} {G : Shapely num} {pd : Pandas}.

(** [column == n] and [column != n] on a nullable numeric cell. *)
Definition cell_eq (c : option Z) (n : Z) : bool :=
  match c with Some z => Z.eqb z n | None => false end.
Definition cell_ne (c : option Z) (n : Z) : bool := negb (cell_eq c n).

(** Equality of coordinate tuples, and [t in l]. *)
Definition coords_eqb (a b : num * num) : bool :=
  feqb (fst a) (fst b) && feqb (snd a) (snd b).
Definition coords_mem (t : num * num) (l : list (num * num)) : bool :=
  existsb (coords_eqb t) l.

(** A tuple of two items is true in a condition, so [a or b] is [a]. *)
Definition tuple_truthy (t : num * num) : bool := true.
Definition py_or (a b : num * num) : num * num :=
  if tuple_truthy a then a else b.

(** [geometry.coords]: multi-part geometries provide no sequence. *)
Definition coords (g : LineGeom num) : M (list (num * num)) :=
  match geom_type g with
  | LineString => ret (vertices g)
  | MultiLineString => raise NotImplementedError
  end.

(** [l[0]] and [l[-1]] *)
Definition first_item {A} (l : list A) : M A :=
  match l with
  | [] => raise IndexError
  | a :: _ => ret a
  end.
Definition last_item {A} (l : list A) : M A :=
  match l with
  | [] => raise IndexError
  | a :: l' => ret (last l' a)
  end.

Definition int_line_id (ly : Layers num) : M Z :=
  match line_id_int ly with
  | Some n => ret n
  | None => raise ValueError
  end.

(* ---------------------------------------------------------------- *)
(** *** Line ID and field structure *)

Definition check_line_id_exists (self : Self num) : M unit :=
  n <- int_line_id (layers self) ;;
  let tram_line_id :=
    filter (fun r => Z.eqb (tm_id_linia r) n) (tram_line_mem_gdf (layers self)) in
  let line_id_in_lin_tram := negb (is_empty tram_line_id) in
  n' <- int_line_id (layers self) ;;
  let fita_line_id :=
    filter (fun r => Z.eqb (fm_id_linia r) n') (fita_mem_gdf (layers self)) in
  let line_id_in_fita_g := negb (is_empty fita_line_id) in
  if line_id_in_fita_g && line_id_in_lin_tram then
    logger_error "L'ID Linia introduït està en fita_mem i tram_linia_mem"
  else if line_id_in_fita_g && negb line_id_in_lin_tram then
    logger_error "L'ID Linia introduït està en fita_mem però no en lin_tram_mem"
  else if negb line_id_in_fita_g && line_id_in_lin_tram then
    logger_error "L'ID Linia introduït no està en fita_mem però sí en lin_tram_mem"
  else if negb line_id_in_fita_g && negb line_id_in_lin_tram then
    logger_info "L'ID Linia no està repetit a fita_mem i lin_tram_mem de SIDM3"
  else ret tt.

Definition true_fields : list string :=
  ["ID_LINIA"; "ID"; "DATA"; "COMENTARI"; "P1"; "P2"; "P3"; "P4"; "PF";
   "ID_FITA1"; "ID_FITA2"; "geometry"].

(** The counter of the comparison loop. *)
Definition field_match (lin_tram_fields : list string) : nat :=
  fold_left (fun m field => if PyStr.mem field true_fields then m + 1 else m)
            lin_tram_fields 0.

Definition check_fields_lin_tram_ppta (self : Self num) : M bool :=
  let lin_tram_fields := lin_tram_ppta_columns (layers self) in
  if Nat.eqb (field_match lin_tram_fields) (List.length true_fields) then
    logger_info "L'estructura de camps de Lin_TramPpta és correcte" ;;
    ret true
  else
    logger_error "L'estructura de camps de Lin_TramPpta NO és correcte" ;;
    ret false.

Definition check_fields_content_lint_tram_ppta (self : Self num) : M unit :=
  n <- int_line_id (layers self) ;;
  let trams := lin_tram_ppta_line_gdf (layers self) in
  let tram_not_line_id := filter (fun t => negb (Z.eqb (tram_ID_LINIA t) n)) trams in
  let line_id_error := negb (is_empty tram_not_line_id) in
  when line_id_error
    (logger_error "Existeixen trams de linia amb l'ID_LINIA d'una altra linia") ;;
  let tram_id_f1_bad := filter (fun t => String.eqb (tram_ID_FITA1 t) "1") trams in
  let tram_id_f2_bad := filter (fun t => String.eqb (tram_ID_FITA2 t) "1") trams in
  let id_fita_error := negb (is_empty tram_id_f1_bad) || negb (is_empty tram_id_f2_bad) in
  when id_fita_error
    (logger_error "El camp ID_FITA d'algun dels trams de la linia no és vàlid") ;;
  when (negb line_id_error && negb id_fita_error)
    (logger_info "Els camps de Lin_TramPpta estan correctament emplenats").

Definition check_lin_tram_ppta_layer (self : Self num) : M bool :=
  fields_lin_tram_ppta_ok <- check_fields_lin_tram_ppta self ;;
  if negb fields_lin_tram_ppta_ok then ret false
  else
    check_fields_content_lint_tram_ppta self ;;
    ret true.

(* ---------------------------------------------------------------- *)
(** *** The structures derived from the layers *)

Definition get_ppf_list (ly : Layers num) : list string :=
  let ppf_df := filter (fun r => cell_eq (pp_PFF r) 1) (p_proposta_df ly) in
  map pp_ID_PUNT ppf_df.

Definition get_founded_points_dict (ly : Layers num) (ppf : list string)
  : FoundedPoints :=
  let points_founded :=
    filter (fun r => String.eqb (pf_TROBADA r) "1") (punt_fit_df ly) in
  if negb (is_empty points_founded) then
    FoundedDict
      (fold_left
         (fun d feature =>
            if PyStr.mem (pf_ID_PUNT feature) ppf
            then PyDict.set (pf_ID_FITA feature) (pf_ID_PUNT feature) d
            else d)
         points_founded [])
  else PyFalse.

Definition get_round_point_coordinates (ly : Layers num)
  : PyDict.t (num * num) :=
  let points_id := map punt_ID_PUNT (punt_line_gdf ly) in
  let x_coords_list := map (fun p => fround1 (px (punt_geometry p))) (punt_line_gdf ly) in
  let y_coords_list := map (fun p => fround1 (py (punt_geometry p))) (punt_line_gdf ly) in
  let points_coord_list := combine x_coords_list y_coords_list in
  PyDict.of_pairs (combine points_id points_coord_list).

Definition get_round_line_coordinates (ly : Layers num)
  : M (list (num * num)) :=
  let trams := map tram_geometry (lin_tram_ppta_line_gdf ly) in
  line_coords_no_rounded <-
    for_fold trams []
      (fun acc t =>
         tram_coords <- coords t ;;
         ret (fold_left (fun a v => a ++ [v]) tram_coords acc)) ;;
  ret (map (fun xy => (fround1 (fst xy), fround1 (snd xy))) line_coords_no_rounded).

(* ---------------------------------------------------------------- *)
(** *** Geometry of the layers *)

Definition check_lin_tram_geometry (self : Self num) : M unit :=
  let trams := lin_tram_ppta_line_gdf (layers self) in
  let empty_features := filter (fun t => line_is_empty (tram_geometry t)) trams in
  when (negb (is_empty empty_features))
    (for_each empty_features (fun feature =>
       logger_error ("      El tram " +++ tram_ID feature +++ " està buit"))) ;;
  let ring_features := filter (fun t => line_is_empty (tram_geometry t)) trams in
  when (negb (is_empty ring_features))
    (for_each ring_features (fun feature =>
       logger_error ("      El tram " +++ tram_ID feature +++ " té un anell interior"))) ;;
  not_multipart <-
    for_fold trams true (fun not_multipart feature =>
      match geom_type (tram_geometry feature) with
      | MultiLineString =>
          logger_error ("      El tram " +++ tram_ID feature +++ " és multi-part i té "
                        +++ geoms_repr (tram_geometry feature) +++ " parts") ;;
          ret false
      | LineString => ret not_multipart
      end) ;;
  when (is_empty empty_features && is_empty ring_features && not_multipart)
    (logger_info "      No s'ha detectat cap error de geometria a Lin_TramPpta").

Definition check_points_geometry (self : Self num) : M unit :=
  let punts := punt_line_gdf (layers self) in
  let empty_features := filter (fun p => point_is_empty (punt_geometry p)) punts in
  when (negb (is_empty empty_features))
    (for_each empty_features (fun feature =>
       logger_error ("      El punt " +++ punt_ID_PUNT feature +++ " està buit"))) ;;
  let invalid_features := filter (fun p => negb (point_is_valid (punt_geometry p))) punts in
  when (negb (is_empty invalid_features))
    (for_each invalid_features (fun feature =>
       logger_error ("      El punt " +++ punt_ID_PUNT feature
                     +++ " no té una geometria vàlida"))) ;;
  when (is_empty empty_features && is_empty invalid_features)
    (logger_info "      No s'ha detectat cap error de geometria a la capa Punt").

Definition check_layers_geometry (self : Self num) : M unit :=
  logger_info "Comprovació de les geometries..." ;;
  logger_info "Lin_Tram_Proposta :" ;;
  check_lin_tram_geometry self ;;
  logger_info "Punt :" ;;
  check_points_geometry self.

Definition info_vertexs_line (self : Self num) : M unit :=
  logger_info "Vèrtexs de la linia :" ;;
  for_each (lin_tram_ppta_line_gdf (layers self)) (fun feature =>
    let tram_id := tram_ID feature in
    cs <- coords (tram_geometry feature) ;;
    let tram_vertexs := List.length cs in
    logger_info ("      Tram ID : " +++ tram_id +++ "  |  Nº vèrtex : "
                 +++ PyStr.of_nat tram_vertexs)).

(* ---------------------------------------------------------------- *)
(** *** Attributes of the points *)

(** [abs(v - round(v, 1)) > 0.01] *)
Definition dif (v : num) : num := fabs (fsub v (fround1 v)).
Definition badly_rounded (p : PointGeom num) : bool :=
  fgtb (dif (px p)) ftol || fgtb (dif (py p)) ftol.

Definition decim_msg (feature : Punt num) : string :=
  "La fita " +++ PyStr.last_part (punt_ETIQUETA feature) +++ "  |  ID_PUNT : "
  +++ PyStr.last_part (punt_ID_PUNT feature) +++ " no està correctament decimetritzada".

Definition check_points_decimals (self : Self num) : M unit :=
  decim_valid <-
    for_fold (punt_line_gdf (layers self)) true (fun decim_valid feature =>
      if PyStr.mem (punt_ID_PUNT feature) (ppf_list self) then
        let point_x := px (punt_geometry feature) in
        let point_y := py (punt_geometry feature) in
        let dif_x := fabs (fsub point_x (fround1 point_x)) in
        let dif_y := fabs (fsub point_y (fround1 point_y)) in
        if fgtb dif_x ftol || fgtb dif_y ftol then
          logger_error (decim_msg feature) ;;
          ret false
        else ret decim_valid
      else ret decim_valid) ;;
  when decim_valid (logger_info "Les fites estan correctament decimetritzades").

Definition count_points (self : Self num) : M unit :=
  let df := p_proposta_df (layers self) in
  let not_final_points := filter (fun r => cell_eq (pp_PFF r) 0) df in
  let n_not_final_points := List.length not_final_points in
  let proposta_points :=
    filter (fun r => cell_eq (pp_PFF r) 1 && cell_eq (pp_ESFITA r) 1) df in
  let n_proposta_points := List.length proposta_points in
  let auxiliary_points :=
    filter (fun r => cell_eq (pp_PFF r) 1 && cell_eq (pp_ESFITA r) 0) df in
  let n_auxiliary_points := List.length auxiliary_points in
  logger_info ("      Fites PPF reals: " +++ PyStr.of_nat n_proposta_points) ;;
  logger_info ("      Fites PPF auxiliars: " +++ PyStr.of_nat n_auxiliary_points) ;;
  logger_info ("      Fites no finals: " +++ PyStr.of_nat n_not_final_points).

Definition is_null {A} (c : option A) : bool :=
  match c with None => true | Some _ => false end.
Definition not_null {A} (c : option A) : bool := negb (is_null c).

Definition ordpf_msg (feature : Proposta) : string :=
  "      El camp ORDPF del punt " +++ PyStr.last_part (pp_ID_PUNT feature)
  +++ " a la taula PUNT_FIT és nul.".

Definition check_ordpf (self : Self num) : M bool :=
  let points_ordpf_null :=
    filter (fun r => is_null (pp_ORDPF r)) (p_proposta_df (layers self)) in
  if negb (is_empty points_ordpf_null) then
    for_each points_ordpf_null (fun feature => logger_error (ordpf_msg feature)) ;;
    ret false
  else ret true.

Definition bad_auxiliary (r : Proposta) : bool :=
  cell_eq (pp_PFF r) 1 && cell_eq (pp_ORDPF r) 0 && cell_ne (pp_ESFITA r) 0.

Definition real_msg (feature : Proposta) : string :=
  "      El punt amb ID PUNT : " +++ PyStr.last_part (pp_ID_PUNT feature)
  +++ " està mal indicat a P_Proposta: sembla que es tracta "
  +++ "d'una fita auxiliar indicada com a fita real".

Definition check_real_points (self : Self num) : M bool :=
  let bad_auxiliary_points := filter bad_auxiliary (p_proposta_df (layers self)) in
  if negb (is_empty bad_auxiliary_points) then
    for_each bad_auxiliary_points (fun feature => logger_error (real_msg feature)) ;;
    ret false
  else ret true.

Definition info_p_proposta (self : Self num) : M unit :=
  logger_info "Informació de les fites :" ;;
  count_points self ;;
  ordpf_valid <- check_ordpf self ;;
  real_points_valid <- check_real_points self ;;
  when (ordpf_valid && real_points_valid)
    (logger_info "Tots els registre de la taula P_Proposta són vàlids.").

(* ---------------------------------------------------------------- *)
(** *** Found points *)

(** [self.founded_points_dict.items()] and [.values()]: the value
    [False] has neither. *)
Definition founded_items (self : Self num) : M (list (string * string)) :=
  match founded_points_dict self with
  | FoundedDict d => ret (PyDict.items d)
  | PyFalse => raise AttributeError
  end.
Definition founded_values (self : Self num) : M (list string) :=
  match founded_points_dict self with
  | FoundedDict d => ret (PyDict.values d)
  | PyFalse => raise AttributeError
  end.

Definition check_photo_exists (self : Self num) : M unit :=
  let points_with_photo :=
    filter (fun p => not_null (punt_FOTOS p)) (punt_line_gdf (layers self)) in
  let points_with_photo_list := map punt_ID_PUNT points_with_photo in
  let ppf_with_photo_list :=
    filter (fun point_id => PyStr.mem point_id (ppf_list self)) points_with_photo_list in
  items <- founded_items self ;;
  let founded_points_no_photo :=
    filter (fun kv => negb (PyStr.mem (snd kv) ppf_with_photo_list)) items in
  if is_empty founded_points_no_photo then
    logger_info "Totes les fites trobades tenen fotografia."
  else
    for_each founded_points_no_photo (fun kv =>
      let etiqueta := PyStr.last_part (fst kv) in
      let point_id := PyStr.last_part (snd kv) in
      logger_error ("      La fita " +++ etiqueta +++ "  |  ID PUNT : " +++ point_id
                    +++ " és trobada però no té cap fotografia indicada.")).

Definition check_photo_name (self : Self num) : M unit :=
  let folder_photos_filenames :=
    map fst
      (filter (fun f => snd f && (PyStr.endswith (fst f) ".jpg"
                                  || PyStr.endswith (fst f) ".JPG"))
              (photo_folder (layers self))) in
  let points_with_photo :=
    filter (fun p => not_null (punt_FOTOS p)) (punt_line_gdf (layers self)) in
  let founded_points_photos :=
    flat_map (fun feature =>
                if PyStr.mem (punt_ID_PUNT feature) (ppf_list self) then
                  match punt_FOTOS feature with
                  | Some f => [f]
                  | None => []
                  end
                else [])
             points_with_photo in
  photos_valid <-
    for_fold founded_points_photos true (fun photos_valid photo_filename =>
      if negb (PyStr.mem photo_filename folder_photos_filenames) then
        logger_error ("La fotografia " +++ photo_filename
                      +++ " no està a la carpeta de Fotografies.") ;;
        ret false
      else ret photos_valid) ;;
  when photos_valid
    (logger_info "Totes les fotografies informades a la capa Punt estan a la carpeta de Fotografies.").

(** [geometry.z]: a 2D point has none. *)
Definition z_of (p : PointGeom num) : M num :=
  match pz p with
  | Some z => ret z
  | None => raise DimensionError
  end.

Definition check_cota_fita (self : Self num) : M unit :=
  ppf_z_dict <-
    for_fold (punt_line_gdf (layers self)) ([] : PyDict.t string)
      (fun ppf_z_dict feature =>
         let etiqueta := punt_ETIQUETA feature in
         let point_id := punt_ID_PUNT feature in
         z_coord <- z_of (punt_geometry feature) ;;
         if fgtb z_coord fzero && PyStr.mem point_id (ppf_list self)
         then ret (PyDict.set etiqueta point_id ppf_z_dict)
         else ret ppf_z_dict) ;;
  z_coord_valid <-
    for_fold (PyDict.items ppf_z_dict) true (fun z_coord_valid kv =>
      founded <- founded_values self ;;
      if negb (PyStr.mem (snd kv) founded) then
        let etiqueta := PyStr.last_part (fst kv) in
        let point_id := PyStr.last_part (snd kv) in
        logger_error ("La F " +++ etiqueta +++ "  |  ID PUNT : " +++ point_id
                      +++ " té coordenada Z però no és fita trobada.") ;;
        ret false
      else ret z_coord_valid) ;;
  when z_coord_valid (logger_info "Totes les fites amb coordenada Z són trobades").

Definition check_found_points (self : Self num) : M unit :=
  check_photo_exists self ;;
  check_photo_name self ;;
  check_cota_fita self.

(* ---------------------------------------------------------------- *)
(** *** Points where three municipalities meet *)

(** Truth value of a CONTACTE cell: null and the empty text are false. *)
Definition contacte_truthy (c : option string) : bool :=
  match c with
  | Some s => negb (String.eqb s "")
  | None => false
  end.

Definition check_3termes (self : Self num) : M unit :=
  let sorted_points_df_temp := punt_line_gdf (layers self) in
  let etiquetes := map punt_ETIQUETA sorted_points_df_temp in
  etiquetes_int <-
    for_fold etiquetes [] (fun acc i =>
      match PyStr.search_digits i with
      | None => raise AttributeError
      | Some d => ret (acc ++ [PyStr.int_of_digits d])
      end) ;;
  let with_sorting := combine etiquetes_int sorted_points_df_temp in
  let sorted_points_df := map snd (sort_values with_sorting) in
  let sorted_points_df :=
    filter (fun p => PyStr.mem (punt_ID_PUNT p) (ppf_list self)) sorted_points_df in
  first_point <-
    first_item (filter (fun p => PyStr.mem (punt_ID_PUNT p) (ppf_list self))
                       sorted_points_df) ;;
  last_point <-
    last_item (filter (fun p => PyStr.mem (punt_ID_PUNT p) (ppf_list self))
                      sorted_points_df) ;;
  (if contacte_truthy (punt_CONTACTE first_point)
      && contacte_truthy (punt_CONTACTE last_point)
   then logger_info "Les fites 3T tenen informat el camp CONTACTE."
   else logger_error "Hi ha fites 3T que no tenen informat el camp CONTACTE.") ;;
  let informed_3t_points :=
    filter (fun p => not_null (punt_CONTACTE p)) (punt_line_gdf (layers self)) in
  let n_informed_3t_points := List.length informed_3t_points in
  logger_info ("Hi ha un total de " +++ PyStr.of_nat n_informed_3t_points
               +++ " fites amb el camp CONTACTE informat.").

(* ---------------------------------------------------------------- *)
(** *** Relation between the tables and the point layer *)

Definition proposta_rel_msg (point_id : string) : string :=
  "El registre amb ID PUNT : " +++ point_id
  +++ " de la taula P_PROPOSTA no està a la capa Punt.".
Definition punt_fit_rel_msg (point_id : string) : string :=
  "El registre amb ID PUNT : " +++ point_id
  +++ " de la taula PUNT_FIT no està a la capa Punt.".

(** The first loop: the flag, and the local [point_id] it leaves behind
    ([None] while it is not bound). *)
Definition relation_p_proposta (points_id_list : list string) (df : list Proposta)
  : M (bool * option string) :=
  for_fold df (true, None) (fun st feature =>
    let point_id := pp_ID_PUNT feature in
    if negb (PyStr.mem point_id points_id_list) then
      let point_id := PyStr.last_part point_id in
      logger_error (proposta_rel_msg point_id) ;;
      ret (false, Some point_id)
    else ret (fst st, Some point_id)).

(** The second loop: its message is built from [point_id], the variable
    of the first loop. *)
Definition relation_punt_fit (points_id_list : list string)
           (point_id : option string) (df : list PuntFit) : M bool :=
  for_fold df true (fun punt_fit_valid feature_ =>
    let point_id_ := pf_ID_PUNT feature_ in
    if negb (PyStr.mem point_id_ points_id_list) then
      match point_id with
      | None => raise UnboundLocalError
      | Some pid =>
          let point_id_ := PyStr.last_part pid in
          logger_error (punt_fit_rel_msg point_id_) ;;
          ret false
      end
    else ret punt_fit_valid).

Definition check_relation_points_tables (self : Self num) : M unit :=
  logger_info "Comprovant correspondència entre les taules i la capa Punt..." ;;
  let points_id_list := map punt_ID_PUNT (punt_line_gdf (layers self)) in
  st <- relation_p_proposta points_id_list (p_proposta_df (layers self)) ;;
  let p_proposta_valid := fst st in
  when p_proposta_valid
    (logger_info "      Correspondència OK entre els punts de P_PROPOSTA i Punt.") ;;
  punt_fit_valid <- relation_punt_fit points_id_list (snd st) (punt_fit_df (layers self)) ;;
  when punt_fit_valid
    (logger_info "      Correspondència OK entre els punts de PUNT_FIT i Punt.").

(* ---------------------------------------------------------------- *)
(** *** Topology *)

Definition check_line_crosses_itself (self : Self num) : M unit :=
  let trams := lin_tram_ppta_line_gdf (layers self) in
  let invalid_features := filter (fun t => negb (line_is_valid (tram_geometry t))) trams in
  valid <-
    (if negb (is_empty invalid_features) then
       for_each invalid_features (fun invalid_feature =>
         logger_error ("      El tram " +++ tram_ID invalid_feature
                       +++ " de la línia s'intersecta o toca a sí mateix.")) ;;
       ret false
     else ret true) ;;
  valid <-
    for_fold trams valid (fun valid tram =>
      let line := filter (fun t => geom_ne (tram_geometry t) (tram_geometry tram)) trams in
      for_fold line valid (fun valid tram_ =>
        if crosses (tram_geometry tram) (tram_geometry tram_) then
          logger_error ("      El tram " +++ tram_ID tram +++ " de la línia talla el "
                        +++ "tram " +++ tram_ID tram_ +++ " de la mateixa línia.") ;;
          ret false
        else ret valid)) ;;
  when valid
    (logger_info "      Els trams de la linia no s'intersecten o toquen a sí mateixos.").

(** [gpd.sjoin(left, right, op='contains')]: one row for every pair of a
    submitted segment and a database segment it contains. *)
Definition sjoin_contains (left : list (Tram num)) (right : list (TramMem num))
  : list (Tram num * TramMem num) :=
  flat_map (fun l =>
              map (fun r => (l, r))
                  (filter (fun r => contains (tram_geometry l) (tm_geometry r)) right))
           left.

Definition intersects_msg (tram_id : string) : string :=
  "      El tram " +++ tram_id +++ " de la línia talla algun tram de la base de dades.".
Definition overlaps_msg (tram_id : string) : string :=
  "      El tram " +++ tram_id +++ " de la línia es sobreposa a algun tram de la base de dades.".

Definition check_line_intersects_db (self : Self num) : M unit :=
  let features_intersects_db :=
    sjoin_contains (lin_tram_ppta_line_gdf (layers self)) (tram_line_mem_gdf (layers self)) in
  if negb (is_empty features_intersects_db) then
    for_each features_intersects_db (fun feature =>
      logger_error (intersects_msg (tram_ID (fst feature))))
  else
    logger_info "      Els trams de la linia no intersecten cap tram de la base de dades.".

Definition check_line_overlaps_db (self : Self num) : M unit :=
  let features_overlaps_db :=
    sjoin_contains (lin_tram_ppta_line_gdf (layers self)) (tram_line_mem_gdf (layers self)) in
  if negb (is_empty features_overlaps_db) then
    for_each features_overlaps_db (fun feature =>
      logger_error (overlaps_msg (tram_ID (fst feature))))
  else
    logger_info "      Els trams de la linia no es sobreposen a cap tram de la base de dades.".

Definition round_xy (v : num * num) : num * num :=
  (fround1 (fst v), fround1 (snd v)).

Definition endpoint_msg (tram_id : string) : string :=
  "      Algun dels punts finals del tram " +++ tram_id
  +++ " no coincideixen amb una fita de la capa Punt.".

Definition check_endpoint_covered_point (self : Self num) : M unit :=
  endpoint_covered <-
    for_fold (lin_tram_ppta_line_gdf (layers self)) true
      (fun endpoint_covered feature =>
         let tram_id := tram_ID feature in
         cs <- coords (tram_geometry feature) ;;
         first_endpoint_no_rounded <- first_item cs ;;
         let first_endpoint := round_xy first_endpoint_no_rounded in
         cs' <- coords (tram_geometry feature) ;;
         last_endpoint_no_rounded <- last_item cs' ;;
         let last_endpoint := round_xy last_endpoint_no_rounded in
         if negb (coords_mem (py_or first_endpoint last_endpoint)
                             (PyDict.values (points_coords_dict self)))
         then
           logger_error (endpoint_msg tram_id) ;;
           ret false
         else ret endpoint_covered) ;;
  when endpoint_covered
    (logger_info "      Tots els punts finals dels trams de la linia coincideixen amb una fita de la capa Punt.").

Definition aux_msg_info (n_fita point_id : string) : string :=
  "      La fita F " +++ n_fita +++ " | ID PUNT " +++ point_id
  +++ " no està a sobre de la linia però és auxiliar.".
Definition aux_msg_error (n_fita point_id : string) : string :=
  "      La fita F " +++ n_fita +++ " | ID PUNT " +++ point_id
  +++ " no està a sobre de la linia i NO és auxiliar.".

(** The body of the loop of [check_auxiliary_point] for one item of
    [points_coords_dict]. *)
Definition auxiliary_point_body (self : Self num) (item : string * (num * num))
  : M unit :=
  let point_id := fst item in
  let point_coords := snd item in
  if negb (coords_mem point_coords (line_coords_list self)) then
    if PyStr.mem point_id (ppf_list self) then
      let point :=
        filter (fun r => String.eqb (pf_ID_PUNT r) point_id) (punt_fit_df (layers self)) in
      aux <- first_item (map pf_AUX point) ;;
      n_fita <- first_item (map pf_ID_FITA point) ;;
      let point_id := PyStr.last_part point_id in
      if String.eqb aux "1" then logger_info (aux_msg_info n_fita point_id)
      else logger_error (aux_msg_error n_fita point_id)
    else ret tt
  else ret tt.

Definition check_auxiliary_point (self : Self num) : M unit :=
  for_each (PyDict.items (points_coords_dict self)) (auxiliary_point_body self).

Definition check_topology (self : Self num) : M unit :=
  logger_info "Iniciant controls topològics..." ;;
  check_line_crosses_itself self ;;
  check_line_intersects_db self ;;
  check_line_overlaps_db self ;;
  check_endpoint_covered_point self ;;
  check_auxiliary_point self.

(* ---------------------------------------------------------------- *)
(** *** The response *)

Definition set_result (r : string) : M unit :=
  fun w => (Return tt,
            {| log := log w;
               response_data := {| result := Some r;
                                   message := message (response_data w);
                                   reports := reports (response_data w) |} |}).
Definition set_message (m : string) : M unit :=
  fun w => (Return tt,
            {| log := log w;
               response_data := {| result := result (response_data w);
                                   message := Some m;
                                   reports := reports (response_data w) |} |}).
Definition set_reports (l : list ReportItem) : M unit :=
  fun w => (Return tt,
            {| log := log w;
               response_data := {| result := result (response_data w);
                                   message := message (response_data w);
                                   reports := Some l |} |}).

(** What the view renders: the response dictionary as it then is. *)
Definition the_response : M ResponseData :=
  fun w => (Return (response_data w), w).

Definition create_error_response (message : string) : M ResponseData :=
  logger_error message ;;
  set_result "error" ;;
  set_message message ;;
  the_response.

(** [l[1]] *)
Definition second_item {A} (l : list A) : M A :=
  match l with
  | _ :: a :: _ => ret a
  | _ => raise IndexError
  end.

Definition read_log : M string :=
  fun w => (Return (PyStr.read_text (log_text w)), w).

Definition add_response_data : M ResponseData :=
  text <- read_log ;;
  let reports := PyStr.splitlines text in
  report_list <-
    for_fold reports [] (fun report_list report =>
      report_level <- first_item (PyStr.split PyStr.hyphen report) ;;
      report_info <- second_item (PyStr.split PyStr.hyphen report) ;;
      let item := {| level := report_level; report_message := report_info |} in
      ret (report_list ++ [item])) ;;
  set_reports report_list ;;
  the_response.

Definition write_first_report (line_id_txt current_date : string) : M unit :=
  let init_log_report :=
    "ID Linia : " +++ line_id_txt +++ " |  Data i hora CQ : " +++ current_date in
  logger_info init_log_report.

(* ---------------------------------------------------------------- *)
(** *** The entry point *)

Definition schema_error_msg : string :=
  "L'estructura de camps de Lin_TramPpta.shp no és correcte i no es pot continuar el procés, donat que hi ha algun"
  +++ " camp que falta o sobra a la capa. Si us plau, revisa-la.".

(** The guard of the found-point checks in [get]. *)
Definition found_points_guard (self : Self num) : bool :=
  truthy (founded_points_dict self).

(** The checks [get] runs once the field structure has been accepted. *)
Definition run_checks (self : Self num) : M unit :=
  check_layers_geometry self ;;
  info_vertexs_line self ;;
  check_points_decimals self ;;
  info_p_proposta self ;;
  when (found_points_guard self) (check_found_points self) ;;
  check_3termes self ;;
  check_relation_points_tables self ;;
  check_topology self.

(** The attributes [get] sets before it starts checking; [line_coords]
    is what [get_round_line_coordinates] returned. *)
Definition set_attributes (ly : Layers num) (line_coords : list (num * num))
  : Self num :=
  let ppf := get_ppf_list ly in
  {| layers := ly;
     ppf_list := ppf;
     founded_points_dict := get_founded_points_dict ly ppf;
     points_coords_dict := get_round_point_coordinates ly;
     line_coords_list := line_coords |}.

(** [get], from the point where the layers are loaded: the workspace
    has been set up and the layers copied, and [ly] is what
    [set_layers_gdf] read.  The three attributes computed without
    touching the logger are set together with the line coordinates. *)
Definition get (ly : Layers num) : M ResponseData :=
  line_coords <- get_round_line_coordinates ly ;;
  let self := set_attributes ly line_coords in
  check_line_id_exists self ;;
  lin_tram_ppta_ok <- check_lin_tram_ppta_layer self ;;
  if negb lin_tram_ppta_ok then
    create_error_response schema_error_msg
  else
    run_checks self ;;
    set_result "OK" ;;
    set_message ("Linia " +++ line_id ly +++ " checkejada") ;;
    add_response_data.

End CheckQualityLine.

(* ================================================================== *)
(** ** Vocabulary of the statements *)
(* ================================================================== *)

Definition info (s : string) : LogRecord := {| levelname := INFO; msg := s |}.
Definition err (s : string) : LogRecord := {| levelname := ERROR; msg := s |}.

(** The world after the logger has written the records [rs]. *)
Definition append_log (w : World) (rs : list LogRecord) : World :=
  {| log := log w ++ rs; response_data := response_data w |}.

(** [m], run in [w], returns [a] after writing exactly the records [rs]. *)
Definition writes {A} (m : M A) (w : World) (a : A) (rs : list LogRecord) : Prop :=
  m w = (Return a, append_log w rs).

Definition is_error (r : LogRecord) : bool :=
  match levelname r with ERROR => true | INFO => false end.

Section Reports.

Context {num : Type} {F : PyFloat num} {G : Shapely num} {pd : Pandas}.

(** What one record of P_Proposta adds to the report of [check_ordpf]
    and of [check_real_points]. *)
Definition ordpf_report (r : Proposta) : list LogRecord :=
  if is_null (pp_ORDPF r) then [err (ordpf_msg r)] else [].
Definition real_report (r : Proposta) : list LogRecord :=
  if bad_auxiliary r then [err (real_msg r)] else [].

(** What one feature of Punt adds to the report of
    [check_points_decimals]. *)
Definition decim_report (ppf : list string) (p : Punt num) : list LogRecord :=
  if PyStr.mem (punt_ID_PUNT p) ppf && badly_rounded (punt_geometry p)
  then [err (decim_msg p)] else [].

(** The segments the join with the database layer returns, one per row. *)
Definition flagged_segments (self : Self num) : list string :=
  map (fun f => tram_ID (fst f))
      (sjoin_contains (lin_tram_ppta_line_gdf (layers self))
                      (tram_line_mem_gdf (layers self))).

(** The report of a check against the database layer: an error per
    flagged segment, or one remark when none is flagged. *)
Definition db_report (error_text : string -> string) (none_text : string)
           (flagged : list string) : list LogRecord :=
  if is_empty flagged then [info none_text]
  else map (fun tram_id => err (error_text tram_id)) flagged.

(** An item of [points_coords_dict] for which [check_auxiliary_point]
    consults PUNT_FIT: off the line and in the final proposal. *)
Definition needs_lookup (self : Self num) (item : string * (num * num)) : bool :=
  negb (coords_mem (snd item) (line_coords_list self))
  && PyStr.mem (fst item) (ppf_list self).

Definition has_punt_fit_record (self : Self num) (point_id : string) : bool :=
  existsb (fun r => String.eqb (pf_ID_PUNT r) point_id) (punt_fit_df (layers self)).

(** The lookup for an item is in bounds, or is not made. *)
Definition lookup_ok (self : Self num) (item : string * (num * num)) : bool :=
  negb (needs_lookup self item) || has_punt_fit_record self (fst item).

(** Every point of the final proposal whose rounded coordinates are not
    among the vertices of the line has a record in PUNT_FIT. *)
Definition aux_precondition (self : Self num) : Prop :=
  forall item : string * (num * num),
    In item (PyDict.items (points_coords_dict self)) ->
    coords_mem (snd item) (line_coords_list self) = false ->
    PyStr.mem (fst item) (ppf_list self) = true ->
    exists r : PuntFit,
      In r (punt_fit_df (layers self)) /\ pf_ID_PUNT r = fst item.

(** The records of a table whose ID_PUNT is not in the layer Punt. *)
Definition missing_id (self : Self num) (point_id : string) : bool :=
  negb (PyStr.mem point_id (map punt_ID_PUNT (punt_line_gdf (layers self)))).
Definition missing_p_proposta (self : Self num) : list Proposta :=
  filter (fun r => missing_id self (pp_ID_PUNT r)) (p_proposta_df (layers self)).
Definition missing_punt_fit (self : Self num) : list PuntFit :=
  filter (fun r => missing_id self (pf_ID_PUNT r)) (punt_fit_df (layers self)).

(** The value of the local [point_id] after the loop over P_Proposta
    has seen the records [df], starting from [o]. *)
Definition point_id_after (ids : list string) (o : option string)
           (df : list Proposta) : option string :=
  fold_left
    (fun _ r =>
       Some (if negb (PyStr.mem (pp_ID_PUNT r) ids)
             then PyStr.last_part (pp_ID_PUNT r) else pp_ID_PUNT r))
    df o.

(** The error entries of a report whose message contains [text]. *)
Definition errors_naming (text : string) (rs : list LogRecord) : list LogRecord :=
  filter (fun r => is_error r && PyStr.contains text (msg r)) rs.

(** C8 as the specification words it: every identifier that a table
    holds and the layer Punt lacks has exactly one error entry naming
    it. *)
Definition one_error_per_missing_identifier
           (self : Self num) (rs : list LogRecord) : Prop :=
  forall point_id : string,
    In point_id (map pp_ID_PUNT (p_proposta_df (layers self)))
    \/ In point_id (map pf_ID_PUNT (punt_fit_df (layers self))) ->
    ~ In point_id (map punt_ID_PUNT (punt_line_gdf (layers self))) ->
    List.length (errors_naming point_id rs) = 1.

(** C9 as the specification words it: the found-point checks run
    exactly when PUNT_FIT records some marker as found. *)
Definition guard_iff_some_marker_found (self : Self num) : Prop :=
  found_points_guard self = true
  <-> exists r : PuntFit,
        In r (punt_fit_df (layers self)) /\ pf_TROBADA r = "1".

(** PUNT_FIT has a record that is found and whose point is of the final
    proposal. *)
Definition found_final_point (ly : Layers num) : Prop :=
  exists r : PuntFit,
    In r (punt_fit_df ly)
    /\ pf_TROBADA r = "1"
    /\ In (pf_ID_PUNT r) (get_ppf_list ly).

(** The checks that [run_checks] calls before the guarded call of the
    found-point checks, and those it calls after it. *)
Definition checks_before_found (self : Self num) : M unit :=
  check_layers_geometry self ;;
  info_vertexs_line self ;;
  check_points_decimals self ;;
  info_p_proposta self.
Definition checks_after_found (self : Self num) : M unit :=
  check_3termes self ;;
  check_relation_points_tables self ;;
  check_topology self.

End Reports.

(* ================================================================== *)
(** ** Concrete submissions *)
(* ================================================================== *)

(** Submissions of line 1234 with one straight segment from (0, 0) to
    (10, 0) and no database layer. *)
Module Examples.
Import Float64.

(** Shapely on these submissions: the segment is valid and not empty,
    the points are valid; with one segment and no database line,
    [crosses] and [contains] are never consulted. *)
#[export] Instance shapely : Shapely float := {|
  line_is_empty := fun g => is_empty (vertices g);
  line_is_valid := fun _ => true;
  point_is_empty := fun _ => false;
  point_is_valid := fun _ => true;
  geom_ne := fun _ _ => false;
  crosses := fun _ _ => false;
  contains := fun _ _ => false
|}.

(** Sorting on these submissions: insertion by key.  The points of a
    submission below have distinct label numbers, and rows with distinct
    keys have one ascending order, so every instance of the interface
    arranges them as this one does. *)
Fixpoint insert_sorted {A} (x : nat * A) (l : list (nat * A)) : list (nat * A) :=
  match l with
  | [] => [x]
  | y :: l' =>
      if (fst x <=? fst y)%nat then x :: y :: l'
      else y :: insert_sorted x l'
  end.
Definition insertion_sort {A} (l : list (nat * A)) : list (nat * A) :=
  fold_right insert_sorted [] l.

#[export, refine] Instance pandas : Pandas := {| sort_values := @insertion_sort |}.
Proof.
  - intros A l. unfold insertion_sort.
    induction l as [|x l IH]; simpl; [constructor|].
    transitivity (x :: fold_right insert_sorted [] l); [|now constructor].
    clear IH. induction (fold_right insert_sorted [] l) as [|y l' IH]; simpl;
      [reflexivity|].
    destruct (fst x <=? fst y)%nat; [reflexivity|].
    rewrite IH. apply perm_swap.
  - intros A l. unfold insertion_sort.
    induction l as [|x l IH]; simpl; [constructor|].
    induction IH as [|y l' Hs IH' Hhd]; simpl.
    + constructor; constructor.
    + destruct (Nat.leb_spec (fst x) (fst y)) as [Hle|Hlt].
      * constructor; [now constructor | constructor; exact Hle].
      * constructor; [exact IH'|].
        destruct l' as [|z l']; simpl.
        -- constructor. lia.
        -- destruct (Nat.leb_spec (fst x) (fst z)); constructor; [lia|].
           now inversion Hhd.
Defined.

Definition w0 : World :=
  {| log := [];
     response_data := {| result := None; message := None; reports := None |} |}.

Definition segment : Tram float :=
  {| tram_ID := "1"; tram_ID_LINIA := 1234%Z;
     tram_ID_FITA1 := "1234-F1"; tram_ID_FITA2 := "1234-F2";
     tram_geometry := {| geom_type := LineString;
                         vertices := [(0, 0); (10, 0)]%float;
                         geoms_repr := "" |} |}.

Definition punt (point_id etiqueta : string) (x y : float) : Punt float :=
  {| punt_ID_PUNT := point_id; punt_ETIQUETA := etiqueta;
     punt_FOTOS := None; punt_CONTACTE := Some "1233";
     punt_geometry := {| px := x; py := y; pz := None |} |}.

Definition proposta (point_id : string) (ordpf : Z) : Proposta :=
  {| pp_ID_PUNT := point_id; pp_PFF := Some 1%Z; pp_ESFITA := Some 1%Z;
     pp_ORDPF := Some ordpf |}.

Definition submission (punts : list (Punt float)) (p : list Proposta)
           (f : list PuntFit) : Layers float :=
  {| line_id := "1234"; line_id_int := Some 1234%Z;
     tram_line_mem_gdf := []; fita_mem_gdf := [];
     lin_tram_ppta_columns := true_fields;
     lin_tram_ppta_line_gdf := [segment];
     punt_line_gdf := punts;
     p_proposta_df := p;
     punt_fit_df := f;
     photo_folder := [] |}.

(** Both markers of the final proposal on the ends of the segment. *)
Definition two_punts : list (Punt float) :=
  [punt "1234-1" "F-1" 0 0; punt "1234-2" "F-2" 10 0].
Definition two_propostes : list Proposta :=
  [proposta "1234-1" 1; proposta "1234-2" 2].

(** A third marker, on the line, recorded as found but not of the final
    proposal (PFF = 0). *)
Definition found_not_final : Layers float :=
  submission
    (two_punts ++ [punt "1234-9" "F-9" 10 0])
    (two_propostes ++ [{| pp_ID_PUNT := "1234-9"; pp_PFF := Some 0%Z;
                          pp_ESFITA := Some 1%Z; pp_ORDPF := Some 3%Z |}])
    [{| pf_ID_PUNT := "1234-9"; pf_ID_FITA := "1234-F9";
        pf_TROBADA := "1"; pf_AUX := "0" |}].

(** A point referenced by both tables and absent from the layer Punt. *)
Definition dangling_reference : Layers float :=
  submission two_punts
    (two_propostes ++ [proposta "1234-7" 3])
    [{| pf_ID_PUNT := "1234-7"; pf_ID_FITA := "1234-F7";
        pf_TROBADA := "0"; pf_AUX := "0" |}].

(** Only the first end of the segment has a marker. *)
Definition open_end : Layers float :=
  submission [punt "1234-1" "F-1" 0 0] [proposta "1234-1" 1] [].

(** The second marker lies off the line and PUNT_FIT has no record of
    it. *)
Definition off_line_unrecorded : Layers float :=
  submission [punt "1234-1" "F-1" 0 0; punt "1234-2" "F-2" 10 5]
             two_propostes [].

(** The layer Lin_TramPpta without the field PF, and with two more. *)
Definition without_pf : Layers float :=
  {| line_id := "1234"; line_id_int := Some 1234%Z;
     tram_line_mem_gdf := []; fita_mem_gdf := [];
     lin_tram_ppta_columns :=
       ["ID_LINIA"; "ID"; "DATA"; "COMENTARI"; "P1"; "P2"; "P3"; "P4";
        "ID_FITA1"; "ID_FITA2"; "geometry"; "OBS"; "AUTOR"];
     lin_tram_ppta_line_gdf := [segment];
     punt_line_gdf := two_punts;
     p_proposta_df := two_propostes;
     punt_fit_df := [];
     photo_folder := [] |}.

Definition self_of (ly : Layers float) : Self float :=
  set_attributes ly [(0, 0); (10, 0)]%float.

End Examples.

(* ================================================================== *)
(** ** The workspace: directories and entities *)
(* ================================================================== *)

(** What the file system answers to the workspace checks:
    whether DocDelim exists in the folder of the line, what
    [os.listdir] lists in it, and whether a name exists in the folders
    Cartografia and Taules. *)
Record Folders := {
  doc_delim_exists : bool;
  doc_delim_listing : list string;
  carto_has : string -> bool;
  tables_has : string -> bool
}.

(** [check_directories], over the list SUB_DIR_LIST of the configuration.
    The method returns [True] or, falling off its end, [None]. *)
Definition check_directories (SUB_DIR_LIST : list string) (fs : Folders)
  : M (option bool) :=
  tree_valid <-
    (if doc_delim_exists fs then
       for_fold SUB_DIR_LIST true (fun tree_valid sub_dir =>
         if negb (PyStr.mem sub_dir (doc_delim_listing fs)) then
           logger_error ("No existeix el subdirectori " +++ sub_dir) ;;
           ret false
         else ret tree_valid)
     else
       logger_error "No existeix DocDelim dins el directori de la linia" ;;
       ret false) ;;
  if (tree_valid : bool) then
    logger_info "Estructura de directoris OK" ;;
    ret (Some tree_valid)
  else ret None.

(** [check_entities_exist], over the lists SHAPES_LIST and TABLE_LIST of
    the configuration. *)
Definition check_entities_exist (SHAPES_LIST TABLE_LIST : list string)
           (fs : Folders) : M bool :=
  let shapes_exist :=
    fold_left (fun _ shape => if carto_has fs shape then true else false)
              SHAPES_LIST false in
  let tables_exist :=
    fold_left (fun _ dbf => if tables_has fs dbf then true else false)
              TABLE_LIST false in
  if negb shapes_exist && negb tables_exist then
    logger_error "Falten capes i taules necessàries a les carpetes de Cartografia i Taules" ;;
    ret false
  else if negb shapes_exist && tables_exist then
    logger_error "Falten capes necessàries a la carpeta de Cartografia" ;;
    ret false
  else if shapes_exist && negb tables_exist then
    logger_error "Falten taules necessàries a la carpeta de Taules" ;;
    ret false
  else ret true.

(** Whether the last name of a list exists; false for the empty list. *)
Definition last_exists (has : string -> bool) (l : list string) : bool :=
  match l with
  | [] => false
  | x :: l' => has (last l' x)
  end.

(* ================================================================== *)
(** ** Vocabulary of further statements *)
(* ================================================================== *)

(** Characters and texts that survive the report file: no hyphen, and no
    line boundary of [str.splitlines]. *)
Module Clean.

Fixpoint has_hyphen (s : string) : bool :=
  match s with
  | EmptyString => false
  | String c s' => Ascii.eqb c PyStr.hyphen || has_hyphen s'
  end.

(** Whether [c], followed by [s], opens the encoding of U+0085, U+2028
    or U+2029. *)
Definition opens_boundary (c : ascii) (s : string) : bool :=
  match s with
  | String c1 s2 =>
      (Ascii.eqb c (PyStr.chr 194) && Ascii.eqb c1 (PyStr.chr 133))
      || match s2 with
         | String c2 _ =>
             Ascii.eqb c (PyStr.chr 226) && Ascii.eqb c1 (PyStr.chr 128)
             && (Ascii.eqb c2 (PyStr.chr 168) || Ascii.eqb c2 (PyStr.chr 169))
         | EmptyString => false
         end
  | EmptyString => false
  end.

(** Whether [str.splitlines] finds a line boundary inside [s]. *)
Fixpoint has_boundary (s : string) : bool :=
  match s with
  | EmptyString => false
  | String c s1 =>
      PyStr.is_linebreak c || opens_boundary c s1 || has_boundary s1
  end.

(** The part of [s] before its first hyphen: [s.split('-')[0]]. *)
Fixpoint before_hyphen (s : string) : string :=
  match s with
  | EmptyString => EmptyString
  | String c s' =>
      if Ascii.eqb c PyStr.hyphen then EmptyString else String c (before_hyphen s')
  end.

(** A text without hyphen and without line boundary. *)
Definition text (s : string) : bool :=
  negb (has_hyphen s) && negb (has_boundary s).

End Clean.

(** The line of the report file for a record, without its terminator. *)
Definition log_line (r : LogRecord) : string :=
  level_text (levelname r) +++ " - " +++ msg r.

(** The item of the response that a log record comes back as: the level
    with the blank before the separator, and the message, with the blank
    after the separator, up to its first hyphen. *)
Definition item_of (r : LogRecord) : ReportItem :=
  {| level := level_text (levelname r) +++ " ";
     report_message := " " +++ Clean.before_hyphen (msg r) |}.

(** An action that, whatever it returns or raises, leaves the world as
    it found it but for records added at the end of the report file. *)
Definition appends_only {A} (m : M A) : Prop :=
  forall (w : World) (o : Outcome A) (w' : World),
    m w = (o, w') -> exists rs : list LogRecord, w' = append_log w rs.

Section MoreReports.

Context {num : Type} {F : PyFloat num} {G : Shapely num} {pd : Pandas}.

(** The one entry of [check_line_id_exists], by where the line ID is. *)
Definition line_id_report (in_fita in_tram : bool) : LogRecord :=
  match in_fita, in_tram with
  | true, true => err "L'ID Linia introduït està en fita_mem i tram_linia_mem"
  | true, false => err "L'ID Linia introduït està en fita_mem però no en lin_tram_mem"
  | false, true => err "L'ID Linia introduït no està en fita_mem però sí en lin_tram_mem"
  | false, false => info "L'ID Linia no està repetit a fita_mem i lin_tram_mem de SIDM3"
  end.

Definition is_linestring (g : LineGeom num) : bool :=
  match geom_type g with LineString => true | MultiLineString => false end.

(** The rows of Punt as items of [points_coords_dict]. *)
Definition coords_item (p : Punt num) : string * (num * num) :=
  (punt_ID_PUNT p, (fround1 (px (punt_geometry p)), fround1 (py (punt_geometry p)))).

Definition tram_empty_msg (t : Tram num) : LogRecord :=
  err ("      El tram " +++ tram_ID t +++ " està buit").
Definition tram_ring_msg (t : Tram num) : LogRecord :=
  err ("      El tram " +++ tram_ID t +++ " té un anell interior").
Definition tram_multi_msg (t : Tram num) : LogRecord :=
  err ("      El tram " +++ tram_ID t +++ " és multi-part i té "
       +++ geoms_repr (tram_geometry t) +++ " parts").

Definition punt_empty_msg (p : Punt num) : LogRecord :=
  err ("      El punt " +++ punt_ID_PUNT p +++ " està buit").
Definition punt_invalid_msg (p : Punt num) : LogRecord :=
  err ("      El punt " +++ punt_ID_PUNT p +++ " no té una geometria vàlida").

(** The three counts [count_points] writes. *)
Definition count_report (df : list Proposta) : list LogRecord :=
  [info ("      Fites PPF reals: "
         +++ PyStr.of_nat (List.length
               (filter (fun r => cell_eq (pp_PFF r) 1 && cell_eq (pp_ESFITA r) 1) df)));
   info ("      Fites PPF auxiliars: "
         +++ PyStr.of_nat (List.length
               (filter (fun r => cell_eq (pp_PFF r) 1 && cell_eq (pp_ESFITA r) 0) df)));
   info ("      Fites no finals: "
         +++ PyStr.of_nat (List.length (filter (fun r => cell_eq (pp_PFF r) 0) df)))].

Definition photo_missing_msg (photo_filename : string) : LogRecord :=
  err ("La fotografia " +++ photo_filename +++ " no està a la carpeta de Fotografies.").

(** The photo files of the folder that [check_photo_name] accepts. *)
Definition folder_photos (ly : Layers num) : list string :=
  map fst
    (filter (fun f => snd f && (PyStr.endswith (fst f) ".jpg"
                                || PyStr.endswith (fst f) ".JPG"))
            (photo_folder ly)).

(** The photo names of the points of the final proposal. *)
Definition ppf_photos (self : Self num) : list string :=
  flat_map (fun feature =>
              if PyStr.mem (punt_ID_PUNT feature) (ppf_list self) then
                match punt_FOTOS feature with
                | Some f => [f]
                | None => []
                end
              else [])
           (punt_line_gdf (layers self)).

Definition no_photo_msg (kv : string * string) : LogRecord :=
  err ("      La fita " +++ PyStr.last_part (fst kv) +++ "  |  ID PUNT : "
       +++ PyStr.last_part (snd kv)
       +++ " és trobada però no té cap fotografia indicada.").

(** The found points without a photo, as [check_photo_exists] selects
    them from a dictionary of found points. *)
Definition founded_no_photo (self : Self num) (d : PyDict.t string)
  : list (string * string) :=
  let ppf_with_photo_list :=
    filter (fun point_id => PyStr.mem point_id (ppf_list self))
           (map punt_ID_PUNT
                (filter (fun p => not_null (punt_FOTOS p)) (punt_line_gdf (layers self)))) in
  filter (fun kv => negb (PyStr.mem (snd kv) ppf_with_photo_list)) (PyDict.items d).

(** The number of a label: its first run of digits. *)
Definition label_number (etiqueta : string) : nat :=
  match PyStr.search_digits etiqueta with
  | Some d => PyStr.int_of_digits d
  | None => 0
  end.

Definition has_number (etiqueta : string) : bool :=
  match PyStr.search_digits etiqueta with Some _ => true | None => false end.

(** The points of the final proposal in the order of their label
    numbers, as [check_3termes] arranges them. *)
Definition ppf_by_label (self : Self num) : list (Punt num) :=
  filter (fun p => PyStr.mem (punt_ID_PUNT p) (ppf_list self))
         (map snd
              (sort_values
                 (combine (map (fun p => label_number (punt_ETIQUETA p))
                               (punt_line_gdf (layers self)))
                          (punt_line_gdf (layers self))))).

Definition contacte_count_msg (self : Self num) : LogRecord :=
  info ("Hi ha un total de "
        +++ PyStr.of_nat
              (List.length (filter (fun p => not_null (punt_CONTACTE p))
                                   (punt_line_gdf (layers self))))
        +++ " fites amb el camp CONTACTE informat.").

Definition tram_invalid_msg (t : Tram num) : LogRecord :=
  err ("      El tram " +++ tram_ID t
       +++ " de la línia s'intersecta o toca a sí mateix.").
Definition tram_crosses_msg (tram tram_ : Tram num) : LogRecord :=
  err ("      El tram " +++ tram_ID tram +++ " de la línia talla el "
       +++ "tram " +++ tram_ID tram_ +++ " de la mateixa línia.").

(** The segments a segment is compared with, and those it crosses. *)
Definition crossed_by (trams : list (Tram num)) (tram : Tram num) : list (Tram num) :=
  filter (fun tram_ => crosses (tram_geometry tram) (tram_geometry tram_))
         (filter (fun t => geom_ne (tram_geometry t) (tram_geometry tram)) trams).

(** The first vertex of a segment, rounded, is matched by no marker. *)
Definition first_end_unmatched (self : Self num) (t : Tram num) : bool :=
  match vertices (tram_geometry t) with
  | [] => false
  | v :: _ => negb (coords_mem (round_xy v) (PyDict.values (points_coords_dict self)))
  end.

(** What an item of [points_coords_dict] adds to the report of
    [check_auxiliary_point] when its lookup is in bounds. *)
Definition aux_report (self : Self num) (item : string * (num * num))
  : list LogRecord :=
  if needs_lookup self item then
    match filter (fun r => String.eqb (pf_ID_PUNT r) (fst item))
                 (punt_fit_df (layers self)) with
    | r :: _ =>
        if String.eqb (pf_AUX r) "1"
        then [info (aux_msg_info (pf_ID_FITA r) (PyStr.last_part (fst item)))]
        else [err (aux_msg_error (pf_ID_FITA r) (PyStr.last_part (fst item)))]
    | [] => []
    end
  else [].

(** The row of the layer Punt that gives [points_coords_dict] its item
    for [point_id]: the last one with that ID_PUNT. *)
Definition last_row (point_id : string) (rows : list (Punt num))
  : option (Punt num) :=
  find (fun p => String.eqb (punt_ID_PUNT p) point_id) (rev rows).

(** C10 as the specification words it: every marker point of the final
    proposal whose rounded coordinates are not among the vertices of the
    line has a record in PUNT_FIT. *)
Definition off_line_final_points_have_record
           (ly : Layers num) (line_coords : list (num * num)) : Prop :=
  forall p : Punt num,
    In p (punt_line_gdf ly) ->
    coords_mem (snd (coords_item p)) line_coords = false ->
    PyStr.mem (punt_ID_PUNT p) (get_ppf_list ly) = true ->
    exists r : PuntFit,
      In r (punt_fit_df ly) /\ pf_ID_PUNT r = punt_ID_PUNT p.

(** The same of the marker points that are the last of the layer with
    their ID_PUNT. *)
Definition aux_precondition_rows
           (ly : Layers num) (line_coords : list (num * num)) : Prop :=
  forall p : Punt num,
    last_row (punt_ID_PUNT p) (punt_line_gdf ly) = Some p ->
    coords_mem (snd (coords_item p)) line_coords = false ->
    PyStr.mem (punt_ID_PUNT p) (get_ppf_list ly) = true ->
    exists r : PuntFit,
      In r (punt_fit_df ly) /\ pf_ID_PUNT r = punt_ID_PUNT p.

(** The ID_PUNT held for an ID_FITA by the dictionary of found points:
    that of the last record of PUNT_FIT with this ID_FITA among the
    records that are found and whose point is in [ppf]. *)
Definition founded_point (ly : Layers num) (ppf : list string) (id_fita : string)
  : option string :=
  option_map pf_ID_PUNT
    (find (fun r => String.eqb (pf_TROBADA r) "1"
                    && PyStr.mem (pf_ID_PUNT r) ppf
                    && String.eqb (pf_ID_FITA r) id_fita)
          (rev (punt_fit_df ly))).

(** The dictionary that the first loop of [check_cota_fita] builds when
    every point has a z: label and ID of the points of the final proposal
    with a positive z. *)
Definition ppf_z_dict (self : Self num) : PyDict.t string :=
  fold_left
    (fun d feature =>
       match pz (punt_geometry feature) with
       | Some z_coord =>
           if fgtb z_coord fzero && PyStr.mem (punt_ID_PUNT feature) (ppf_list self)
           then PyDict.set (punt_ETIQUETA feature) (punt_ID_PUNT feature) d
           else d
       | None => d
       end)
    (punt_line_gdf (layers self)) [].

Definition cota_msg (kv : string * string) : LogRecord :=
  err ("La F " +++ PyStr.last_part (fst kv) +++ "  |  ID PUNT : "
       +++ PyStr.last_part (snd kv) +++ " té coordenada Z però no és fita trobada.").

End MoreReports.

(* ================================================================== *)
(** ** More concrete submissions *)
(* ================================================================== *)

Module MoreExamples.
Import Float64 Examples.

Definition punt3d (point_id etiqueta : string) (x y z : float) (foto : option string)
  : Punt float :=
  {| punt_ID_PUNT := point_id; punt_ETIQUETA := etiqueta;
     punt_FOTOS := foto; punt_CONTACTE := Some "1233";
     punt_geometry := {| px := x; py := y; pz := Some z |} |}.

(** Marker 1234-1 is found, has a height and a photo indicated as
    F1.jpeg; the photo folder holds F1.jpeg and F2.jpg. *)
Definition found_final : Layers float :=
  {| line_id := "1234"; line_id_int := Some 1234%Z;
     tram_line_mem_gdf := []; fita_mem_gdf := [];
     lin_tram_ppta_columns := true_fields;
     lin_tram_ppta_line_gdf := [segment];
     punt_line_gdf :=
       [punt3d "1234-1" "F-1" 0 0 152.5 (Some "F1.jpeg");
        punt3d "1234-2" "F-2" 10 0 0 None];
     p_proposta_df := two_propostes;
     punt_fit_df :=
       [{| pf_ID_PUNT := "1234-1"; pf_ID_FITA := "1234-F1";
           pf_TROBADA := "1"; pf_AUX := "0" |}];
     photo_folder := [("F1.jpeg", true); ("F2.jpg", true)] |}.

(** No record in P_Proposta: no point is of the final proposal. *)
Definition no_final_points : Layers float := submission two_punts [] [].

(** No record in P_Proposta, and PUNT_FIT refers to a point that the
    layer Punt lacks. *)
Definition unbound_reference : Layers float :=
  submission two_punts []
    [{| pf_ID_PUNT := "1234-7"; pf_ID_FITA := "1234-F7";
        pf_TROBADA := "0"; pf_AUX := "0" |}].

(** A report file with two entries, the second with hyphens. *)
Definition two_entries : World :=
  {| log := [info "Punt :";
             err "      La fita F 1234-F2 | ID PUNT 2 no està a sobre de la linia i NO és auxiliar."];
     response_data := {| result := Some "OK"; message := None; reports := None |} |}.

(** Markers 1234-2 and 1234-3 of the final proposal lie off the line,
    1234-3 at x = 5.25, read as 5.2; PUNT_FIT records 1234-2 as auxiliary
    and has two records of 1234-3, the first one not auxiliary.  Marker
    1234-4, off the line at (7, 7), is not of the final proposal and has
    no record. *)
Definition off_line_recorded : Layers float :=
  submission
    [punt "1234-1" "F-1" 0 0; punt "1234-2" "F-2" 10 5;
     punt "1234-3" "F-3" 5.25 2; punt "1234-4" "F-4" 7 7]
    (two_propostes
       ++ [proposta "1234-3" 3;
           {| pp_ID_PUNT := "1234-4"; pp_PFF := Some 0%Z;
              pp_ESFITA := Some 1%Z; pp_ORDPF := Some 4%Z |}])
    [{| pf_ID_PUNT := "1234-2"; pf_ID_FITA := "1234-F2";
        pf_TROBADA := "0"; pf_AUX := "1" |};
     {| pf_ID_PUNT := "1234-3"; pf_ID_FITA := "1234-F3";
        pf_TROBADA := "0"; pf_AUX := "0" |};
     {| pf_ID_PUNT := "1234-3"; pf_ID_FITA := "1234-F30";
        pf_TROBADA := "0"; pf_AUX := "1" |}].

(** The layer Punt holds the ID 1234-1 twice: first off the line at
    (10, 5), then on it at (0, 0).  The point is of the final proposal
    and PUNT_FIT is empty. *)
Definition repeated_id : Layers float :=
  submission [punt "1234-1" "F-1" 10 5; punt "1234-1" "F-2" 0 0]
             [proposta "1234-1" 1] [].

(** Two records of PUNT_FIT share the ID_FITA 1234-F1, both found and
    of the final proposal; a third, found, is not of the final
    proposal. *)
Definition shared_id_fita : Layers float :=
  submission two_punts two_propostes
    [{| pf_ID_PUNT := "1234-1"; pf_ID_FITA := "1234-F1";
        pf_TROBADA := "1"; pf_AUX := "0" |};
     {| pf_ID_PUNT := "1234-9"; pf_ID_FITA := "1234-F9";
        pf_TROBADA := "1"; pf_AUX := "0" |};
     {| pf_ID_PUNT := "1234-2"; pf_ID_FITA := "1234-F1";
        pf_TROBADA := "1"; pf_AUX := "0" |}].

End MoreExamples.

(* ================================================================== *)
(** ** The monad and its loops *)
(* ================================================================== *)

Lemma append_log_nil (w : World) : append_log w [] = w.
Proof. destruct w; unfold append_log; simpl. now rewrite app_nil_r. Qed.

Lemma append_log_app (w : World) (a b : list LogRecord) :
  append_log (append_log w a) b = append_log w (a ++ b).
Proof. unfold append_log; simpl. now rewrite app_assoc. Qed.

Lemma writes_ret {A} (a : A) (w : World) : writes (ret a) w a [].
Proof. unfold writes, ret. now rewrite append_log_nil. Qed.

Lemma writes_emit (r : LogRecord) (w : World) : writes (emit r) w tt [r].
Proof. reflexivity. Qed.

Lemma writes_bind {A B} (m : M A) (f : A -> M B) w a rs b rs' :
  writes m w a rs ->
  writes (f a) (append_log w rs) b rs' ->
  writes (bind m f) w b (rs ++ rs').
Proof.
  unfold writes, bind. intros -> ->. now rewrite append_log_app.
Qed.

Lemma bind_returns {A B} (m : M A) (f : A -> M B) w a w' :
  m w = (Return a, w') -> bind m f w = f a w'.
Proof. unfold bind. now intros ->. Qed.

Lemma bind_raises {A B} (m : M A) (f : A -> M B) w e w' :
  m w = (Raise e, w') -> bind m f w = (Raise e, w').
Proof. unfold bind. now intros ->. Qed.

Lemma writes_when (c : bool) (m : M unit) w rs :
  (c = true -> writes m w tt rs) ->
  writes (when c m) w tt (if c then rs else []).
Proof.
  destruct c; simpl; intros H; [now apply H | apply writes_ret].
Qed.

Lemma writes_for_each {A} (l : list A) (f : A -> LogRecord) (w : World) :
  writes (for_each l (fun a => emit (f a))) w tt (map f l).
Proof.
  revert w. induction l as [|a l IH]; intros w; simpl.
  - apply writes_ret.
  - change (f a :: map f l) with ([f a] ++ map f l).
    eapply writes_bind; [apply writes_emit | apply IH].
Qed.

(** A loop that reports the items satisfying [p] and clears a flag. *)
Lemma writes_flag_loop {A} (l : list A) (p : A -> bool) (f : A -> LogRecord)
      (flag : bool) (w : World) :
  writes (for_fold l flag
            (fun s a => if p a then (emit (f a) ;; ret false) else ret s))
         w (flag && negb (existsb p l)) (map f (filter p l)).
Proof.
  revert flag w. induction l as [|a l IH]; intros flag w; simpl.
  - rewrite andb_true_r. apply writes_ret.
  - destruct (p a) eqn:Hp; simpl.
    + change (f a :: map f (filter p l)) with ([f a] ++ map f (filter p l)).
      eapply writes_bind.
      * change [f a] with ([f a] ++ []).
        eapply writes_bind; [apply writes_emit | apply writes_ret].
      * rewrite andb_false_r. specialize (IH false (append_log w [f a])).
        simpl in IH. exact IH.
    + change (map f (filter p l)) with ([] ++ map f (filter p l)).
      eapply writes_bind; [apply writes_ret | apply IH].
Qed.

Lemma map_filter_flat_map {A B} (p : A -> bool) (f : A -> B) (l : list A) :
  map f (filter p l) = flat_map (fun a => if p a then [f a] else []) l.
Proof.
  induction l as [|a l IH]; simpl; [reflexivity|].
  destruct (p a); simpl; now rewrite IH.
Qed.

Lemma filter_nil_existsb {A} (p : A -> bool) (l : list A) :
  is_empty (filter p l) = negb (existsb p l).
Proof.
  induction l as [|a l IH]; simpl; [reflexivity|].
  destruct (p a); simpl; [reflexivity | exact IH].
Qed.

Lemma for_fold_ext {A S} (l : list A) (b1 b2 : S -> A -> M S) :
  (forall s a w, b1 s a w = b2 s a w) ->
  forall s w, for_fold l s b1 w = for_fold l s b2 w.
Proof.
  intros H. induction l as [|a l IH]; intros s w; simpl; [reflexivity|].
  unfold bind. rewrite H. destruct (b2 s a w) as [[s'|e] w']; [apply IH | reflexivity].
Qed.

Lemma for_each_ext {A} (l : list A) (b1 b2 : A -> M unit) :
  (forall a w, b1 a w = b2 a w) ->
  forall w, for_each l b1 w = for_each l b2 w.
Proof.
  intros H. induction l as [|a l IH]; intros w; simpl; [reflexivity|].
  unfold bind. rewrite H. destruct (b2 a w) as [[u|e] w']; [apply IH | reflexivity].
Qed.

(* ================================================================== *)
(** ** Texts of messages *)
(* ================================================================== *)

Lemma length_append (a b : string) :
  String.length (a +++ b) = String.length a + String.length b.
Proof. induction a as [|c a IH]; simpl; [reflexivity | now rewrite IH]. Qed.

Lemma append_inj_l (p a b : string) : p +++ a = p +++ b -> a = b.
Proof.
  induction p as [|c p IH]; simpl; intros H; [exact H|].
  injection H as H. now apply IH.
Qed.

Lemma append_inj_r (a b s : string) : a +++ s = b +++ s -> a = b.
Proof.
  revert b. induction a as [|c a IH]; intros [|d b] H; simpl in H.
  - reflexivity.
  - apply (f_equal String.length) in H. simpl in H.
    rewrite length_append in H. lia.
  - apply (f_equal String.length) in H. simpl in H.
    rewrite length_append in H. lia.
  - injection H as -> H. f_equal. now apply IH.
Qed.

(** A message that wraps an identifier determines the identifier. *)
Lemma framed_inj (p s a b : string) : p +++ a +++ s = p +++ b +++ s -> a = b.
Proof. intros H. apply append_inj_l in H. now apply append_inj_r in H. Qed.

Lemma err_inj (a b : string) : err a = err b -> a = b.
Proof. intros H. now injection H. Qed.

(* ================================================================== *)
(** ** Checks against the database layer *)
(* ================================================================== *)

Section Properties.

Context {num : Type} {F : PyFloat num} {G : Shapely num} {pd : Pandas}.

Lemma writes_db_check (rows : list (Tram num * TramMem num))
      (error_text : string -> string) (none_text : string) (w : World) :
  writes (if negb (is_empty rows)
          then for_each rows (fun feature => logger_error (error_text (tram_ID (fst feature))))
          else logger_info none_text)
         w tt
         (db_report error_text none_text (map (fun f => tram_ID (fst f)) rows)).
Proof.
  unfold db_report. destruct rows as [|r rows].
  - simpl. apply writes_emit.
  - cbn [is_empty negb map].
    pose proof (writes_for_each (r :: rows)
                  (fun feature => err (error_text (tram_ID (fst feature)))) w) as H.
    rewrite map_map. exact H.
Qed.

Lemma in_db_report (error_text : string -> string) (none_text : string)
      (flagged : list string) (tram_id : string) :
  (forall a b, error_text a = error_text b -> a = b) ->
  In (err (error_text tram_id)) (db_report error_text none_text flagged)
  <-> In tram_id flagged.
Proof.
  intros Hinj. unfold db_report. destruct flagged as [|x l].
  - simpl. split; [intros [H|[]]; discriminate H | intros []].
  - cbn [is_empty]. rewrite in_map_iff. split.
    + intros (y & Hy & Hin). apply err_inj, Hinj in Hy. now subst.
    + intros Hin. now exists tram_id.
Qed.

(** C5. The check of intersections and the check of overlaps with the
    database lines run the same [contains] join, so they flag the same
    submitted segments, row for row: each writes one error per row of
    the join (or one remark when the join is empty), a segment is
    reported by the one exactly when it is reported by the other, and
    the two reports differ in the text of the message only. *)
Theorem intersects_and_overlaps_flag_the_same_segments
        (self : Self num) (w : World) :
  exists report_i report_o : list LogRecord,
    writes (check_line_intersects_db self) w tt report_i
    /\ writes (check_line_overlaps_db self) w tt report_o
    /\ report_i =
         db_report intersects_msg
           "      Els trams de la linia no intersecten cap tram de la base de dades."
           (flagged_segments self)
    /\ report_o =
         db_report overlaps_msg
           "      Els trams de la linia no es sobreposen a cap tram de la base de dades."
           (flagged_segments self)
    /\ forall tram_id : string,
         In (err (intersects_msg tram_id)) report_i
         <-> In (err (overlaps_msg tram_id)) report_o.
Proof.
  eexists; eexists.
  split; [apply writes_db_check|].
  split; [apply writes_db_check|].
  split; [reflexivity|]. split; [reflexivity|].
  intros tram_id. fold (flagged_segments self).
  rewrite !in_db_report; [reflexivity| |];
    intros a b H; unfold overlaps_msg, intersects_msg in H;
    now apply framed_inj in H.
Qed.

(* ---------------------------------------------------------------- *)
(** *** Records of P_Proposta *)

Lemma writes_check_ordpf (self : Self num) (w : World) :
  writes (check_ordpf self) w
    (negb (existsb (fun r => is_null (pp_ORDPF r)) (p_proposta_df (layers self))))
    (flat_map ordpf_report (p_proposta_df (layers self))).
Proof.
  unfold check_ordpf, ordpf_report.
  rewrite <- (map_filter_flat_map (fun r => is_null (pp_ORDPF r))
                                  (fun r => err (ordpf_msg r))).
  rewrite <- filter_nil_existsb.
  destruct (filter _ _) as [|r l] eqn:E.
  - simpl. apply writes_ret.
  - cbn [is_empty negb]. rewrite <- (app_nil_r (map _ _)).
    eapply writes_bind; [|apply writes_ret].
    apply (writes_for_each (r :: l) (fun r => err (ordpf_msg r))).
Qed.

Lemma writes_check_real_points (self : Self num) (w : World) :
  writes (check_real_points self) w
    (negb (existsb bad_auxiliary (p_proposta_df (layers self))))
    (flat_map real_report (p_proposta_df (layers self))).
Proof.
  unfold check_real_points, real_report.
  rewrite <- (map_filter_flat_map bad_auxiliary (fun r => err (real_msg r))).
  rewrite <- filter_nil_existsb.
  destruct (filter _ _) as [|r l] eqn:E.
  - simpl. apply writes_ret.
  - cbn [is_empty negb]. rewrite <- (app_nil_r (map _ _)).
    eapply writes_bind; [|apply writes_ret].
    apply (writes_for_each (r :: l) (fun r => err (real_msg r))).
Qed.

(** C6. The report of [check_ordpf] and of [check_real_points] is, in
    table order, what each record of P_Proposta adds to it: a record
    with a null ORDPF adds an error entry; a record with PFF = 1,
    ORDPF = 0 and ESFITA other than 0 adds the error entry of an
    auxiliary point indicated as a real one; a record with PFF = 1,
    ORDPF = 0 and ESFITA = 0 adds no entry. *)
Theorem proposal_records_are_reported (self : Self num) (w : World) :
  (exists valid : bool,
      writes (check_ordpf self) w valid
             (flat_map ordpf_report (p_proposta_df (layers self))))
  /\ (exists valid : bool,
         writes (check_real_points self) w valid
                (flat_map real_report (p_proposta_df (layers self))))
  /\ forall r : Proposta,
      (pp_ORDPF r = None -> ordpf_report r = [err (ordpf_msg r)])
      /\ (pp_PFF r = Some 1%Z -> pp_ORDPF r = Some 0%Z -> pp_ESFITA r <> Some 0%Z ->
          real_report r = [err (real_msg r)])
      /\ (pp_PFF r = Some 1%Z -> pp_ORDPF r = Some 0%Z -> pp_ESFITA r = Some 0%Z ->
          ordpf_report r = [] /\ real_report r = []).
Proof.
  split; [eexists; apply writes_check_ordpf|].
  split; [eexists; apply writes_check_real_points|].
  intros r. unfold ordpf_report, real_report, bad_auxiliary, cell_ne, cell_eq.
  split; [|split].
  - intros ->. reflexivity.
  - intros -> -> H. simpl.
    destruct (pp_ESFITA r) as [z|]; [|reflexivity].
    destruct (Z.eqb_spec z 0); [subst; now elim H | reflexivity].
  - intros -> -> ->. split; reflexivity.
Qed.

(* ---------------------------------------------------------------- *)
(** *** Decimals of the points *)

Lemma writes_check_points_decimals (self : Self num) (w : World) :
  let violations :=
    flat_map (decim_report (ppf_list self)) (punt_line_gdf (layers self)) in
  writes (check_points_decimals self) w tt
    (violations ++
     if is_empty violations
     then [info "Les fites estan correctament decimetritzades"] else []).
Proof.
  intros violations. unfold check_points_decimals.
  set (p := fun feature : Punt num =>
              PyStr.mem (punt_ID_PUNT feature) (ppf_list self)
              && badly_rounded (punt_geometry feature)).
  assert (Hv : violations = map (fun f => err (decim_msg f))
                                (filter p (punt_line_gdf (layers self)))).
  { subst violations. unfold decim_report. now rewrite map_filter_flat_map. }
  assert (Hb : negb (existsb p (punt_line_gdf (layers self))) = is_empty violations).
  { rewrite Hv, <- filter_nil_existsb. now destruct (filter p _). }
  rewrite <- Hb, Hv.
  eapply writes_bind.
  - unfold writes.
    erewrite for_fold_ext;
      [apply (writes_flag_loop _ p (fun f => err (decim_msg f)) true w)|].
    intros s a w'. subst p. cbv beta. unfold badly_rounded, logger_error.
    destruct (PyStr.mem _ _); [|reflexivity]. cbn [andb].
    destruct (_ || _); reflexivity.
  - cbn [andb]. destruct (negb _); simpl.
    + apply writes_emit.
    + apply writes_ret.
Qed.

Lemma decim_report_nil (ppf : list string) (l : list (Punt num)) :
  (forall p : Punt num,
      In p l -> PyStr.mem (punt_ID_PUNT p) ppf = true ->
      fgtb (dif (px (punt_geometry p))) ftol = false
      /\ fgtb (dif (py (punt_geometry p))) ftol = false) ->
  flat_map (decim_report ppf) l = [].
Proof.
  induction l as [|p l IH]; intros Hall; simpl; [reflexivity|].
  rewrite IH by (intros q Hq; apply Hall; now right).
  unfold decim_report, badly_rounded.
  destruct (PyStr.mem (punt_ID_PUNT p) ppf) eqn:Hm; [|reflexivity].
  destruct (Hall p (or_introl eq_refl) Hm) as [-> ->]. reflexivity.
Qed.

(** C7. [check_points_decimals] reports, one by one and in layer order,
    the points of the final proposal whose x or y lies more than 0.01
    from its rounding to one decimal: such a point adds its own error
    entry exactly when [|x - round(x,1)| > 0.01] or
    [|y - round(y,1)| > 0.01], and a point outside the final proposal
    adds none.  When every point of the final proposal is within both
    tolerances the check writes no error, only its closing remark. *)
Theorem decimal_precision_violations_reported (self : Self num) (w : World) :
  let punts := punt_line_gdf (layers self) in
  let violations := flat_map (decim_report (ppf_list self)) punts in
  writes (check_points_decimals self) w tt
    (violations ++
     if is_empty violations
     then [info "Les fites estan correctament decimetritzades"] else [])
  /\ (forall p : Punt num,
        (PyStr.mem (punt_ID_PUNT p) (ppf_list self) = true ->
         (decim_report (ppf_list self) p = [err (decim_msg p)]
          <-> (fgtb (dif (px (punt_geometry p))) ftol = true
               \/ fgtb (dif (py (punt_geometry p))) ftol = true))
         /\ (decim_report (ppf_list self) p = []
             <-> (fgtb (dif (px (punt_geometry p))) ftol = false
                  /\ fgtb (dif (py (punt_geometry p))) ftol = false)))
        /\ (PyStr.mem (punt_ID_PUNT p) (ppf_list self) = false ->
            decim_report (ppf_list self) p = []))
  /\ ((forall p : Punt num,
         In p punts ->
         PyStr.mem (punt_ID_PUNT p) (ppf_list self) = true ->
         fgtb (dif (px (punt_geometry p))) ftol = false
         /\ fgtb (dif (py (punt_geometry p))) ftol = false) ->
      writes (check_points_decimals self) w tt
        [info "Les fites estan correctament decimetritzades"]).
Proof.
  intros punts violations.
  pose proof (writes_check_points_decimals self w) as Hw.
  split; [exact Hw|]. split.
  - intros p. unfold decim_report, badly_rounded. split.
    + intros ->. cbn [andb].
      destruct (fgtb (dif (px _)) ftol), (fgtb (dif (py _)) ftol); cbn [orb];
        (split; [split; [intros H | intros [H|H]] | split; [intros H | intros [H1 H2]]]);
        try discriminate; try reflexivity; auto.
    + intros ->. reflexivity.
  - intros Hall.
    assert (Hnil : violations = []).
    { subst violations. now apply decim_report_nil. }
    cbv zeta in Hw. fold punts in Hw. fold violations in Hw.
    rewrite Hnil in Hw. exact Hw.
Qed.

(* ---------------------------------------------------------------- *)
(** *** Auxiliary points *)

Lemma has_punt_fit_record_filter (self : Self num) (point_id : string) :
  has_punt_fit_record self point_id
  = negb (is_empty (filter (fun r => String.eqb (pf_ID_PUNT r) point_id)
                           (punt_fit_df (layers self)))).
Proof.
  unfold has_punt_fit_record. rewrite filter_nil_existsb. now rewrite negb_involutive.
Qed.

Lemma auxiliary_point_body_skip (self : Self num) item w :
  needs_lookup self item = false ->
  writes (auxiliary_point_body self item) w tt [].
Proof.
  unfold needs_lookup, auxiliary_point_body. intros H.
  destruct (coords_mem _ _); simpl in *; [apply writes_ret|].
  rewrite H. apply writes_ret.
Qed.

Lemma auxiliary_point_body_found (self : Self num) item w :
  needs_lookup self item = true ->
  has_punt_fit_record self (fst item) = true ->
  exists r : LogRecord, writes (auxiliary_point_body self item) w tt [r].
Proof.
  unfold needs_lookup, auxiliary_point_body. intros H Hrec.
  rewrite has_punt_fit_record_filter in Hrec.
  apply andb_true_iff in H as [-> ->].
  destruct (filter _ _) as [|r l]; [discriminate|].
  unfold writes. cbn [map first_item bind ret negb].
  destruct (String.eqb (pf_AUX r) "1"); eexists; apply writes_emit.
Qed.

Lemma auxiliary_point_body_missing (self : Self num) item w :
  needs_lookup self item = true ->
  has_punt_fit_record self (fst item) = false ->
  auxiliary_point_body self item w = (Raise IndexError, w).
Proof.
  unfold needs_lookup, auxiliary_point_body. intros H Hrec.
  rewrite has_punt_fit_record_filter in Hrec.
  apply andb_true_iff in H as [-> ->].
  destruct (filter _ _) as [|r l]; [reflexivity | discriminate].
Qed.

Lemma auxiliary_loop_total (self : Self num) (items : list (string * (num * num))) w :
  forallb (lookup_ok self) items = true ->
  exists rs : list LogRecord,
    writes (for_each items (auxiliary_point_body self)) w tt rs
    /\ List.length rs = List.length (filter (needs_lookup self) items).
Proof.
  revert w. induction items as [|it items IH]; intros w H; simpl in *.
  - exists []. split; [apply writes_ret | reflexivity].
  - apply andb_true_iff in H as [Hit Hrest]. unfold lookup_ok in Hit.
    destruct (needs_lookup self it) eqn:Hn; simpl in Hit.
    + destruct (auxiliary_point_body_found self it w Hn Hit) as [r Hr].
      destruct (IH (append_log w [r]) Hrest) as (rs & Hrs & Hlen).
      exists ([r] ++ rs). split.
      * eapply writes_bind; eassumption.
      * simpl. now rewrite Hlen.
    + destruct (IH (append_log w []) Hrest) as (rs & Hrs & Hlen).
      exists ([] ++ rs). split; [|exact Hlen].
      eapply writes_bind; [now apply auxiliary_point_body_skip | exact Hrs].
Qed.

Lemma auxiliary_loop_raises (self : Self num) (items : list (string * (num * num))) w :
  forallb (lookup_ok self) items = false ->
  exists rs : list LogRecord,
    for_each items (auxiliary_point_body self) w = (Raise IndexError, append_log w rs).
Proof.
  revert w. induction items as [|it items IH]; intros w H; simpl in *; [discriminate|].
  unfold bind. unfold lookup_ok in H at 1.
  destruct (needs_lookup self it) eqn:Hn; simpl in H.
  - destruct (has_punt_fit_record self (fst it)) eqn:Hrec; simpl in H.
    + destruct (auxiliary_point_body_found self it w Hn Hrec) as [r Hr].
      rewrite Hr. destruct (IH (append_log w [r]) H) as [rs Hrs].
      exists ([r] ++ rs). now rewrite Hrs, append_log_app.
    + rewrite (auxiliary_point_body_missing self it w Hn Hrec).
      exists []. now rewrite append_log_nil.
  - rewrite (auxiliary_point_body_skip self it w Hn).
    destruct (IH (append_log w []) H) as [rs Hrs].
    exists ([] ++ rs). now rewrite Hrs, append_log_app.
Qed.

Lemma aux_precondition_lookup_ok (self : Self num) :
  aux_precondition self
  <-> forallb (lookup_ok self) (PyDict.items (points_coords_dict self)) = true.
Proof.
  unfold aux_precondition. rewrite forallb_forall. split.
  - intros H item Hin. unfold lookup_ok, needs_lookup.
    destruct (coords_mem _ _) eqn:Hc; [reflexivity|].
    destruct (PyStr.mem _ _) eqn:Hm; [|reflexivity]. simpl.
    destruct (H item Hin Hc Hm) as (r & Hr & Hid).
    unfold has_punt_fit_record. apply existsb_exists. exists r. split; [exact Hr|].
    now apply String.eqb_eq.
  - intros H item Hin Hc Hm. specialize (H item Hin).
    unfold lookup_ok, needs_lookup in H. rewrite Hc, Hm in H. simpl in H.
    unfold has_punt_fit_record in H. apply existsb_exists in H as (r & Hr & Hid).
    exists r. split; [exact Hr|]. now apply String.eqb_eq.
Qed.

Lemma auxiliary_point_total_iff (self : Self num) (w : World) :
  (exists rs : list LogRecord, writes (check_auxiliary_point self) w tt rs)
  <-> aux_precondition self.
Proof.
  unfold check_auxiliary_point. rewrite aux_precondition_lookup_ok.
  destruct (forallb (lookup_ok self) (PyDict.items (points_coords_dict self))) eqn:E.
  - destruct (auxiliary_loop_total self _ w E) as (rs & Hrs & _).
    split; [reflexivity | intros _; now exists rs].
  - destruct (auxiliary_loop_raises self _ w E) as [rs Hrs].
    split; [|discriminate].
    intros [rs' Hrs']. unfold writes in Hrs'. rewrite Hrs in Hrs'. discriminate.
Qed.

Lemma auxiliary_point_raises (self : Self num) (w : World) :
  ~ aux_precondition self ->
  exists rs : list LogRecord,
    check_auxiliary_point self w = (Raise IndexError, append_log w rs).
Proof.
  unfold check_auxiliary_point. rewrite aux_precondition_lookup_ok.
  destruct (forallb (lookup_ok self) (PyDict.items (points_coords_dict self))) eqn:E.
  - intros H. now elim H.
  - intros _. apply (auxiliary_loop_raises self _ w E).
Qed.

(* ---------------------------------------------------------------- *)
(** *** The guard of the found-point checks *)

Lemma mem_In (x : string) (l : list string) : PyStr.mem x l = true <-> In x l.
Proof.
  unfold PyStr.mem. rewrite existsb_exists. split.
  - intros (y & Hy & Heq). apply String.eqb_eq in Heq. now subst.
  - intros H. exists x. split; [exact H | apply String.eqb_refl].
Qed.

Lemma dict_set_not_empty {V} (k : string) (v : V) (d : PyDict.t V) :
  is_empty (PyDict.set k v d) = false.
Proof.
  destruct d as [|[k' v'] d]; simpl; [reflexivity|].
  now destruct (String.eqb k' k).
Qed.

Lemma founded_fold_empty (ppf : list string) (l : list PuntFit) (d : PyDict.t string) :
  is_empty
    (fold_left
       (fun d feature =>
          if PyStr.mem (pf_ID_PUNT feature) ppf
          then PyDict.set (pf_ID_FITA feature) (pf_ID_PUNT feature) d
          else d) l d)
  = is_empty d && negb (existsb (fun r => PyStr.mem (pf_ID_PUNT r) ppf) l).
Proof.
  revert d. induction l as [|r l IH]; intros d; simpl.
  - now rewrite andb_true_r.
  - rewrite IH. destruct (PyStr.mem (pf_ID_PUNT r) ppf); simpl.
    + rewrite dict_set_not_empty. simpl. now rewrite andb_false_r.
    + reflexivity.
Qed.

Lemma truthy_not_empty (d : PyDict.t string) :
  truthy (FoundedDict d) = negb (is_empty d).
Proof. now destruct d. Qed.

Lemma found_guard_iff (ly : Layers num) (line_coords : list (num * num)) :
  found_points_guard (set_attributes ly line_coords) = true
  <-> found_final_point ly.
Proof.
  unfold found_points_guard, set_attributes, get_founded_points_dict, found_final_point.
  cbn [founded_points_dict].
  set (ppf := get_ppf_list ly).
  set (found := filter (fun r => String.eqb (pf_TROBADA r) "1") (punt_fit_df ly)).
  assert (Hfound : forall r, In r found <-> In r (punt_fit_df ly) /\ pf_TROBADA r = "1").
  { intros r. subst found. rewrite filter_In. now rewrite String.eqb_eq. }
  destruct (is_empty found) eqn:He; cbn [negb].
  - split; [discriminate|]. intros (r & Hr & Ht & _).
    destruct found as [|x l]; [|discriminate].
    destruct (proj2 (Hfound r) (conj Hr Ht)).
  - rewrite truthy_not_empty, founded_fold_empty. cbn [is_empty andb].
    rewrite negb_involutive, existsb_exists. split.
    + intros (r & Hr & Hm). apply Hfound in Hr as [Hr Ht].
      exists r. repeat split; try assumption. now apply mem_In.
    + intros (r & Hr & Ht & Hm). exists r. split.
      * now apply Hfound.
      * now apply mem_In.
Qed.

(** With a dictionary of found points that is not empty,
    [check_photo_exists] writes at least one entry: its remark, or an
    error for each found point without a photo. *)
Lemma check_photo_exists_writes (self : Self num) (w : World) :
  found_points_guard self = true ->
  exists (r : LogRecord) (rs : list LogRecord),
    writes (check_photo_exists self) w tt (r :: rs).
Proof.
  unfold found_points_guard, check_photo_exists, founded_items.
  destruct (founded_points_dict self) as [|d]; [discriminate|].
  destruct d as [|kv d]; [discriminate|]. intros _.
  unfold writes. cbn [bind ret].
  destruct (filter _ (PyDict.items (kv :: d))) as [|x l]; cbn [is_empty].
  - eexists; exists []. apply writes_emit.
  - eexists; eexists.
    apply (writes_for_each (x :: l)
             (fun kv => err ("      La fita " +++ PyStr.last_part (fst kv)
                             +++ "  |  ID PUNT : " +++ PyStr.last_part (snd kv)
                             +++ " és trobada però no té cap fotografia indicada."))).
Qed.

(** C9, as amended. [run_checks] calls the three found-point checks
    (photo indicated, photo in the folder, z implies found), between the
    check of P_Proposta and that of the three-term points, exactly when
    PUNT_FIT has a record that is found (TROBADA = '1') and whose point
    belongs to the final proposal: with such a record the run is the run
    of the checks before, the three found-point checks and the checks
    after, and the first of the three writes at least one entry; without
    one the run is the checks before followed by the checks after, and
    the three are not called. *)
Theorem found_checks_run_iff_found_final_point
        (ly : Layers num) (line_coords : list (num * num)) (w : World) :
  let self := set_attributes ly line_coords in
  (found_points_guard self = true <-> found_final_point ly)
  /\ (found_final_point ly ->
      run_checks self w
      = (checks_before_found self ;;
         check_photo_exists self ;;
         check_photo_name self ;;
         check_cota_fita self ;;
         checks_after_found self) w
      /\ forall w1 : World,
           exists (r : LogRecord) (rs : list LogRecord),
             writes (check_photo_exists self) w1 tt (r :: rs))
  /\ (~ found_final_point ly ->
      run_checks self w = (checks_before_found self ;; checks_after_found self) w).
Proof.
  intros self. pose proof (found_guard_iff ly line_coords) as Hg. fold self in Hg.
  split; [exact Hg|]. split.
  - intros Hf. apply Hg in Hf. split.
    + unfold run_checks, checks_before_found, checks_after_found, check_found_points.
      rewrite Hf. cbn [when]. unfold bind.
      destruct (check_layers_geometry self w) as [[[]|e1] w1]; [|reflexivity].
      destruct (info_vertexs_line self w1) as [[[]|e2] w2]; [|reflexivity].
      destruct (check_points_decimals self w2) as [[[]|e3] w3]; [|reflexivity].
      destruct (info_p_proposta self w3) as [[[]|e4] w4]; [|reflexivity].
      destruct (check_photo_exists self w4) as [[[]|e5] w5]; [|reflexivity].
      destruct (check_photo_name self w5) as [[[]|e6] w6]; [|reflexivity].
      destruct (check_cota_fita self w6) as [[[]|e7] w7]; reflexivity.
    + intros w1. now apply check_photo_exists_writes.
  - intros Hf.
    assert (Hfalse : found_points_guard self = false).
    { destruct (found_points_guard self); [|reflexivity]. elim Hf. now apply Hg. }
    unfold run_checks, checks_before_found, checks_after_found.
    rewrite Hfalse. cbn [when]. unfold bind, ret.
    destruct (check_layers_geometry self w) as [[[]|e1] w1]; [|reflexivity].
    destruct (info_vertexs_line self w1) as [[[]|e2] w2]; [|reflexivity].
    destruct (check_points_decimals self w2) as [[[]|e3] w3]; [|reflexivity].
    destruct (info_p_proposta self w3) as [[[]|e4] w4]; reflexivity.
Qed.

(* ---------------------------------------------------------------- *)
(** *** Relation between the tables and the point layer *)

Lemma writes_relation_p_proposta (ids : list string) (df : list Proposta)
      (st : bool * option string) (w : World) :
  let miss := fun r : Proposta => negb (PyStr.mem (pp_ID_PUNT r) ids) in
  writes (for_fold df st (fun st feature =>
            let point_id := pp_ID_PUNT feature in
            if negb (PyStr.mem point_id ids) then
              let point_id := PyStr.last_part point_id in
              logger_error (proposta_rel_msg point_id) ;;
              ret (false, Some point_id)
            else ret (fst st, Some point_id)))
         w (fst st && negb (existsb miss df), point_id_after ids (snd st) df)
         (map (fun r => err (proposta_rel_msg (PyStr.last_part (pp_ID_PUNT r))))
              (filter miss df)).
Proof.
  intros miss. revert st w. induction df as [|r df IH]; intros st w.
  - simpl. rewrite andb_true_r. destruct st. apply writes_ret.
  - cbn [for_fold filter existsb point_id_after fold_left]. subst miss. cbv beta zeta.
    destruct (negb (PyStr.mem (pp_ID_PUNT r) ids)) eqn:Hm; cbn [orb negb map].
    + rewrite andb_false_r.
      change (?x :: map ?f ?l) with ([x] ++ map f l).
      eapply writes_bind.
      * change [?x] with ([x] ++ []).
        eapply writes_bind; [apply writes_emit | apply writes_ret].
      * apply (IH (false, Some (PyStr.last_part (pp_ID_PUNT r)))).
    + change (map ?f ?l) with ([] ++ map f l).
      eapply writes_bind; [apply writes_ret|].
      apply (IH (fst st, Some (pp_ID_PUNT r))).
Qed.

Lemma point_id_after_bound (ids : list string) (o : option string) (df : list Proposta) :
  df <> [] \/ o <> None -> exists s : string, point_id_after ids o df = Some s.
Proof.
  revert o. induction df as [|r df IH]; intros o H.
  - destruct H as [H|H]; [now elim H|]. destruct o as [s|]; [now exists s | now elim H].
  - cbn [point_id_after fold_left]. apply IH. right. discriminate.
Qed.

Lemma writes_relation_punt_fit (ids : list string) (pid : string)
      (df : list PuntFit) (w : World) :
  let miss := fun r : PuntFit => negb (PyStr.mem (pf_ID_PUNT r) ids) in
  writes (relation_punt_fit ids (Some pid) df) w
         (negb (existsb miss df))
         (map (fun _ => err (punt_fit_rel_msg (PyStr.last_part pid))) (filter miss df)).
Proof.
  intros miss. unfold relation_punt_fit, writes.
  erewrite for_fold_ext;
    [apply (writes_flag_loop df miss
              (fun _ => err (punt_fit_rel_msg (PyStr.last_part pid))) true w)|].
  intros s a w'. reflexivity.
Qed.

(** C8, as amended. Every record of P_Proposta whose ID_PUNT is not in
    the layer Punt gets exactly one error entry, which names the table
    and the part of the identifier after its last hyphen; every record
    of PUNT_FIT whose ID_PUNT is not in the layer gets exactly one error
    entry naming that table, provided P_Proposta has a record; records
    whose ID_PUNT is in the layer get none.  The entries come in table
    order, each table followed by its remark when nothing is missing. *)
Theorem relation_check_reports_each_missing_record (self : Self num) (w : World) :
  p_proposta_df (layers self) <> [] ->
  exists named : string,
    writes (check_relation_points_tables self) w tt
      ([info "Comprovant correspondència entre les taules i la capa Punt..."]
       ++ map (fun r => err (proposta_rel_msg (PyStr.last_part (pp_ID_PUNT r))))
              (missing_p_proposta self)
       ++ (if is_empty (missing_p_proposta self)
           then [info "      Correspondència OK entre els punts de P_PROPOSTA i Punt."]
           else [])
       ++ map (fun _ => err (punt_fit_rel_msg named)) (missing_punt_fit self)
       ++ (if is_empty (missing_punt_fit self)
           then [info "      Correspondència OK entre els punts de PUNT_FIT i Punt."]
           else [])).
Proof.
  intros Hne. unfold check_relation_points_tables.
  set (ids := map punt_ID_PUNT (punt_line_gdf (layers self))).
  destruct (point_id_after_bound ids None (p_proposta_df (layers self)) (or_introl Hne))
    as [pid Hpid].
  exists (PyStr.last_part pid).
  eapply writes_bind; [apply writes_emit|].
  eapply writes_bind.
  { apply (writes_relation_p_proposta ids (p_proposta_df (layers self)) (true, None)). }
  cbn [fst snd andb]. rewrite Hpid.
  fold (missing_id self). unfold missing_p_proposta, missing_punt_fit, missing_id.
  fold ids.
  rewrite <- !filter_nil_existsb.
  eapply writes_bind.
  { apply writes_when. intros _. apply writes_emit. }
  eapply writes_bind.
  { apply (writes_relation_punt_fit ids pid). }
  rewrite <- filter_nil_existsb.
  apply writes_when. intros _. apply writes_emit.
Qed.

(* ---------------------------------------------------------------- *)
(** *** The field structure of Lin_TramPpta *)

Lemma field_match_filter (cols : list string) :
  field_match cols
  = List.length (filter (fun f => PyStr.mem f true_fields) cols).
Proof.
  unfold field_match.
  assert (H : forall n,
             fold_left (fun m field => if PyStr.mem field true_fields then m + 1 else m)
                       cols n
             = n + List.length (filter (fun f => PyStr.mem f true_fields) cols)).
  { induction cols as [|c cols IH]; intros n; cbn [fold_left filter].
    - simpl. lia.
    - rewrite IH. destruct (PyStr.mem c true_fields); cbn [List.length]; lia. }
  apply (H 0).
Qed.

Lemma true_fields_NoDup : NoDup true_fields.
Proof.
  unfold true_fields.
  repeat (constructor; [simpl; intuition discriminate|]). constructor.
Qed.

Lemma field_match_complete (cols : list string) :
  NoDup cols ->
  (Nat.eqb (field_match cols) (List.length true_fields) = true
   <-> forall f : string, In f true_fields -> In f cols).
Proof.
  intros Hnd. rewrite Nat.eqb_eq, field_match_filter.
  set (S := filter (fun f => PyStr.mem f true_fields) cols).
  assert (HS : NoDup S) by now apply NoDup_filter.
  assert (Hincl : incl S true_fields).
  { intros f Hf. apply filter_In in Hf as [_ Hf]. now apply mem_In. }
  split.
  - intros Hlen f Hf.
    assert (Hrev : incl true_fields S).
    { apply NoDup_length_incl; [exact HS | lia | exact Hincl]. }
    apply Hrev in Hf. now apply filter_In in Hf as [Hf _].
  - intros Hall.
    assert (Hrev : incl true_fields S).
    { intros f Hf. apply filter_In. split; [now apply Hall | now apply mem_In]. }
    pose proof (NoDup_incl_length true_fields_NoDup Hrev).
    pose proof (NoDup_incl_length HS Hincl). lia.
Qed.

Lemma get_round_line_coordinates_returns (ly : Layers num) (w : World) :
  (forall t : Tram num,
      In t (lin_tram_ppta_line_gdf ly) -> geom_type (tram_geometry t) = LineString) ->
  exists line_coords : list (num * num),
    get_round_line_coordinates ly w = (Return line_coords, w).
Proof.
  intros Hall. unfold get_round_line_coordinates.
  assert (H : forall acc,
             exists l,
               for_fold (map tram_geometry (lin_tram_ppta_line_gdf ly)) acc
                 (fun acc t =>
                    tram_coords <- coords t ;;
                    ret (fold_left (fun a v => a ++ [v]) tram_coords acc)) w
               = (Return l, w)).
  { induction (lin_tram_ppta_line_gdf ly) as [|t l IH]; intros acc; simpl.
    - now exists acc.
    - unfold bind at 1. unfold coords at 1.
      rewrite (Hall t (or_introl eq_refl)). cbn [bind ret].
      apply IH. intros t' Ht'. apply Hall. now right. }
  destruct (H []) as [l Hl]. eexists. rewrite (bind_returns _ _ _ _ _ Hl). reflexivity.
Qed.

Lemma writes_check_line_id_exists (self : Self num) (w : World) (n : Z) :
  line_id_int (layers self) = Some n ->
  exists r : LogRecord, writes (check_line_id_exists self) w tt [r].
Proof.
  intros Hn. unfold check_line_id_exists, int_line_id. rewrite Hn.
  unfold writes. cbn [bind ret].
  destruct (negb (is_empty (filter _ (fita_mem_gdf _)))),
           (negb (is_empty (filter _ (tram_line_mem_gdf _))));
    cbn [andb negb]; eexists; apply writes_emit.
Qed.

(** C2. The layer Lin_TramPpta passes the check of its field structure
    exactly when each of the twelve required fields (ID_LINIA, ID, DATA,
    COMENTARI, P1 to P4, PF, ID_FITA1, ID_FITA2, geometry) is among its
    fields, whatever other fields it has; the fields of a layer are
    distinct names.  When it does not pass, [get] stops there: it
    answers with the result 'error' and the one message about the field
    structure, and the report file holds nothing after the entry of the
    line-ID check but the two error entries of this failure. *)
Theorem field_structure_check_gates_the_run
        (ly : Layers num) (w : World) (n : Z) :
  NoDup (lin_tram_ppta_columns ly) ->
  line_id_int ly = Some n ->
  (forall t : Tram num,
      In t (lin_tram_ppta_line_gdf ly) -> geom_type (tram_geometry t) = LineString) ->
  let required_present :=
    forall f : string, In f true_fields -> In f (lin_tram_ppta_columns ly) in
  let answer :=
    {| result := Some "error";
       message := Some schema_error_msg;
       reports := reports (response_data w) |} in
  (forall (self : Self num) (w' : World),
      layers self = ly ->
      (fst (check_fields_lin_tram_ppta self w') = Return true <-> required_present))
  /\ (~ required_present ->
      exists r : LogRecord,
        get ly w
        = (Return answer,
           {| log := log w ++ [r; err "L'estructura de camps de Lin_TramPpta NO és correcte";
                               err schema_error_msg];
              response_data := answer |})).
Proof.
  intros Hnd Hn Hline required_present answer.
  assert (Hfields : forall (self : Self num) (w' : World),
             layers self = ly ->
             (fst (check_fields_lin_tram_ppta self w') = Return true <-> required_present)).
  { intros self w' Hly. unfold check_fields_lin_tram_ppta. rewrite Hly.
    unfold required_present. rewrite <- (field_match_complete _ Hnd).
    destruct (Nat.eqb _ _); cbn; split; intros H; try reflexivity; discriminate H. }
  split; [exact Hfields|].
  intros Hmissing.
  destruct (get_round_line_coordinates_returns ly w Hline) as [lc Hlc].
  set (self := set_attributes ly lc).
  destruct (writes_check_line_id_exists self w n Hn) as [r Hr].
  exists r. unfold get.
  rewrite (bind_returns _ _ _ _ _ Hlc). fold self.
  rewrite (bind_returns _ _ _ _ _ Hr).
  assert (Hchk : check_lin_tram_ppta_layer self (append_log w [r])
                 = (Return false,
                    append_log (append_log w [r])
                      [err "L'estructura de camps de Lin_TramPpta NO és correcte"])).
  { unfold check_lin_tram_ppta_layer, check_fields_lin_tram_ppta.
    destruct (Nat.eqb _ _) eqn:E.
    - elim Hmissing. unfold required_present.
      apply (field_match_complete _ Hnd). exact E.
    - reflexivity. }
  rewrite (bind_returns _ _ _ _ _ Hchk). cbn [negb].
  unfold create_error_response, append_log. cbn. rewrite <- !app_assoc. reflexivity.
Qed.

(* ---------------------------------------------------------------- *)
(** *** The status of a result *)

Lemma bind_inv {A B} (m : M A) (f : A -> M B) w b w' :
  bind m f w = (Return b, w') ->
  exists a w1, m w = (Return a, w1) /\ f a w1 = (Return b, w').
Proof.
  unfold bind. destruct (m w) as [[a|e] w1]; intros H; [|discriminate].
  now exists a, w1.
Qed.

Lemma report_items_loop_keeps_world (lines : list string) (acc : list ReportItem)
      (o : Outcome (list ReportItem)) (w w' : World) :
  for_fold lines acc
    (fun report_list report =>
       report_level <- first_item (PyStr.split PyStr.hyphen report) ;;
       report_info <- second_item (PyStr.split PyStr.hyphen report) ;;
       let item := {| level := report_level; report_message := report_info |} in
       ret (report_list ++ [item])) w = (o, w') ->
  w' = w.
Proof.
  revert acc. induction lines as [|l lines IH]; intros acc H; cbn [for_fold] in H.
  - unfold ret in H. now injection H.
  - unfold bind at 1 in H. unfold bind at 1 in H.
    destruct (PyStr.split PyStr.hyphen l) as [|a [|b rest]]; cbn in H.
    + now injection H.
    + now injection H.
    + eapply IH. exact H.
Qed.

Lemma add_response_data_keeps_status (w w' : World) (rd : ResponseData) :
  add_response_data w = (Return rd, w') ->
  result rd = result (response_data w) /\ message rd = message (response_data w).
Proof.
  unfold add_response_data. intros H.
  apply bind_inv in H as (text & w1 & Hread & H).
  unfold read_log in Hread. injection Hread as _ <-.
  apply bind_inv in H as (items & w2 & Hloop & H).
  apply report_items_loop_keeps_world in Hloop. subst w2.
  unfold bind, set_reports, the_response in H. cbn in H.
  injection H as <- _. split; reflexivity.
Qed.

(** Whatever the checks have written, a result that [get] returns has
    either the status 'OK' with the message naming the line, or the
    status 'error' with the message about the field structure: no entry
    of the report takes part in the status. *)
Lemma get_status_ignores_report (ly : Layers num) (w w' : World) (rd : ResponseData) :
  get ly w = (Return rd, w') ->
  (result rd = Some "OK"
   /\ message rd = Some ("Linia " +++ line_id ly +++ " checkejada"))
  \/ (result rd = Some "error" /\ message rd = Some schema_error_msg).
Proof.
  unfold get. intros H.
  apply bind_inv in H as (lc & w1 & _ & H).
  apply bind_inv in H as (u & w2 & _ & H).
  apply bind_inv in H as (ok & w3 & _ & H).
  destruct ok; cbn [negb] in H.
  - left.
    apply bind_inv in H as (u1 & w4 & _ & H).
    apply bind_inv in H as (u2 & w5 & Hres & H).
    apply bind_inv in H as (u3 & w6 & Hmsg & H).
    apply add_response_data_keeps_status in H as [-> ->].
    unfold set_message in Hmsg. injection Hmsg as _ <-.
    unfold set_result in Hres. injection Hres as _ <-.
    split; reflexivity.
  - right. unfold create_error_response in H.
    apply bind_inv in H as (u1 & w4 & _ & H).
    apply bind_inv in H as (u2 & w5 & Hres & H).
    apply bind_inv in H as (u3 & w6 & Hmsg & H).
    unfold the_response in H. injection H as <- _.
    unfold set_message in Hmsg. injection Hmsg as _ <-.
    unfold set_result in Hres. injection Hres as _ <-.
    split; reflexivity.
Qed.

End Properties.

(* ================================================================== *)
(** ** The checks on concrete submissions *)
(* ================================================================== *)

Import Float64 Examples.

(** C9, counterexample. PUNT_FIT records marker 1234-9 as found, the
    marker is not of the final proposal, and [get] completes without
    running the found-point checks: the guard is false and the report
    has none of their entries. *)
Lemma found_marker_outside_final_proposal_skips_checks :
  ~ guard_iff_some_marker_found (self_of found_not_final)
  /\ found_points_guard (self_of found_not_final) = false
  /\ (exists rd : ResponseData,
        fst (get found_not_final w0) = Return rd /\ result rd = Some "OK")
  /\ existsb (fun r => PyStr.contains "fotograf" (msg r)
                       || PyStr.contains "coordenada Z" (msg r))
             (log (snd (get found_not_final w0))) = false.
Proof.
  assert (Hg : found_points_guard (self_of found_not_final) = false) by reflexivity.
  split; [|split; [exact Hg|split]].
  - intros [_ H]. rewrite H in Hg; [discriminate|].
    eexists. split; [left; reflexivity | reflexivity].
  - eexists. split; [vm_compute; reflexivity | reflexivity].
  - vm_compute. reflexivity.
Qed.

(** C8, counterexample. Point 1234-7 is referenced by P_Proposta and by
    PUNT_FIT and is absent from the layer Punt: the check writes two
    error entries, one per table, both with the text 7, so the entries
    naming 1234-7 are none and the entries naming 7 are two. *)
Lemma dangling_reference_is_not_reported_once :
  let rs := [info "Comprovant correspondència entre les taules i la capa Punt...";
             err (proposta_rel_msg "7"); err (punt_fit_rel_msg "7")] in
  writes (check_relation_points_tables (self_of dangling_reference)) w0 tt rs
  /\ ~ one_error_per_missing_identifier (self_of dangling_reference) rs
  /\ List.length (errors_naming "1234-7" rs) = 0
  /\ List.length (errors_naming "7" rs) = 2.
Proof.
  intros rs. split; [vm_compute; reflexivity|].
  split; [|split; vm_compute; reflexivity].
  intros H.
  assert (H1 : List.length (errors_naming "1234-7" rs) = 1).
  { apply H.
    - left. simpl. tauto.
    - simpl. intuition discriminate. }
  vm_compute in H1. discriminate H1.
Qed.

(** C4, on a failing input. The segment runs from (0, 0) to (10, 0) and
    the only marker is at (0, 0): the end (10, 0) matches no marker, yet
    [check_endpoint_covered_point] writes no error for the segment, only
    its remark that all the ends coincide with a marker. *)
Theorem unmatched_last_endpoint_is_not_reported :
  coords_mem (round_xy (10, 0)%float)
             (PyDict.values (points_coords_dict (self_of open_end))) = false
  /\ check_endpoint_covered_point (self_of open_end) w0
     = (Return tt,
        append_log w0
          [info "      Tots els punts finals dels trams de la linia coincideixen amb una fita de la capa Punt."]).
Proof.
  split; vm_compute; reflexivity.
Qed.

(** C3, on a failing input. The first entry of every run carries the
    date as [%Y%m%d-%H%M]; written to the report file and read back by
    [add_response_data], its message stops at the hyphen: the time is
    dropped, and the level and the message keep the blanks around the
    separator. *)
Theorem first_report_entry_is_truncated :
  let w1 := snd (write_first_report "1234" "20210315-1030" w0) in
  log w1 = [info "ID Linia : 1234 |  Data i hora CQ : 20210315-1030"]
  /\ fst (add_response_data w1)
     = Return {| result := None;
                 message := None;
                 reports :=
                   Some [{| level := "INFO ";
                            report_message :=
                              " ID Linia : 1234 |  Data i hora CQ : 20210315" |}] |}.
Proof.
  split; vm_compute; reflexivity.
Qed.

(** C1, on a failing input. The field structure is accepted, marker
    1234-2 of the final proposal lies off the line and PUNT_FIT has no
    record of it: [check_auxiliary_point] raises [IndexError], so [get]
    returns no result and the response is left without a status. *)
Theorem unrecorded_off_line_point_aborts_the_run :
  fst (get off_line_unrecorded w0) = Raise IndexError
  /\ In (info "L'estructura de camps de Lin_TramPpta és correcte")
        (log (snd (get off_line_unrecorded w0)))
  /\ result (response_data (snd (get off_line_unrecorded w0))) = None.
Proof.
  split; [vm_compute; reflexivity|].
  split; [|vm_compute; reflexivity].
  vm_compute. right. left. reflexivity.
Qed.

(* ------------------------------------------------------------------ *)
(** *** The theorems at a concrete submission *)

Lemma without_pf_gets_error_response :
  NoDup (lin_tram_ppta_columns without_pf)
  /\ line_id_int without_pf = Some 1234%Z
  /\ (forall t : Tram float,
        In t (lin_tram_ppta_line_gdf without_pf) ->
        geom_type (tram_geometry t) = LineString)
  /\ ~ (forall f : string, In f true_fields -> In f (lin_tram_ppta_columns without_pf))
  /\ exists r : LogRecord,
      get without_pf w0
      = (Return {| result := Some "error"; message := Some schema_error_msg;
                   reports := None |},
         {| log := [r; err "L'estructura de camps de Lin_TramPpta NO és correcte";
                    err schema_error_msg];
            response_data := {| result := Some "error";
                                message := Some schema_error_msg;
                                reports := None |} |}).
Proof.
  assert (H1 : NoDup (lin_tram_ppta_columns without_pf)).
  { unfold without_pf; cbn [lin_tram_ppta_columns].
    repeat (constructor; [simpl; intuition discriminate|]). constructor. }
  assert (H2 : line_id_int without_pf = Some 1234%Z) by reflexivity.
  assert (H3 : forall t : Tram float,
             In t (lin_tram_ppta_line_gdf without_pf) ->
             geom_type (tram_geometry t) = LineString).
  { intros t [<-|[]]. reflexivity. }
  assert (H4 : ~ (forall f : string,
                     In f true_fields -> In f (lin_tram_ppta_columns without_pf))).
  { intros H.
    assert (Hpf : In "PF" true_fields) by (apply mem_In; vm_compute; reflexivity).
    apply H, mem_In in Hpf. vm_compute in Hpf. discriminate Hpf. }
  split; [exact H1|]. split; [exact H2|]. split; [exact H3|]. split; [exact H4|].
  exact (proj2 (field_structure_check_gates_the_run without_pf w0 1234%Z H1 H2 H3) H4).
Defined.

Lemma auxiliary_marked_real_is_reported :
  let r := {| pp_ID_PUNT := "1234-3"; pp_PFF := Some 1%Z;
              pp_ESFITA := Some 1%Z; pp_ORDPF := Some 0%Z |} in
  pp_PFF r = Some 1%Z /\ pp_ORDPF r = Some 0%Z /\ pp_ESFITA r <> Some 0%Z
  /\ real_report r = [err (real_msg r)].
Proof.
  intros r.
  assert (H1 : pp_PFF r = Some 1%Z) by reflexivity.
  assert (H2 : pp_ORDPF r = Some 0%Z) by reflexivity.
  assert (H3 : pp_ESFITA r <> Some 0%Z) by discriminate.
  split; [exact H1|]. split; [exact H2|]. split; [exact H3|].
  exact (proj1 (proj2 (proj2 (proj2 (proposal_records_are_reported
                                       (self_of found_not_final) w0)) r))
               H1 H2 H3).
Defined.

Lemma rounded_points_pass_the_decimal_check :
  (forall p : Punt float,
      In p (punt_line_gdf (layers (self_of found_not_final))) ->
      PyStr.mem (punt_ID_PUNT p) (ppf_list (self_of found_not_final)) = true ->
      fgtb (dif (px (punt_geometry p))) ftol = false
      /\ fgtb (dif (py (punt_geometry p))) ftol = false)
  /\ writes (check_points_decimals (self_of found_not_final)) w0 tt
            [info "Les fites estan correctament decimetritzades"].
Proof.
  assert (H : forall p : Punt float,
             In p (punt_line_gdf (layers (self_of found_not_final))) ->
             PyStr.mem (punt_ID_PUNT p) (ppf_list (self_of found_not_final)) = true ->
             fgtb (dif (px (punt_geometry p))) ftol = false
             /\ fgtb (dif (py (punt_geometry p))) ftol = false).
  { intros p [<-|[<-|[<-|[]]]] _; split; vm_compute; reflexivity. }
  split; [exact H|].
  exact (proj2 (proj2 (decimal_precision_violations_reported
                         (self_of found_not_final) w0)) H).
Defined.

Lemma dangling_reference_entries :
  p_proposta_df (layers (self_of dangling_reference)) <> []
  /\ exists named : string,
      writes (check_relation_points_tables (self_of dangling_reference)) w0 tt
        ([info "Comprovant correspondència entre les taules i la capa Punt..."]
         ++ map (fun r => err (proposta_rel_msg (PyStr.last_part (pp_ID_PUNT r))))
                (missing_p_proposta (self_of dangling_reference))
         ++ (if is_empty (missing_p_proposta (self_of dangling_reference))
             then [info "      Correspondència OK entre els punts de P_PROPOSTA i Punt."]
             else [])
         ++ map (fun _ => err (punt_fit_rel_msg named))
                (missing_punt_fit (self_of dangling_reference))
         ++ (if is_empty (missing_punt_fit (self_of dangling_reference))
             then [info "      Correspondència OK entre els punts de PUNT_FIT i Punt."]
             else [])).
Proof.
  assert (H : p_proposta_df (layers (self_of dangling_reference)) <> []) by discriminate.
  split; [exact H|].
  exact (relation_check_reports_each_missing_record (self_of dangling_reference) w0 H).
Defined.

(* ================================================================== *)
(** ** Further properties of the checks *)
(* ================================================================== *)

Lemma for_fold_ext_in {A S} (l : list A) (b1 b2 : S -> A -> M S) :
  (forall a, In a l -> forall s w, b1 s a w = b2 s a w) ->
  forall s w, for_fold l s b1 w = for_fold l s b2 w.
Proof.
  induction l as [|a l IH]; intros H s w; simpl; [reflexivity|].
  unfold bind. rewrite (H a (or_introl eq_refl)).
  destruct (b2 s a w) as [[s'|e] w']; [|reflexivity].
  apply IH. intros a' Ha'. apply H. now right.
Qed.

Lemma writes_if_nonempty {A} (l : list A) (f : A -> LogRecord) (w : World) :
  writes (when (negb (is_empty l)) (for_each l (fun a => emit (f a)))) w tt (map f l).
Proof.
  destruct l as [|a l]; [apply writes_ret|].
  cbn [is_empty negb when]. apply writes_for_each.
Qed.

Lemma raises_bind {A B} (m : M A) (f : A -> M B) w a rs e rs' :
  writes m w a rs ->
  f a (append_log w rs) = (Raise e, append_log (append_log w rs) rs') ->
  bind m f w = (Raise e, append_log w (rs ++ rs')).
Proof.
  unfold writes, bind. intros -> ->. now rewrite append_log_app.
Qed.

Lemma existsb_as_filter {A} (p : A -> bool) (l : list A) :
  existsb p l = negb (is_empty (filter p l)).
Proof. rewrite filter_nil_existsb. now rewrite negb_involutive. Qed.

(* ---------------------------------------------------------------- *)
(** *** Sorting by label number *)

(** Rows with distinct keys have one ascending order. *)
Lemma Sorted_distinct_unique {A} (l1 l2 : list (nat * A)) :
  NoDup (map fst l1) ->
  Permutation l1 l2 ->
  Sorted (fun a b => fst a <= fst b) l1 ->
  Sorted (fun a b => fst a <= fst b) l2 ->
  l1 = l2.
Proof.
  intros Hnd Hp H1 H2.
  assert (Htrans : Relations_1.Transitive (fun a b : nat * A => fst a <= fst b)).
  { intros a b c. apply Nat.le_trans. }
  apply (Sorted_StronglySorted Htrans) in H1, H2. clear Htrans.
  revert l2 Hp H2. induction l1 as [|a l1 IH]; intros l2 Hp H2.
  - apply Permutation_nil in Hp. now subst.
  - destruct l2 as [|b l2]; [apply Permutation_sym, Permutation_nil in Hp; discriminate|].
    inversion Hnd as [|? ? Hnotin Hnd']; subst.
    inversion H1 as [|? ? H1' Hall1]; subst.
    inversion H2 as [|? ? H2' Hall2]; subst.
    assert (Hab : a = b).
    { assert (Ha : In a (b :: l2)) by (apply (Permutation_in _ Hp); now left).
      assert (Hb : In b (a :: l1))
        by (apply (Permutation_in _ (Permutation_sym Hp)); now left).
      destruct Ha as [Ha|Ha]; [now symmetry|].
      destruct Hb as [Hb|Hb]; [exact Hb|].
      pose proof (proj1 (Forall_forall _ _) Hall2 a Ha) as Hba.
      pose proof (proj1 (Forall_forall _ _) Hall1 b Hb) as Hab.
      simpl in Hba, Hab. elim Hnotin.
      replace (fst a) with (fst b) by lia. now apply in_map. }
    subst b. f_equal. apply IH; try assumption.
    now apply Permutation_cons_inv in Hp.
Qed.

(** On rows with distinct keys, every instance of the sorting interface
    returns what insertion by key returns. *)
Lemma sort_values_distinct_keys {pd : Pandas} {A} (l : list (nat * A)) :
  NoDup (map fst l) -> sort_values l = insertion_sort l.
Proof.
  intros Hnd. apply Sorted_distinct_unique.
  - apply (Permutation_NoDup (l := map fst l)); [|exact Hnd].
    apply Permutation_map, Permutation_sym, sort_values_perm.
  - transitivity l; [apply sort_values_perm|].
    apply Permutation_sym. apply (sort_values_perm (Pandas := pandas)).
  - apply sort_values_Sorted.
  - apply (sort_values_Sorted (Pandas := pandas)).
Qed.

Lemma StronglySorted_filter {A} (R : A -> A -> Prop) (f : A -> bool) (l : list A) :
  StronglySorted R l -> StronglySorted R (filter f l).
Proof.
  induction 1 as [|a l Hs IH Hall]; simpl; [constructor|].
  destruct (f a); [|exact IH]. constructor; [exact IH|].
  apply Forall_forall. intros x Hx. apply filter_In in Hx as [Hx _].
  now apply (proj1 (Forall_forall _ _) Hall).
Qed.

Lemma last_cons {A} (l : list A) (a d : A) : last (a :: l) d = last l a.
Proof.
  revert a d. induction l as [|b l IH]; intros a d; [reflexivity|].
  change (last (a :: b :: l) d) with (last (b :: l) d). now rewrite !IH.
Qed.

Lemma last_In {A} (l : list A) (a : A) : In (last l a) (a :: l).
Proof.
  revert a. induction l as [|b l IH]; intros a; [now left|].
  right. rewrite last_cons. apply IH.
Qed.

Lemma StronglySorted_ends {A} (key : A -> nat) (first : A) (rest : list A) :
  StronglySorted (fun a b => key a <= key b) (first :: rest) ->
  forall p : A, In p (first :: rest) ->
    key first <= key p /\ key p <= key (last rest first).
Proof.
  revert first. induction rest as [|b rest IH]; intros first Hs p Hp.
  - destruct Hp as [<-|[]]. simpl. lia.
  - inversion Hs as [|? ? Hs' Hall]; subst.
    pose proof (proj1 (Forall_forall _ _) Hall) as Hle.
    rewrite last_cons.
    destruct Hp as [<-|Hp].
    + split; [lia|].
      destruct (IH b Hs' b (or_introl eq_refl)) as [_ H2].
      specialize (Hle b (or_introl eq_refl)). simpl in Hle. lia.
    + destruct (IH b Hs' p Hp) as [H1 H2]. split; [|exact H2].
      now apply Hle.
Qed.

Lemma StronglySorted_keyed {A} (key : A -> nat) (l : list (nat * A)) :
  (forall x, In x l -> fst x = key (snd x)) ->
  StronglySorted (fun a b => fst a <= fst b) l ->
  StronglySorted (fun a b => key a <= key b) (map snd l).
Proof.
  intros Hk. induction 1 as [|a l Hs IH Hall]; simpl; [constructor|].
  constructor.
  - apply IH. intros x Hx. apply Hk. now right.
  - apply Forall_forall. intros y Hy. apply in_map_iff in Hy as (x & <- & Hx).
    rewrite <- (Hk a (or_introl eq_refl)), <- (Hk x (or_intror Hx)).
    now apply (proj1 (Forall_forall _ _) Hall).
Qed.

Lemma combine_map_keyed {A} (key : A -> nat) (l : list A) (x : nat * A) :
  In x (combine (map key l) l) -> fst x = key (snd x).
Proof.
  induction l as [|a l IH]; simpl; [intros []|].
  intros [<-|H]; [reflexivity | now apply IH].
Qed.

(* ---------------------------------------------------------------- *)
(** *** Dictionaries *)

Lemma dict_set_In {V} (k k0 : string) (v v0 : V) (d : PyDict.t V) :
  In (k, v) (PyDict.set k0 v0 d) -> (k, v) = (k0, v0) \/ In (k, v) d.
Proof.
  induction d as [|[k' v'] d IH]; simpl.
  - intros [H|[]]. now left.
  - destruct (String.eqb_spec k' k0) as [->|Hne]; simpl.
    + intros [H|H]; [left; exact (eq_sym H) | right; now right].
    + intros [H|H]; [right; now left|].
      destruct (IH H) as [H'|H']; [now left | right; now right].
Qed.

Lemma dict_set_keys_In {V} (k k0 : string) (v0 : V) (d : PyDict.t V) :
  In k (PyDict.keys (PyDict.set k0 v0 d)) <-> k = k0 \/ In k (PyDict.keys d).
Proof.
  unfold PyDict.keys. induction d as [|[k' v'] d IH]; simpl.
  - split; [intros [H|[]]; now left | intros [H|[]]; now left].
  - destruct (String.eqb_spec k' k0) as [->|Hne]; simpl.
    + intuition (subst; auto).
    + rewrite IH. intuition (subst; auto).
Qed.

Lemma dict_set_keys_NoDup {V} (k0 : string) (v0 : V) (d : PyDict.t V) :
  NoDup (PyDict.keys d) -> NoDup (PyDict.keys (PyDict.set k0 v0 d)).
Proof.
  unfold PyDict.keys. induction d as [|[k' v'] d IH]; simpl; intros Hnd.
  - constructor; [intros [] | constructor].
  - inversion Hnd as [|? ? Hnotin Hnd']; subst.
    destruct (String.eqb_spec k' k0) as [->|Hne]; simpl.
    + now constructor.
    + constructor; [|now apply IH].
      intros Hin. apply (dict_set_keys_In k' k0 v0 d) in Hin as [H|H]; [congruence|].
      now apply Hnotin.
Qed.

Lemma dict_set_fresh {V} (k0 : string) (v0 : V) (d : PyDict.t V) :
  ~ In k0 (PyDict.keys d) -> PyDict.set k0 v0 d = d ++ [(k0, v0)].
Proof.
  unfold PyDict.keys. induction d as [|[k' v'] d IH]; simpl; intros Hn; [reflexivity|].
  destruct (String.eqb_spec k' k0) as [->|Hne]; [elim Hn; now left|].
  rewrite IH; [reflexivity|]. intros H. apply Hn. now right.
Qed.

Lemma of_pairs_from_distinct {V} (l acc : list (string * V)) :
  NoDup (map fst (acc ++ l)) ->
  fold_left (fun d kv => PyDict.set (fst kv) (snd kv) d) l acc = acc ++ l.
Proof.
  revert acc. induction l as [|[k v] l IH]; intros acc Hnd; simpl.
  - now rewrite app_nil_r.
  - assert (Hfresh : ~ In k (PyDict.keys acc)).
    { unfold PyDict.keys. rewrite map_app in Hnd. simpl in Hnd.
      apply NoDup_remove_2 in Hnd. intros H. apply Hnd. apply in_or_app. now left. }
    rewrite (dict_set_fresh k v acc Hfresh).
    rewrite IH; rewrite <- app_assoc; [reflexivity | exact Hnd].
Qed.

Lemma of_pairs_keys {V} (l acc : list (string * V)) :
  NoDup (PyDict.keys acc) ->
  NoDup (PyDict.keys (fold_left (fun d kv => PyDict.set (fst kv) (snd kv) d) l acc))
  /\ forall k : string,
       In k (PyDict.keys (fold_left (fun d kv => PyDict.set (fst kv) (snd kv) d) l acc))
       <-> In k (PyDict.keys acc) \/ In k (map fst l).
Proof.
  revert acc. induction l as [|[k0 v0] l IH]; intros acc Hnd; simpl.
  - split; [exact Hnd | intros k; tauto].
  - destruct (IH (PyDict.set k0 v0 acc) (dict_set_keys_NoDup k0 v0 acc Hnd)) as [H1 H2].
    split; [exact H1|]. intros k. rewrite H2, dict_set_keys_In.
    intuition (subst; auto).
Qed.

Lemma dict_set_In_iff {V} (k k0 : string) (v v0 : V) (d : PyDict.t V) :
  NoDup (PyDict.keys d) ->
  In (k, v) (PyDict.set k0 v0 d)
  <-> (k = k0 /\ v = v0) \/ (k <> k0 /\ In (k, v) d).
Proof.
  unfold PyDict.keys. induction d as [|[k' v'] d IH]; simpl; intros Hnd.
  - split.
    + intros [H|[]]. injection H as <- <-. now left.
    + intros [[-> ->]|[_ []]]. now left.
  - inversion Hnd as [|? ? Hnotin Hnd']; subst.
    destruct (String.eqb_spec k' k0) as [->|Hne]; simpl.
    + split.
      * intros [H|H]; [injection H as <- <-; now left|].
        right. split; [|now right].
        intros ->. apply Hnotin. now apply (in_map fst _ (k0, v)).
      * intros [[-> ->]|[Hk [H|H]]]; [now left | | now right].
        injection H as <- _. now elim Hk.
    + rewrite (IH Hnd'). split.
      * intros [H|[H|[Hk H]]].
        -- injection H as <- <-. right. split; [exact Hne | now left].
        -- now left.
        -- right. split; [exact Hk | now right].
      * intros [H|[Hk [H|H]]].
        -- right. now left.
        -- now left.
        -- right. right. now split.
Qed.

Lemma find_app {A} (p : A -> bool) (l1 l2 : list A) :
  find p (l1 ++ l2)
  = match find p l1 with
    | Some a => Some a
    | None => find p l2
    end.
Proof.
  induction l1 as [|a l1 IH]; simpl; [reflexivity|].
  now destruct (p a).
Qed.

Lemma find_ext {A} (p q : A -> bool) (l : list A) :
  (forall a : A, p a = q a) -> find p l = find q l.
Proof.
  intros H. induction l as [|a l IH]; simpl; [reflexivity|].
  now rewrite H, IH.
Qed.

Lemma find_filter {A} (f p : A -> bool) (l : list A) :
  find p (filter f l) = find (fun a => f a && p a) l.
Proof.
  induction l as [|a l IH]; simpl; [reflexivity|].
  destruct (f a); simpl; [now destruct (p a) | exact IH].
Qed.

(** A dictionary filled by a loop holds, for a key, the value of the
    last selected element with that key, or what it held before. *)
Lemma dict_fold_In_iff {A V} (sel : A -> bool) (key : A -> string) (val : A -> V)
      (l : list A) (d : PyDict.t V) (k : string) (v : V) :
  NoDup (PyDict.keys d) ->
  In (k, v)
     (fold_left (fun d a => if sel a then PyDict.set (key a) (val a) d else d) l d)
  <-> match find (fun a => sel a && String.eqb (key a) k) (rev l) with
      | Some a => v = val a
      | None => In (k, v) d
      end.
Proof.
  revert d. induction l as [|a l IH]; intros d Hnd; simpl; [reflexivity|].
  rewrite IH by (destruct (sel a); [now apply dict_set_keys_NoDup | exact Hnd]).
  rewrite find_app.
  destruct (find _ (rev l)); [reflexivity|]. simpl.
  destruct (sel a); simpl; [|reflexivity].
  rewrite (dict_set_In_iff _ _ _ _ _ Hnd).
  destruct (String.eqb_spec (key a) k) as [<-|Hne].
  - split; [intros [[_ H]|[H _]]; [exact H | now elim H] | intros ->; now left].
  - split; [intros [[H _]|[_ H]]; [now elim Hne | exact H] | intros H; right; split; [congruence | exact H]].
Qed.

Lemma fold_left_map {A B C} (f : C -> B -> C) (g : A -> B) (l : list A) (c : C) :
  fold_left f (map g l) c = fold_left (fun c a => f c (g a)) l c.
Proof. revert c. induction l as [|a l IH]; intros c; simpl; [reflexivity | apply IH]. Qed.

Lemma NoDup_map_In_eq {A B} (f : A -> B) (l : list A) (a b : A) :
  NoDup (map f l) -> In a l -> In b l -> f a = f b -> a = b.
Proof.
  induction l as [|x l IH]; simpl; intros Hnd Ha Hb Hf; [destruct Ha|].
  inversion Hnd as [|? ? Hnotin Hnd']; subst.
  destruct Ha as [->|Ha], Hb as [->|Hb].
  - reflexivity.
  - elim Hnotin. rewrite Hf. now apply in_map.
  - elim Hnotin. rewrite <- Hf. now apply in_map.
  - now apply IH.
Qed.

Section MoreProperties.

Context {num : Type} {F : PyFloat num} {G : Shapely num} {pd : Pandas}.

(* ---------------------------------------------------------------- *)
(** *** The line ID and the content of the fields *)

(** X1. [check_line_id_exists] writes exactly one entry, chosen by
    whether the line ID is among the ID of fita_mem and among those of
    tram_linia_mem; it is a remark only when the ID is in neither.  When
    the line ID is not an integer the check raises [ValueError] and writes
    nothing. *)
Theorem line_id_classified_four_ways (self : Self num) (w : World) :
  match line_id_int (layers self) with
  | Some n =>
      writes (check_line_id_exists self) w tt
        [line_id_report
           (existsb (fun r => Z.eqb (fm_id_linia r) n) (fita_mem_gdf (layers self)))
           (existsb (fun r => Z.eqb (tm_id_linia r) n) (tram_line_mem_gdf (layers self)))]
  | None => check_line_id_exists self w = (Raise ValueError, w)
  end.
Proof.
  unfold check_line_id_exists, int_line_id.
  destruct (line_id_int (layers self)) as [n|]; [|reflexivity].
  unfold writes. cbn [bind ret]. rewrite !filter_nil_existsb, !negb_involutive.
  destruct (existsb _ (fita_mem_gdf _)), (existsb _ (tram_line_mem_gdf _));
    cbn [andb negb line_id_report]; apply writes_emit.
Qed.

(** X2. [check_fields_content_lint_tram_ppta] writes an error when some
    segment carries the ID of another line, an error when some segment has
    ID_FITA1 or ID_FITA2 equal to '1', and its closing remark exactly when
    it wrote neither; each error is written once however many segments
    are concerned. *)
Theorem field_content_report (self : Self num) (w : World) (n : Z) :
  line_id_int (layers self) = Some n ->
  let trams := lin_tram_ppta_line_gdf (layers self) in
  let line_id_error := existsb (fun t => negb (Z.eqb (tram_ID_LINIA t) n)) trams in
  let id_fita_error :=
    existsb (fun t => String.eqb (tram_ID_FITA1 t) "1") trams
    || existsb (fun t => String.eqb (tram_ID_FITA2 t) "1") trams in
  writes (check_fields_content_lint_tram_ppta self) w tt
    ((if line_id_error
      then [err "Existeixen trams de linia amb l'ID_LINIA d'una altra linia"] else [])
     ++ (if id_fita_error
         then [err "El camp ID_FITA d'algun dels trams de la linia no és vàlid"] else [])
     ++ (if negb line_id_error && negb id_fita_error
         then [info "Els camps de Lin_TramPpta estan correctament emplenats"] else [])).
Proof.
  intros Hn trams line_id_error id_fita_error.
  unfold check_fields_content_lint_tram_ppta, int_line_id. rewrite Hn.
  subst line_id_error id_fita_error. rewrite !existsb_as_filter. fold trams.
  rewrite <- (app_nil_l (_ ++ _)).
  eapply writes_bind; [apply writes_ret|].
  eapply writes_bind; [apply writes_when; intros _; apply writes_emit|].
  eapply writes_bind; [apply writes_when; intros _; apply writes_emit|].
  apply writes_when; intros _; apply writes_emit.
Qed.

(* ---------------------------------------------------------------- *)
(** *** The coordinates of the line *)

Lemma fold_append_items {A} (l acc : list A) :
  fold_left (fun a v => a ++ [v]) l acc = acc ++ l.
Proof.
  revert acc. induction l as [|x l IH]; intros acc; simpl.
  - now rewrite app_nil_r.
  - rewrite IH, <- app_assoc. reflexivity.
Qed.

Lemma line_coords_loop (gs : list (LineGeom num)) (acc : list (num * num)) (w : World) :
  for_fold gs acc
    (fun acc t =>
       tram_coords <- coords t ;;
       ret (fold_left (fun a v => a ++ [v]) tram_coords acc)) w
  = if forallb is_linestring gs
    then (Return (acc ++ flat_map vertices gs), w)
    else (Raise NotImplementedError, w).
Proof.
  revert acc. induction gs as [|g gs IH]; intros acc; simpl.
  - now rewrite app_nil_r.
  - unfold bind at 1. unfold coords at 1, is_linestring at 1.
    destruct (geom_type g); cbn [bind ret andb]; [|reflexivity].
    rewrite IH, fold_append_items, <- app_assoc. reflexivity.
Qed.

(** X3. [get_round_line_coordinates] returns the vertices of all the
    segments, in layer order, each rounded to one decimal, when every
    segment is a LineString.  When some segment is multi-part it raises
    [NotImplementedError], and so does [get], before any check has
    written an entry. *)
Theorem line_coordinates_or_multipart_abort (ly : Layers num) (w : World) :
  let geoms := map tram_geometry (lin_tram_ppta_line_gdf ly) in
  if forallb is_linestring geoms
  then get_round_line_coordinates ly w
       = (Return (map round_xy (flat_map vertices geoms)), w)
  else get_round_line_coordinates ly w = (Raise NotImplementedError, w)
       /\ get ly w = (Raise NotImplementedError, w).
Proof.
  intros geoms. unfold get, get_round_line_coordinates. fold geoms.
  pose proof (line_coords_loop geoms [] w) as H.
  destruct (forallb is_linestring geoms).
  - rewrite (bind_returns _ _ _ _ _ H). reflexivity.
  - assert (H1 : bind
                   (for_fold geoms []
                      (fun acc t =>
                         tram_coords <- coords t ;;
                         ret (fold_left (fun a v => a ++ [v]) tram_coords acc)))
                   (fun l => ret (map (fun xy => (fround1 (fst xy), fround1 (snd xy))) l)) w
                 = (Raise NotImplementedError, w))
      by apply (bind_raises _ _ _ _ _ H).
    split; [exact H1|]. now rewrite (bind_raises _ _ _ _ _ H1).
Qed.

(* ---------------------------------------------------------------- *)
(** *** Geometry of the layers *)

(** X4. [check_lin_tram_geometry] tests [is_empty] twice: every empty
    segment is reported as empty and, after all of those, as having an
    inner ring, and no other segment is ever reported for a ring.  Then
    comes an error per multi-part segment, and the closing remark exactly
    when no segment is empty or multi-part. *)
Theorem line_geometry_report (self : Self num) (w : World) :
  let trams := lin_tram_ppta_line_gdf (layers self) in
  let empty_features := filter (fun t => line_is_empty (tram_geometry t)) trams in
  let multi_features := filter (fun t => negb (is_linestring (tram_geometry t))) trams in
  writes (check_lin_tram_geometry self) w tt
    (map tram_empty_msg empty_features
     ++ map tram_ring_msg empty_features
     ++ map tram_multi_msg multi_features
     ++ (if is_empty empty_features && is_empty multi_features
         then [info "      No s'ha detectat cap error de geometria a Lin_TramPpta"]
         else [])).
Proof.
  intros trams empty_features multi_features.
  unfold check_lin_tram_geometry. fold trams. fold empty_features.
  eapply writes_bind; [apply (writes_if_nonempty empty_features tram_empty_msg)|].
  eapply writes_bind; [apply (writes_if_nonempty empty_features tram_ring_msg)|].
  eapply writes_bind.
  { unfold writes.
    erewrite for_fold_ext;
      [apply (writes_flag_loop trams (fun t => negb (is_linestring (tram_geometry t)))
                tram_multi_msg true)|].
    intros s a w'. unfold is_linestring. destruct (geom_type (tram_geometry a)); reflexivity. }
  fold multi_features. cbn [andb].
  rewrite <- filter_nil_existsb. fold multi_features.
  rewrite andb_diag. rewrite andb_comm with (b1 := is_empty empty_features).
  rewrite andb_comm.
  apply writes_when. intros _. apply writes_emit.
Qed.

(** X5. [check_points_geometry] writes an error per empty point, then an
    error per point whose geometry is not valid, in layer order, and its
    closing remark exactly when there is neither. *)
Theorem point_geometry_report (self : Self num) (w : World) :
  let punts := punt_line_gdf (layers self) in
  let empty_features := filter (fun p => point_is_empty (punt_geometry p)) punts in
  let invalid_features := filter (fun p => negb (point_is_valid (punt_geometry p))) punts in
  writes (check_points_geometry self) w tt
    (map punt_empty_msg empty_features
     ++ map punt_invalid_msg invalid_features
     ++ (if is_empty empty_features && is_empty invalid_features
         then [info "      No s'ha detectat cap error de geometria a la capa Punt"]
         else [])).
Proof.
  intros punts empty_features invalid_features.
  unfold check_points_geometry. fold punts. fold empty_features. fold invalid_features.
  eapply writes_bind; [apply (writes_if_nonempty empty_features punt_empty_msg)|].
  eapply writes_bind; [apply (writes_if_nonempty invalid_features punt_invalid_msg)|].
  apply writes_when. intros _. apply writes_emit.
Qed.

(* ---------------------------------------------------------------- *)
(** *** The table P_Proposta *)

(** X6. [info_p_proposta] writes its heading and the three counts, then
    the entries of the records with a null ORDPF, then those of the
    auxiliary points indicated as real, and closes with the remark that
    all the records are valid exactly when it wrote no error. *)
Theorem proposal_table_report (self : Self num) (w : World) :
  let df := p_proposta_df (layers self) in
  let errors := flat_map ordpf_report df ++ flat_map real_report df in
  writes (info_p_proposta self) w tt
    (info "Informació de les fites :" :: count_report df
     ++ errors
     ++ (if is_empty errors
         then [info "Tots els registre de la taula P_Proposta són vàlids."] else [])).
Proof.
  intros df errors. unfold info_p_proposta.
  change (info "Informació de les fites :" :: ?l) with ([info "Informació de les fites :"] ++ l).
  eapply writes_bind; [apply writes_emit|].
  eapply writes_bind.
  { unfold count_points. fold df. unfold count_report.
    change [?a; ?b; ?c] with ([a] ++ [b] ++ [c]).
    eapply writes_bind; [apply writes_emit|].
    eapply writes_bind; [apply writes_emit|]. apply writes_emit. }
  subst errors. rewrite <- app_assoc.
  eapply writes_bind; [apply writes_check_ordpf|].
  eapply writes_bind; [apply writes_check_real_points|].
  fold df.
  assert (E : is_empty (flat_map ordpf_report df ++ flat_map real_report df)
              = negb (existsb (fun r => is_null (pp_ORDPF r)) df)
                && negb (existsb bad_auxiliary df)).
  { rewrite <- !filter_nil_existsb.
    unfold ordpf_report, real_report.
    rewrite <- (map_filter_flat_map (fun r => is_null (pp_ORDPF r)) (fun r => err (ordpf_msg r))).
    rewrite <- (map_filter_flat_map bad_auxiliary (fun r => err (real_msg r))).
    destruct (filter (fun r => is_null (pp_ORDPF r)) df); [|reflexivity].
    destruct (filter bad_auxiliary df); reflexivity. }
  rewrite E. apply writes_when. intros _. apply writes_emit.
Qed.

(* ---------------------------------------------------------------- *)
(** *** Found points *)

(** X7. Run on a dictionary of found points, [check_photo_exists] reports
    the found points whose ID is not among the points of the final
    proposal with a photo indicated, in the order of the dictionary, or
    writes its one remark when there is none; run on the value [False] it
    raises [AttributeError] without writing. *)
Theorem photo_indicated_report (self : Self num) (w : World) :
  match founded_points_dict self with
  | FoundedDict d =>
      writes (check_photo_exists self) w tt
        (if is_empty (founded_no_photo self d)
         then [info "Totes les fites trobades tenen fotografia."]
         else map no_photo_msg (founded_no_photo self d))
  | PyFalse => check_photo_exists self w = (Raise AttributeError, w)
  end.
Proof.
  unfold check_photo_exists, founded_items.
  destruct (founded_points_dict self) as [|d]; [reflexivity|].
  unfold writes. cbn [bind ret]. fold (founded_no_photo self d).
  destruct (founded_no_photo self d) as [|kv l] eqn:E.
  - apply writes_emit.
  - cbn [is_empty]. apply (writes_for_each (kv :: l) no_photo_msg).
Qed.

Lemma writes_check_photo_name (self : Self num) (w : World) :
  let missing :=
    filter (fun f => negb (PyStr.mem f (folder_photos (layers self)))) (ppf_photos self) in
  writes (check_photo_name self) w tt
    (map photo_missing_msg missing
     ++ (if is_empty missing
         then [info "Totes les fotografies informades a la capa Punt estan a la carpeta de Fotografies."]
         else [])).
Proof.
  intros missing. unfold check_photo_name. fold (folder_photos (layers self)).
  assert (Hp : flat_map
                 (fun feature =>
                    if PyStr.mem (punt_ID_PUNT feature) (ppf_list self)
                    then match punt_FOTOS feature with Some f => [f] | None => [] end
                    else [])
                 (filter (fun p => not_null (punt_FOTOS p)) (punt_line_gdf (layers self)))
               = ppf_photos self).
  { unfold ppf_photos. induction (punt_line_gdf (layers self)) as [|p l IH];
      [reflexivity|]. cbn [filter flat_map].
    destruct (punt_FOTOS p) as [f|] eqn:Ef; cbn [not_null is_null negb].
    - cbn [flat_map]. rewrite Ef, IH. reflexivity.
    - rewrite IH. now destruct (PyStr.mem _ _). }
  rewrite Hp.
  eapply writes_bind.
  { apply (writes_flag_loop (ppf_photos self)
             (fun f => negb (PyStr.mem f (folder_photos (layers self))))
             photo_missing_msg true). }
  fold missing. cbn [andb]. rewrite <- filter_nil_existsb. fold missing.
  apply writes_when. intros _. apply writes_emit.
Qed.

Lemma ppf_photos_In (self : Self num) (p : Punt num) (f : string) :
  In p (punt_line_gdf (layers self)) ->
  PyStr.mem (punt_ID_PUNT p) (ppf_list self) = true ->
  punt_FOTOS p = Some f ->
  In f (ppf_photos self).
Proof.
  intros Hin Hm Hf. unfold ppf_photos. apply in_flat_map. exists p.
  split; [exact Hin|]. rewrite Hm, Hf. now left.
Qed.

(** X8. [check_photo_name] reports, in layer order, each photo name of a
    point of the final proposal that is not among the regular files of the
    photo folder ending in .jpg or .JPG, and writes its remark when every
    name is found.  In particular a photo indicated under a name with any
    other ending is reported as missing whatever the folder holds. *)
Theorem photo_file_report (self : Self num) (w : World) :
  exists report : list LogRecord,
    writes (check_photo_name self) w tt report
    /\ report
       = (let missing :=
            filter (fun f => negb (PyStr.mem f (folder_photos (layers self))))
                   (ppf_photos self) in
          map photo_missing_msg missing
          ++ (if is_empty missing
              then [info "Totes les fotografies informades a la capa Punt estan a la carpeta de Fotografies."]
              else []))
    /\ forall (p : Punt num) (f : string),
        In p (punt_line_gdf (layers self)) ->
        PyStr.mem (punt_ID_PUNT p) (ppf_list self) = true ->
        punt_FOTOS p = Some f ->
        PyStr.endswith f ".jpg" = false ->
        PyStr.endswith f ".JPG" = false ->
        In (photo_missing_msg f) report.
Proof.
  eexists. split; [apply writes_check_photo_name|]. split; [reflexivity|].
  intros p f Hin Hm Hf Hj HJ. cbv zeta. apply in_or_app. left.
  apply in_map. apply filter_In. split; [now apply (ppf_photos_In self p)|].
  apply negb_true_iff. apply not_true_is_false. intros Hmem.
  apply mem_In in Hmem. unfold folder_photos in Hmem.
  apply in_map_iff in Hmem as ((name & isfile) & Hname & Hin').
  apply filter_In in Hin' as [_ Hc]. cbn [fst snd] in *. subst name.
  rewrite Hj, HJ in Hc. now rewrite andb_false_r in Hc.
Qed.

(** X9. [check_cota_fita] reads [geometry.z] of every point of the layer
    before looking at the final proposal: when some point has no z
    coordinate it raises [DimensionError] and writes nothing, not even for
    the points it has already seen. *)
Theorem point_without_z_aborts_cota_check (self : Self num) (w : World) :
  (exists p : Punt num,
      In p (punt_line_gdf (layers self)) /\ pz (punt_geometry p) = None) ->
  check_cota_fita self w = (Raise DimensionError, w).
Proof.
  intros Hex. unfold check_cota_fita.
  apply bind_raises.
  generalize ([] : PyDict.t string).
  induction (punt_line_gdf (layers self)) as [|q l IH]; intros d.
  - destruct Hex as (p & [] & _).
  - cbn [for_fold]. unfold bind at 1. unfold bind at 1. unfold z_of at 1.
    destruct (pz (punt_geometry q)) as [z|] eqn:Ez; cbn [ret]; [|reflexivity].
    assert (Hl : exists p, In p l /\ pz (punt_geometry p) = None).
    { destruct Hex as (p & [<-|Hin] & Hp); [congruence | now exists p]. }
    destruct (_ && _); apply (IH Hl).
Qed.

Lemma ppf_z_loop (self : Self num) (l : list (Punt num)) (d : PyDict.t string) (w : World) :
  (forall p : Punt num, In p l -> pz (punt_geometry p) <> None) ->
  for_fold l d
    (fun ppf_z_dict feature =>
       let etiqueta := punt_ETIQUETA feature in
       let point_id := punt_ID_PUNT feature in
       z_coord <- z_of (punt_geometry feature) ;;
       if fgtb z_coord fzero && PyStr.mem point_id (ppf_list self)
       then ret (PyDict.set etiqueta point_id ppf_z_dict)
       else ret ppf_z_dict) w
  = (Return
       (fold_left
          (fun d feature =>
             match pz (punt_geometry feature) with
             | Some z_coord =>
                 if fgtb z_coord fzero && PyStr.mem (punt_ID_PUNT feature) (ppf_list self)
                 then PyDict.set (punt_ETIQUETA feature) (punt_ID_PUNT feature) d
                 else d
             | None => d
             end) l d), w).
Proof.
  revert d. induction l as [|p l IH]; intros d H; [reflexivity|].
  cbn [for_fold fold_left]. unfold bind at 1. cbv zeta. unfold bind at 1, z_of at 1.
  destruct (pz (punt_geometry p)) as [z|] eqn:Ez;
    [|now elim (H p (or_introl eq_refl))].
  cbn [ret]. destruct (_ && _); cbn [ret]; apply IH; intros q Hq; apply H; now right.
Qed.

(** X10. When every point of the layer has a z and the found points are a
    dictionary, [check_cota_fita] reports, among the points of the final
    proposal with a positive z taken one per label, those whose ID_PUNT is
    not a found point, and writes its remark when there is none. *)
Theorem cota_report (self : Self num) (w : World) (d : PyDict.t string) :
  (forall p : Punt num,
      In p (punt_line_gdf (layers self)) -> pz (punt_geometry p) <> None) ->
  founded_points_dict self = FoundedDict d ->
  let unfound :=
    filter (fun kv => negb (PyStr.mem (snd kv) (PyDict.values d)))
           (PyDict.items (ppf_z_dict self)) in
  writes (check_cota_fita self) w tt
    (map cota_msg unfound
     ++ (if is_empty unfound
         then [info "Totes les fites amb coordenada Z són trobades"] else [])).
Proof.
  intros Hz Hd unfound. unfold check_cota_fita, writes.
  rewrite (bind_returns _ _ _ _ _ (ppf_z_loop self _ [] w Hz)).
  fold (ppf_z_dict self).
  eapply writes_bind.
  { unfold writes.
    erewrite for_fold_ext;
      [apply (writes_flag_loop (PyDict.items (ppf_z_dict self))
                (fun kv => negb (PyStr.mem (snd kv) (PyDict.values d))) cota_msg true)|].
    intros s kv w'. unfold founded_values. rewrite Hd. cbn [bind ret].
    destruct (negb _); reflexivity. }
  fold unfound. cbn [andb]. rewrite <- filter_nil_existsb. fold unfound.
  apply writes_when. intros _. apply writes_emit.
Qed.

(* ---------------------------------------------------------------- *)
(** *** Points where three municipalities meet *)

Lemma label_numbers_loop (etiquetes : list string) (acc : list nat) (w : World) :
  for_fold etiquetes acc
    (fun acc i =>
       match PyStr.search_digits i with
       | None => raise AttributeError
       | Some d => ret (acc ++ [PyStr.int_of_digits d])
       end) w
  = if forallb has_number etiquetes
    then (Return (acc ++ map label_number etiquetes), w)
    else (Raise AttributeError, w).
Proof.
  revert acc. induction etiquetes as [|i l IH]; intros acc; simpl.
  - now rewrite app_nil_r.
  - unfold bind at 1. unfold has_number at 1, label_number at 1.
    destruct (PyStr.search_digits i) as [d|]; cbn [ret raise andb]; [|reflexivity].
    rewrite IH, <- app_assoc. reflexivity.
Qed.

Lemma filter_idem {A} (f : A -> bool) (l : list A) :
  filter f (filter f l) = filter f l.
Proof.
  induction l as [|a l IH]; simpl; [reflexivity|].
  destruct (f a) eqn:E; simpl; [now rewrite E, IH | exact IH].
Qed.

Lemma three_terms_after_labels (self : Self num) (w : World) :
  forallb has_number (map punt_ETIQUETA (punt_line_gdf (layers self))) = true ->
  check_3termes self w
  = match ppf_by_label self with
    | [] => (Raise IndexError, w)
    | first :: rest =>
        (Return tt,
         append_log w
           [if contacte_truthy (punt_CONTACTE first)
               && contacte_truthy (punt_CONTACTE (last rest first))
            then info "Les fites 3T tenen informat el camp CONTACTE."
            else err "Hi ha fites 3T que no tenen informat el camp CONTACTE.";
            contacte_count_msg self])
    end.
Proof.
  intros Hall. unfold check_3termes.
  pose proof (label_numbers_loop (map punt_ETIQUETA (punt_line_gdf (layers self))) [] w) as H.
  rewrite Hall in H. rewrite (bind_returns _ _ _ _ _ H). cbn [app].
  rewrite map_map, filter_idem. fold (ppf_by_label self).
  destruct (ppf_by_label self) as [|first rest]; [reflexivity|].
  cbn [first_item last_item bind ret].
  destruct (_ && _);
    apply (writes_bind _ _ w tt [_] tt [_]); apply writes_emit.
Qed.

Lemma forallb_has_number (l : list (Punt num)) :
  (forall p, In p l -> has_number (punt_ETIQUETA p) = true) ->
  forallb has_number (map punt_ETIQUETA l) = true.
Proof.
  intros H. apply forallb_forall. intros e He.
  apply in_map_iff in He as (p & <- & Hp). now apply H.
Qed.

Lemma map_snd_combine_map {A B} (f : A -> B) (l : list A) :
  map snd (combine (map f l) l) = l.
Proof. induction l as [|a l IH]; simpl; [reflexivity | now rewrite IH]. Qed.

Lemma ppf_by_label_In (self : Self num) (p : Punt num) :
  In p (ppf_by_label self) <->
  In p (punt_line_gdf (layers self))
  /\ PyStr.mem (punt_ID_PUNT p) (ppf_list self) = true.
Proof.
  unfold ppf_by_label. rewrite filter_In.
  set (keyed := combine _ _).
  assert (Hk : forall q, In q (map snd keyed) <-> In q (punt_line_gdf (layers self))).
  { intros q. subst keyed. now rewrite map_snd_combine_map. }
  assert (Hs : forall q, In q (map snd (sort_values keyed)) <-> In q (map snd keyed)).
  { intros q. split; apply Permutation_in, Permutation_map;
      [|symmetry]; apply sort_values_perm. }
  now rewrite Hs, Hk.
Qed.

Lemma ppf_by_label_sorted (self : Self num) :
  StronglySorted (fun a b => label_number (punt_ETIQUETA a)
                             <= label_number (punt_ETIQUETA b))
                 (ppf_by_label self).
Proof.
  unfold ppf_by_label. apply StronglySorted_filter.
  apply (StronglySorted_keyed (fun p => label_number (punt_ETIQUETA p))).
  - intros x Hx. apply (Permutation_in _ (sort_values_perm _)) in Hx.
    now apply combine_map_keyed in Hx.
  - apply Sorted_StronglySorted; [|apply sort_values_Sorted].
    intros a b c. apply Nat.le_trans.
Qed.

Lemma map_fst_combine_map {A B} (f : A -> B) (l : list A) :
  map fst (combine (map f l) l) = map f l.
Proof. induction l as [|a l IH]; simpl; [reflexivity | now rewrite IH]. Qed.

(** X11. [check_3termes] needs a number in the label of every point of
    the layer and a point of the final proposal in the layer: when some
    label, of any point, has no digit it raises [AttributeError]; when all
    have one and no point of the layer is in the final proposal it raises
    [IndexError]; either way it writes nothing. *)
Theorem three_terms_check_aborts (self : Self num) (w : World) :
  ((exists p : Punt num,
       In p (punt_line_gdf (layers self)) /\ has_number (punt_ETIQUETA p) = false) ->
   check_3termes self w = (Raise AttributeError, w))
  /\ ((forall p : Punt num,
          In p (punt_line_gdf (layers self)) -> has_number (punt_ETIQUETA p) = true) ->
      (forall p : Punt num,
          In p (punt_line_gdf (layers self)) ->
          PyStr.mem (punt_ID_PUNT p) (ppf_list self) = false) ->
      check_3termes self w = (Raise IndexError, w)).
Proof.
  split.
  - intros (p & Hin & Hp). unfold check_3termes. apply bind_raises.
    rewrite label_numbers_loop.
    destruct (forallb has_number _) eqn:E; [|reflexivity].
    rewrite forallb_forall in E.
    rewrite (E (punt_ETIQUETA p)) in Hp; [discriminate | now apply in_map].
  - intros Hnum Hppf. rewrite three_terms_after_labels by now apply forallb_has_number.
    destruct (ppf_by_label self) as [|first rest] eqn:E; [reflexivity|].
    assert (Hin : In first (ppf_by_label self)) by (rewrite E; now left).
    apply ppf_by_label_In in Hin as [Hin Hm]. rewrite (Hppf first Hin) in Hm. discriminate.
Qed.

(** X12. When every label has a number and the layer has a point of the
    final proposal, [check_3termes] judges two points of the final
    proposal, one with the least label number and one with the greatest:
    it writes a remark when the CONTACTE of both is filled with a
    non-empty text and an error otherwise, followed by the count of the
    points of the layer whose CONTACTE is not null. *)
Theorem three_terms_judges_first_and_last (self : Self num) (w : World) :
  (forall p : Punt num,
      In p (punt_line_gdf (layers self)) -> has_number (punt_ETIQUETA p) = true) ->
  (exists p : Punt num,
      In p (punt_line_gdf (layers self))
      /\ PyStr.mem (punt_ID_PUNT p) (ppf_list self) = true) ->
  exists first_point last_point : Punt num,
    In first_point (ppf_by_label self)
    /\ In last_point (ppf_by_label self)
    /\ (forall p : Punt num,
          In p (punt_line_gdf (layers self)) ->
          PyStr.mem (punt_ID_PUNT p) (ppf_list self) = true ->
          label_number (punt_ETIQUETA first_point) <= label_number (punt_ETIQUETA p)
          /\ label_number (punt_ETIQUETA p) <= label_number (punt_ETIQUETA last_point))
    /\ writes (check_3termes self) w tt
         [if contacte_truthy (punt_CONTACTE first_point)
             && contacte_truthy (punt_CONTACTE last_point)
          then info "Les fites 3T tenen informat el camp CONTACTE."
          else err "Hi ha fites 3T que no tenen informat el camp CONTACTE.";
          contacte_count_msg self].
Proof.
  intros Hnum (q & Hq & Hqm).
  pose proof (three_terms_after_labels self w (forallb_has_number _ Hnum)) as Hrun.
  pose proof (ppf_by_label_sorted self) as Hs.
  assert (Hqin : In q (ppf_by_label self)) by now apply ppf_by_label_In.
  destruct (ppf_by_label self) as [|first rest] eqn:E; [destruct Hqin|].
  exists first, (last rest first).
  split; [now left|]. split.
  - apply last_In.
  - split; [|exact Hrun].
    intros p Hp Hpm.
    assert (Hpin : In p (first :: rest)).
    { rewrite <- E. now apply ppf_by_label_In. }
    apply (StronglySorted_ends (fun p => label_number (punt_ETIQUETA p)) first rest Hs p Hpin).
Qed.

(* ---------------------------------------------------------------- *)
(** *** The dictionaries derived from the layers *)

Lemma combine_coords_items (l : list (Punt num)) :
  combine (map punt_ID_PUNT l)
          (combine (map (fun p => fround1 (px (punt_geometry p))) l)
                   (map (fun p => fround1 (py (punt_geometry p))) l))
  = map coords_item l.
Proof. induction l as [|p l IH]; simpl; [reflexivity | now rewrite IH]. Qed.

(** X13. [get_round_point_coordinates] holds one item for every ID_PUNT of
    the layer Punt, whatever the number of points that share it.  When the
    ID_PUNT of the layer are distinct, the items are the points in layer
    order, each with its x and y rounded to one decimal. *)
Theorem point_coordinates_dict (ly : Layers num) :
  let d := get_round_point_coordinates ly in
  NoDup (PyDict.keys d)
  /\ (forall point_id : string,
        In point_id (PyDict.keys d) <-> In point_id (map punt_ID_PUNT (punt_line_gdf ly)))
  /\ (NoDup (map punt_ID_PUNT (punt_line_gdf ly)) ->
      PyDict.items d = map coords_item (punt_line_gdf ly)).
Proof.
  unfold get_round_point_coordinates, PyDict.of_pairs. rewrite combine_coords_items.
  cbv zeta.
  destruct (of_pairs_keys (map coords_item (punt_line_gdf ly)) [] (NoDup_nil _)) as [H1 H2].
  split; [exact H1|]. split.
  - intros k. rewrite H2, map_map. simpl. tauto.
  - intros Hnd. unfold PyDict.items. rewrite of_pairs_from_distinct; [reflexivity|].
    simpl. now rewrite map_map.
Qed.

(* ---------------------------------------------------------------- *)
(** *** The precondition of the auxiliary points, over the layer Punt *)

Lemma last_row_In (point_id : string) (rows : list (Punt num)) (p : Punt num) :
  last_row point_id rows = Some p -> In p rows /\ punt_ID_PUNT p = point_id.
Proof.
  unfold last_row. intros H. apply find_some in H as [Hin Heq].
  split; [now apply in_rev | now apply String.eqb_eq].
Qed.

Lemma last_row_distinct (rows : list (Punt num)) (p : Punt num) :
  NoDup (map punt_ID_PUNT rows) ->
  In p rows -> last_row (punt_ID_PUNT p) rows = Some p.
Proof.
  intros Hnd Hp. unfold last_row.
  destruct (find _ (rev rows)) as [q|] eqn:E.
  - apply find_some in E as [Hq Heq]. apply in_rev in Hq. apply String.eqb_eq in Heq.
    f_equal. now apply (NoDup_map_In_eq punt_ID_PUNT rows).
  - apply in_rev in Hp. apply (find_none _ _ E p) in Hp.
    now rewrite String.eqb_refl in Hp.
Qed.

(** The items of [points_coords_dict]: for an ID_PUNT, the rounded
    coordinates of the last point of the layer with that ID. *)
Lemma point_coordinates_items (ly : Layers num) (k : string) (v : num * num) :
  In (k, v) (PyDict.items (get_round_point_coordinates ly))
  <-> exists p : Punt num,
        last_row k (punt_line_gdf ly) = Some p /\ snd (coords_item p) = v.
Proof.
  unfold get_round_point_coordinates, PyDict.of_pairs, PyDict.items.
  rewrite combine_coords_items. cbv zeta. rewrite fold_left_map.
  pose proof (dict_fold_In_iff (fun _ => true) punt_ID_PUNT
                (fun p => snd (coords_item p)) (punt_line_gdf ly) [] k v
                (NoDup_nil _)) as H.
  cbn [andb fst snd coords_item] in H. cbn [fst snd coords_item]. rewrite H.
  unfold last_row.
  destruct (find _ (rev (punt_line_gdf ly))) as [q|].
  - split; [intros ->; now exists q | intros (p & Hp & <-); now injection Hp as ->].
  - split; [intros [] | intros (p & Hp & _); discriminate].
Qed.

Lemma aux_precondition_rows_iff (ly : Layers num) (line_coords : list (num * num)) :
  aux_precondition (set_attributes ly line_coords)
  <-> aux_precondition_rows ly line_coords.
Proof.
  unfold aux_precondition, aux_precondition_rows, set_attributes.
  cbn [points_coords_dict line_coords_list ppf_list layers]. split.
  - intros H p Hlast Hc Hm.
    apply (H (punt_ID_PUNT p, snd (coords_item p))); [|exact Hc | exact Hm].
    apply point_coordinates_items. now exists p.
  - intros H [k v] Hin Hc Hm. cbn [fst snd] in *.
    apply point_coordinates_items in Hin as (p & Hlast & <-).
    destruct (last_row_In _ _ _ Hlast) as [_ <-].
    now apply H.
Qed.

Lemma auxiliary_point_body_exact (self : Self num) item w :
  lookup_ok self item = true ->
  writes (auxiliary_point_body self item) w tt (aux_report self item).
Proof.
  unfold lookup_ok, aux_report. intros H.
  destruct (needs_lookup self item) eqn:Hn; simpl in H.
  - rewrite has_punt_fit_record_filter in H.
    unfold needs_lookup in Hn. apply andb_true_iff in Hn as [Hc Hm].
    unfold auxiliary_point_body. rewrite Hc, Hm.
    destruct (filter _ _) as [|r l]; [discriminate|].
    unfold writes. cbn [map first_item bind ret].
    destruct (String.eqb (pf_AUX r) "1"); apply writes_emit.
  - now apply auxiliary_point_body_skip.
Qed.

Lemma aux_report_length (self : Self num) (items : list (string * (num * num))) :
  forallb (lookup_ok self) items = true ->
  List.length (flat_map (aux_report self) items)
  = List.length (filter (needs_lookup self) items).
Proof.
  induction items as [|it items IH]; simpl; intros H; [reflexivity|].
  apply andb_true_iff in H as [Hit Hrest].
  rewrite length_app, (IH Hrest). unfold lookup_ok in Hit. unfold aux_report.
  destruct (needs_lookup self it); simpl in *; [|reflexivity].
  rewrite has_punt_fit_record_filter in Hit.
  destruct (filter _ (punt_fit_df (layers self))) as [|r l]; [discriminate|].
  now destruct (String.eqb (pf_AUX r) "1").
Qed.

Lemma auxiliary_loop_exact (self : Self num) (items : list (string * (num * num)))
      (w : World) :
  forallb (lookup_ok self) items = true ->
  writes (for_each items (auxiliary_point_body self)) w tt
         (flat_map (aux_report self) items).
Proof.
  revert w. induction items as [|it items IH]; intros w H; simpl in *.
  - apply writes_ret.
  - apply andb_true_iff in H as [Hit Hrest].
    eapply writes_bind; [now apply auxiliary_point_body_exact | now apply IH].
Qed.

(** C10, as amended. [points_coords_dict] holds one item per ID_PUNT,
    with the coordinates of the last point of the layer that has this ID,
    and [check_auxiliary_point] judges these items: it completes exactly
    when every marker point that is of the final proposal, is the last of
    the layer with its ID_PUNT and has rounded coordinates that are not
    among the vertices of the line, has a record in PUNT_FIT.  Under that
    condition each such point gets its one report entry (the selection
    indexed with [0] is never empty); otherwise the check raises
    [IndexError] at the first such point without a record, and writes
    nothing for it.  The condition over all the marker points is
    sufficient, and it is necessary when the ID_PUNT of the layer are
    distinct. *)
Theorem auxiliary_point_precondition
        (ly : Layers num) (line_coords : list (num * num)) (w : World) :
  let self := set_attributes ly line_coords in
  let items := PyDict.items (points_coords_dict self) in
  (forall (k : string) (v : num * num),
      In (k, v) items
      <-> exists p : Punt num,
            last_row k (punt_line_gdf ly) = Some p /\ snd (coords_item p) = v)
  /\ ((exists rs : list LogRecord, writes (check_auxiliary_point self) w tt rs)
      <-> aux_precondition_rows ly line_coords)
  /\ (aux_precondition_rows ly line_coords ->
      writes (check_auxiliary_point self) w tt (flat_map (aux_report self) items)
      /\ List.length (flat_map (aux_report self) items)
         = List.length (filter (needs_lookup self) items))
  /\ (~ aux_precondition_rows ly line_coords ->
      exists rs : list LogRecord,
        check_auxiliary_point self w = (Raise IndexError, append_log w rs))
  /\ (off_line_final_points_have_record ly line_coords ->
      aux_precondition_rows ly line_coords)
  /\ (NoDup (map punt_ID_PUNT (punt_line_gdf ly)) ->
      aux_precondition_rows ly line_coords ->
      off_line_final_points_have_record ly line_coords).
Proof.
  intros self items.
  pose proof (aux_precondition_rows_iff ly line_coords) as Hrows. fold self in Hrows.
  split; [intros k v; apply point_coordinates_items|].
  split; [rewrite <- Hrows; apply auxiliary_point_total_iff|].
  split; [|split; [|split]].
  - intros H. apply Hrows, aux_precondition_lookup_ok in H.
    split; [now apply auxiliary_loop_exact | now apply aux_report_length].
  - intros H. apply auxiliary_point_raises. now rewrite Hrows.
  - intros H p Hlast. apply H. now apply (last_row_In _ _ _ Hlast).
  - intros Hnd H p Hp. apply H. now apply last_row_distinct.
Qed.

Lemma founded_fold_invariant (ppf : list string) (found : list PuntFit)
      (d : PyDict.t string) (P : string * string -> Prop) :
  NoDup (PyDict.keys d) ->
  (forall kv, In kv d -> P kv) ->
  (forall r, In r found -> PyStr.mem (pf_ID_PUNT r) ppf = true ->
             P (pf_ID_FITA r, pf_ID_PUNT r)) ->
  let d' := fold_left
              (fun d feature =>
                 if PyStr.mem (pf_ID_PUNT feature) ppf
                 then PyDict.set (pf_ID_FITA feature) (pf_ID_PUNT feature) d
                 else d) found d in
  NoDup (PyDict.keys d') /\ forall kv, In kv d' -> P kv.
Proof.
  revert d. induction found as [|r found IH]; intros d Hnd Hd Hf; simpl.
  - now split.
  - apply IH.
    + destruct (PyStr.mem _ _); [now apply dict_set_keys_NoDup | exact Hnd].
    + destruct (PyStr.mem _ _) eqn:Hm; [|exact Hd].
      intros [k v] Hin. apply dict_set_In in Hin as [->|Hin]; [|now apply Hd].
      apply Hf; [now left | exact Hm].
    + intros r' Hr'. apply Hf. now right.
Qed.

Lemma founded_point_items (ly : Layers num) (ppf : list string) (k v : string) :
  In (k, v)
     (fold_left
        (fun d feature =>
           if PyStr.mem (pf_ID_PUNT feature) ppf
           then PyDict.set (pf_ID_FITA feature) (pf_ID_PUNT feature) d
           else d)
        (filter (fun r => String.eqb (pf_TROBADA r) "1") (punt_fit_df ly)) [])
  <-> founded_point ly ppf k = Some v.
Proof.
  rewrite (dict_fold_In_iff (fun r => PyStr.mem (pf_ID_PUNT r) ppf)
             pf_ID_FITA pf_ID_PUNT _ [] k v (NoDup_nil _)).
  unfold founded_point. rewrite <- filter_rev, find_filter.
  rewrite (find_ext _ _ _ (fun r => andb_assoc _ _ _)).
  destruct (find _ (rev (punt_fit_df ly))) as [r|]; simpl.
  - split; [now intros -> | intros H; now injection H].
  - split; [intros [] | discriminate].
Qed.

(** X14. [get_founded_points_dict] returns [False] exactly when PUNT_FIT
    has no record with TROBADA = '1'.  Otherwise it returns a dictionary
    with one item per ID_FITA of the records that are found and whose
    point is in the list given as the final proposal: every such record
    has its ID_FITA among the keys, and the item of an ID_FITA holds the
    ID_PUNT of the last such record with that ID_FITA. *)
Theorem founded_points_dict_items (ly : Layers num) (ppf : list string) :
  match get_founded_points_dict ly ppf with
  | PyFalse =>
      forall r : PuntFit, In r (punt_fit_df ly) -> pf_TROBADA r <> "1"
  | FoundedDict d =>
      (exists r : PuntFit, In r (punt_fit_df ly) /\ pf_TROBADA r = "1")
      /\ NoDup (PyDict.keys d)
      /\ (forall k v : string,
            In (k, v) (PyDict.items d) ->
            exists r : PuntFit,
              In r (punt_fit_df ly) /\ pf_TROBADA r = "1"
              /\ pf_ID_FITA r = k /\ pf_ID_PUNT r = v /\ In v ppf)
      /\ (forall r : PuntFit,
            In r (punt_fit_df ly) -> pf_TROBADA r = "1" -> In (pf_ID_PUNT r) ppf ->
            In (pf_ID_FITA r) (PyDict.keys d))
      /\ (forall k v : string,
            In (k, v) (PyDict.items d) <-> founded_point ly ppf k = Some v)
  end.
Proof.
  pose proof (founded_point_items ly ppf) as Hitems.
  unfold get_founded_points_dict.
  set (found := filter (fun r => String.eqb (pf_TROBADA r) "1") (punt_fit_df ly)) in *.
  assert (Hfound : forall r, In r found <-> In r (punt_fit_df ly) /\ pf_TROBADA r = "1").
  { intros r. subst found. rewrite filter_In. now rewrite String.eqb_eq. }
  destruct found as [|r0 found'] eqn:E; cbn [is_empty negb].
  - intros r Hr Ht. now apply (proj2 (Hfound r) (conj Hr Ht)).
  - split.
    { exists r0. apply Hfound. now left. }
    pose proof (founded_fold_invariant ppf (r0 :: found') []
                  (fun kv => exists r, In r (punt_fit_df ly) /\ pf_TROBADA r = "1"
                                       /\ pf_ID_FITA r = fst kv /\ pf_ID_PUNT r = snd kv
                                       /\ In (snd kv) ppf)) as H.
    cbv zeta in H. destruct H as [H1 H2].
    + constructor.
    + intros kv [].
    + intros r Hr Hm. apply Hfound in Hr as [Hr Ht].
      exists r. cbn [fst snd]. repeat split; try assumption. now apply mem_In.
    + split; [exact H1|]. split; [intros k v Hin; apply (H2 (k, v) Hin)|].
      split; [|exact Hitems].
      intros r Hr Ht Hm. unfold PyDict.keys.
      destruct (founded_point ly ppf (pf_ID_FITA r)) as [v|] eqn:Ev.
      * apply Hitems in Ev. now apply (in_map fst _ (pf_ID_FITA r, v)).
      * unfold founded_point in Ev.
        destruct (find _ (rev (punt_fit_df ly))) as [r'|] eqn:Ef; [discriminate|].
        apply in_rev in Hr. apply (find_none _ _ Ef r) in Hr.
        apply String.eqb_eq in Ht. apply mem_In in Hm.
        now rewrite Ht, Hm, String.eqb_refl in Hr.
Qed.

(* ---------------------------------------------------------------- *)
(** *** Topology *)

Lemma is_empty_app {A} (a b : list A) : is_empty (a ++ b) = is_empty a && is_empty b.
Proof. now destruct a. Qed.

Lemma is_empty_flat_map_map {A B C} (f : A -> B -> C) (h : A -> list B) (l : list A) :
  is_empty (flat_map (fun a => map (f a) (h a)) l) = is_empty (flat_map h l).
Proof.
  induction l as [|a l IH]; [reflexivity|].
  cbn [flat_map]. rewrite !is_empty_app, IH. f_equal. now destruct (h a).
Qed.

Lemma writes_nested_flag_loop {A B} (l : list A) (g : A -> list B)
      (p : A -> B -> bool) (f : A -> B -> LogRecord) (flag : bool) (w : World) :
  writes (for_fold l flag (fun valid a =>
            for_fold (g a) valid (fun valid b =>
              if p a b then (emit (f a b) ;; ret false) else ret valid)))
         w (flag && is_empty (flat_map (fun a => filter (p a) (g a)) l))
         (flat_map (fun a => map (f a) (filter (p a) (g a))) l).
Proof.
  revert flag w. induction l as [|a l IH]; intros flag w; simpl.
  - rewrite andb_true_r. apply writes_ret.
  - eapply writes_bind; [apply writes_flag_loop|].
    rewrite is_empty_app, filter_nil_existsb, andb_assoc. apply IH.
Qed.

(** X15. [check_line_crosses_itself] writes an error per segment that is
    not valid, then, for every segment in layer order, an error per
    segment of a different geometry that it crosses, and its closing
    remark exactly when it wrote no error.  Segments with equal geometry
    are never compared. *)
Theorem self_crossing_report (self : Self num) (w : World) :
  let trams := lin_tram_ppta_line_gdf (layers self) in
  let invalid_features := filter (fun t => negb (line_is_valid (tram_geometry t))) trams in
  let crossings :=
    flat_map (fun tram => map (tram_crosses_msg tram) (crossed_by trams tram)) trams in
  writes (check_line_crosses_itself self) w tt
    (map tram_invalid_msg invalid_features
     ++ crossings
     ++ (if is_empty invalid_features && is_empty crossings
         then [info "      Els trams de la linia no s'intersecten o toquen a sí mateixos."]
         else [])).
Proof.
  intros trams invalid_features crossings. unfold check_line_crosses_itself.
  fold trams. fold invalid_features.
  eapply writes_bind.
  { instantiate (1 := is_empty invalid_features).
    destruct invalid_features as [|t l]; [apply writes_ret|].
    cbn [is_empty negb]. rewrite <- (app_nil_r (map _ _)).
    eapply writes_bind; [apply (writes_for_each (t :: l) tram_invalid_msg) | apply writes_ret]. }
  eapply writes_bind.
  { apply (writes_nested_flag_loop trams
             (fun tram => filter (fun t => geom_ne (tram_geometry t) (tram_geometry tram)) trams)
             (fun tram tram_ => crosses (tram_geometry tram) (tram_geometry tram_))
             tram_crosses_msg). }
  assert (E : is_empty crossings
              = is_empty (flat_map
                            (fun a => filter
                                        (fun tram_ => crosses (tram_geometry a) (tram_geometry tram_))
                                        (filter (fun t => geom_ne (tram_geometry t) (tram_geometry a))
                                                trams)) trams)).
  { subst crossings. unfold crossed_by. apply is_empty_flat_map_map. }
  rewrite E. apply writes_when. intros _. apply writes_emit.
Qed.

(** X16. On segments that are LineStrings with at least one vertex,
    [check_endpoint_covered_point] reports exactly the segments whose
    first vertex, rounded, is not among the rounded coordinates of the
    markers, in layer order, and writes its closing remark when there is
    none; the last vertex of a segment takes no part in the report. *)
Theorem endpoint_report_follows_first_vertex (self : Self num) (w : World) :
  (forall t : Tram num,
      In t (lin_tram_ppta_line_gdf (layers self)) ->
      geom_type (tram_geometry t) = LineString /\ vertices (tram_geometry t) <> []) ->
  let unmatched :=
    filter (first_end_unmatched self) (lin_tram_ppta_line_gdf (layers self)) in
  writes (check_endpoint_covered_point self) w tt
    (map (fun t => err (endpoint_msg (tram_ID t))) unmatched
     ++ (if is_empty unmatched
         then [info "      Tots els punts finals dels trams de la linia coincideixen amb una fita de la capa Punt."]
         else [])).
Proof.
  intros Hall unmatched. unfold check_endpoint_covered_point.
  eapply writes_bind.
  { unfold writes.
    erewrite for_fold_ext_in;
      [apply (writes_flag_loop _ (first_end_unmatched self)
                (fun t => err (endpoint_msg (tram_ID t))) true)|].
    intros t Ht s w'. destruct (Hall t Ht) as [Hg Hv].
    unfold coords, first_end_unmatched. rewrite Hg.
    destruct (vertices (tram_geometry t)) as [|v vs]; [now elim Hv|].
    cbn [bind ret first_item last_item]. unfold py_or, tuple_truthy.
    destruct (negb _); reflexivity. }
  fold unmatched. cbn [andb]. rewrite <- filter_nil_existsb. fold unmatched.
  apply writes_when. intros _. apply writes_emit.
Qed.

(** X17. When every point that [check_auxiliary_point] looks up has a
    record in PUNT_FIT, the check writes, in the order of the dictionary,
    one entry per point of the final proposal that is off the line: a
    remark when the AUX of the first record of the point is '1', an error
    otherwise, with the ID_FITA of that record; later records of the same
    point and points on the line or outside the final proposal add
    nothing. *)
Theorem auxiliary_point_report (self : Self num) (w : World) :
  aux_precondition self ->
  writes (check_auxiliary_point self) w tt
    (flat_map (aux_report self) (PyDict.items (points_coords_dict self))).
Proof.
  intros H. apply aux_precondition_lookup_ok in H. unfold check_auxiliary_point.
  now apply auxiliary_loop_exact.
Qed.

Lemma punt_fit_loop_unbound (ids : list string) (df : list PuntFit) (b : bool) (w : World) :
  existsb (fun r => negb (PyStr.mem (pf_ID_PUNT r) ids)) df = true ->
  for_fold df b (fun punt_fit_valid feature_ =>
    let point_id_ := pf_ID_PUNT feature_ in
    if negb (PyStr.mem point_id_ ids) then
      match @None string with
      | None => raise UnboundLocalError
      | Some pid =>
          let point_id_ := PyStr.last_part pid in
          logger_error (punt_fit_rel_msg point_id_) ;;
          ret false
      end
    else ret punt_fit_valid) w
  = (Raise UnboundLocalError, w).
Proof.
  revert b. induction df as [|r df IH]; intros b H; cbn [existsb for_fold] in *;
    [discriminate|].
  unfold bind at 1. cbv zeta.
  destruct (negb (PyStr.mem (pf_ID_PUNT r) ids)); cbn [orb] in H; [reflexivity|].
  cbn [ret]. now apply IH.
Qed.

Lemma relation_punt_fit_unbound (ids : list string) (df : list PuntFit) (w : World) :
  existsb (fun r => negb (PyStr.mem (pf_ID_PUNT r) ids)) df = true ->
  relation_punt_fit ids None df w = (Raise UnboundLocalError, w).
Proof. apply punt_fit_loop_unbound. Qed.

(** X18. With an empty P_Proposta, a record of PUNT_FIT whose ID_PUNT is
    not in the layer Punt makes [check_relation_points_tables] raise
    [UnboundLocalError]: the message of the second loop is built from the
    variable of the first, which is then not bound.  The heading and the
    remark on P_PROPOSTA are written, no entry on PUNT_FIT is. *)
Theorem relation_check_unbound_point_id (self : Self num) (w : World) :
  p_proposta_df (layers self) = [] ->
  (exists r : PuntFit,
      In r (punt_fit_df (layers self)) /\ missing_id self (pf_ID_PUNT r) = true) ->
  check_relation_points_tables self w
  = (Raise UnboundLocalError,
     append_log w
       [info "Comprovant correspondència entre les taules i la capa Punt...";
        info "      Correspondència OK entre els punts de P_PROPOSTA i Punt."]).
Proof.
  intros Hp (r & Hr & Hm). unfold check_relation_points_tables. rewrite Hp.
  change [?a; ?b] with ([a] ++ [b] ++ []).
  eapply raises_bind; [apply writes_emit|].
  unfold relation_p_proposta. cbn [for_fold].
  rewrite (bind_returns _ _ _ _ _ (eq_refl : ret (true, None) _ = _)). cbn [fst snd].
  eapply raises_bind; [apply writes_emit|].
  apply bind_raises. rewrite append_log_nil. apply relation_punt_fit_unbound.
  apply existsb_exists. exists r. split; [exact Hr | exact Hm].
Qed.

End MoreProperties.

(** When the label numbers of the layer are distinct the arrangement by
    label number is forced, and [check_3termes] does under every
    instance of the sorting interface what it does under insertion by
    key. *)
Lemma three_terms_distinct_labels {num : Type} {pd : Pandas}
      (self : Self num) (w : World) :
  NoDup (map (fun p => label_number (punt_ETIQUETA p)) (punt_line_gdf (layers self))) ->
  check_3termes self w = check_3termes (pd := pandas) self w.
Proof.
  intros Hnd.
  destruct (forallb has_number (map punt_ETIQUETA (punt_line_gdf (layers self)))) eqn:E.
  - rewrite (three_terms_after_labels self w E).
    rewrite (three_terms_after_labels (pd := pandas) self w E).
    assert (Hsame : ppf_by_label self = ppf_by_label (pd := pandas) self).
    { unfold ppf_by_label. rewrite sort_values_distinct_keys; [reflexivity|].
      now rewrite map_fst_combine_map. }
    now rewrite Hsame.
  - pose proof (label_numbers_loop (map punt_ETIQUETA (punt_line_gdf (layers self))) [] w)
      as H.
    rewrite E in H. unfold check_3termes.
    now rewrite !(bind_raises _ _ _ _ _ H).
Qed.

(* ================================================================== *)
(** ** The workspace *)
(* ================================================================== *)

Lemma last_entry_decides (has : string -> bool) (l : list string) (b : bool) :
  fold_left (fun _ x => if has x then true else false) l b
  = match l with [] => b | _ => last_exists has l end.
Proof.
  revert b. induction l as [|x l IH]; intros b; [reflexivity|].
  cbn [fold_left]. rewrite IH.
  destruct l as [|y l]; [unfold last_exists; simpl; now destruct (has x)|].
  change (has (last l y) = has (last (y :: l) x)). now rewrite last_cons.
Qed.

(** X19. [check_entities_exist] keeps, of each loop, the answer for the
    last name only: it returns [True] exactly when the last layer of
    SHAPES_LIST is in Cartografia and the last table of TABLE_LIST is in
    Taules, whatever the other names, and [False] with one error entry
    otherwise (also when a list is empty). *)
Theorem entities_check_looks_at_last_names
        (SHAPES_LIST TABLE_LIST : list string) (fs : Folders) (w : World) :
  let shapes_exist := last_exists (carto_has fs) SHAPES_LIST in
  let tables_exist := last_exists (tables_has fs) TABLE_LIST in
  writes (check_entities_exist SHAPES_LIST TABLE_LIST fs) w
    (shapes_exist && tables_exist)
    (match shapes_exist, tables_exist with
     | true, true => []
     | false, false =>
         [err "Falten capes i taules necessàries a les carpetes de Cartografia i Taules"]
     | false, true => [err "Falten capes necessàries a la carpeta de Cartografia"]
     | true, false => [err "Falten taules necessàries a la carpeta de Taules"]
     end).
Proof.
  intros shapes_exist tables_exist. unfold check_entities_exist.
  rewrite !last_entry_decides.
  assert (Hs : match SHAPES_LIST with [] => false | _ => last_exists (carto_has fs) SHAPES_LIST end
               = shapes_exist) by (subst shapes_exist; now destruct SHAPES_LIST).
  assert (Ht : match TABLE_LIST with [] => false | _ => last_exists (tables_has fs) TABLE_LIST end
               = tables_exist) by (subst tables_exist; now destruct TABLE_LIST).
  rewrite Hs, Ht.
  destruct shapes_exist, tables_exist; cbn [andb negb];
    try apply writes_ret;
    (rewrite <- (app_nil_r [_]); eapply writes_bind; [apply writes_emit | apply writes_ret]).
Qed.

(** X20. [check_directories] returns [True] exactly when DocDelim exists
    and lists every name of SUB_DIR_LIST, after the remark that the
    structure is right; otherwise it returns [None], never [False], after
    one error per missing subdirectory, or the single error that DocDelim
    does not exist. *)
Theorem directories_check_report (SUB_DIR_LIST : list string) (fs : Folders) (w : World) :
  let missing :=
    filter (fun sub_dir => negb (PyStr.mem sub_dir (doc_delim_listing fs))) SUB_DIR_LIST in
  if doc_delim_exists fs then
    writes (check_directories SUB_DIR_LIST fs) w
      (if is_empty missing then Some true else None)
      (map (fun sub_dir => err ("No existeix el subdirectori " +++ sub_dir)) missing
       ++ (if is_empty missing then [info "Estructura de directoris OK"] else []))
  else
    writes (check_directories SUB_DIR_LIST fs) w None
      [err "No existeix DocDelim dins el directori de la linia"].
Proof.
  intros missing. unfold check_directories.
  destruct (doc_delim_exists fs).
  - eapply writes_bind.
    { apply (writes_flag_loop SUB_DIR_LIST
               (fun sub_dir => negb (PyStr.mem sub_dir (doc_delim_listing fs)))
               (fun sub_dir => err ("No existeix el subdirectori " +++ sub_dir)) true). }
    fold missing. cbn [andb]. rewrite <- filter_nil_existsb. fold missing.
    destruct (is_empty missing).
    + rewrite <- (app_nil_r [_]). eapply writes_bind; [apply writes_emit | apply writes_ret].
    + apply writes_ret.
  - rewrite <- (app_nil_r [_]).
    eapply writes_bind.
    + rewrite <- (app_nil_r [_]). eapply writes_bind; [apply writes_emit | apply writes_ret].
    + apply writes_ret.
Qed.

(* ================================================================== *)
(** ** Texts through the report file *)
(* ================================================================== *)

Lemma append_nil_r (s : string) : s +++ "" = s.
Proof. induction s as [|c s IH]; simpl; [reflexivity | now rewrite IH]. Qed.

Lemma append_assoc (a b c : string) : (a +++ b) +++ c = a +++ (b +++ c).
Proof. induction a as [|x a IH]; simpl; [reflexivity | now rewrite IH]. Qed.

Lemma has_hyphen_app (a b : string) :
  Clean.has_hyphen (a +++ b) = Clean.has_hyphen a || Clean.has_hyphen b.
Proof.
  induction a as [|c a IH]; simpl; [reflexivity|]. now rewrite IH, orb_assoc.
Qed.

Lemma split_pieces_no_hyphen (s : string) :
  PyStr.split PyStr.hyphen s <> []
  /\ Forall (fun p => Clean.has_hyphen p = false) (PyStr.split PyStr.hyphen s).
Proof.
  induction s as [|c s [IHn IHf]]; cbn [PyStr.split].
  - split; [discriminate | repeat constructor].
  - destruct (Ascii.eqb c PyStr.hyphen) eqn:E.
    + split; [discriminate | constructor; [reflexivity | exact IHf]].
    + destruct (PyStr.split PyStr.hyphen s) as [|p ps]; [now elim IHn|].
      split; [discriminate|].
      inversion IHf; subst. constructor; [|assumption].
      cbn [Clean.has_hyphen]. rewrite E. assumption.
Qed.

Lemma split_no_hyphen (s : string) :
  Clean.has_hyphen s = false -> PyStr.split PyStr.hyphen s = [s].
Proof.
  induction s as [|c s IH]; cbn [PyStr.split Clean.has_hyphen]; [reflexivity|].
  intros H. apply orb_false_iff in H as [Hc Hs]. rewrite Hc, (IH Hs). reflexivity.
Qed.

Lemma last_part_no_hyphen (s : string) : Clean.has_hyphen (PyStr.last_part s) = false.
Proof.
  unfold PyStr.last_part.
  destruct (split_pieces_no_hyphen s) as [_ Hf].
  induction Hf as [|p ps Hp Hf IH]; [reflexivity|].
  destruct ps as [|q ps]; [exact Hp | exact IH].
Qed.

Lemma linebreak_not_cr (c : ascii) :
  PyStr.is_linebreak c = false -> Ascii.eqb c (PyStr.chr 13) = false.
Proof.
  intros H. destruct (Ascii.eqb_spec c (PyStr.chr 13)) as [->|]; [|reflexivity].
  vm_compute in H. discriminate H.
Qed.

Lemma splitlines_from_newline (cur rest : string) :
  PyStr.splitlines_from cur (String (PyStr.chr 10) rest)
  = cur :: PyStr.splitlines_from "" rest.
Proof. destruct rest as [|c1 [|c2 s3]]; reflexivity. Qed.

Lemma splitlines_from_step (c : ascii) (T cur : string) :
  PyStr.is_linebreak c = false ->
  Clean.opens_boundary c T = false ->
  T <> "" ->
  PyStr.splitlines_from cur (String c T)
  = PyStr.splitlines_from (cur +++ String c "") T.
Proof.
  intros Hl Ho Hne. pose proof (linebreak_not_cr c Hl) as Hcr.
  destruct T as [|c1 s2]; [now elim Hne|].
  cbn [PyStr.splitlines_from]. rewrite Hcr, Hl. cbn [andb].
  unfold Clean.opens_boundary in Ho. apply orb_false_iff in Ho as [Ho1 Ho2].
  rewrite Ho1. destruct s2 as [|c2 s3]; [reflexivity|]. now rewrite Ho2.
Qed.

Lemma opens_boundary_line (c : ascii) (s rest : string) :
  Clean.opens_boundary c (s +++ String (PyStr.chr 10) rest) = Clean.opens_boundary c s.
Proof.
  destruct s as [|c1 [|c2 s3]]; cbn [append Clean.opens_boundary].
  - change (Ascii.eqb (PyStr.chr 10) (PyStr.chr 133)) with false.
    change (Ascii.eqb (PyStr.chr 10) (PyStr.chr 128)) with false.
    rewrite andb_false_r. destruct rest; [reflexivity|].
    now rewrite andb_false_r.
  - change (Ascii.eqb (PyStr.chr 10) (PyStr.chr 168)) with false.
    change (Ascii.eqb (PyStr.chr 10) (PyStr.chr 169)) with false.
    now rewrite andb_false_r.
  - reflexivity.
Qed.

Lemma splitlines_from_line (s : string) :
  Clean.has_boundary s = false ->
  forall cur rest : string,
    PyStr.splitlines_from cur (s +++ String (PyStr.chr 10) rest)
    = (cur +++ s) :: PyStr.splitlines_from "" rest.
Proof.
  induction s as [|c s IH]; intros H cur rest.
  - rewrite append_nil_r. apply splitlines_from_newline.
  - cbn [Clean.has_boundary] in H.
    apply orb_false_iff in H as [H Hs]. apply orb_false_iff in H as [Hl Ho].
    cbn [append]. rewrite splitlines_from_step.
    + rewrite (IH Hs), append_assoc. reflexivity.
    + exact Hl.
    + now rewrite opens_boundary_line.
    + now destruct s.
Qed.

Lemma read_text_line (s rest : string) :
  Clean.has_boundary s = false ->
  PyStr.read_text (s +++ String (PyStr.chr 10) rest)
  = s +++ String (PyStr.chr 10) (PyStr.read_text rest).
Proof.
  induction s as [|c s IH]; intros H.
  - reflexivity.
  - cbn [Clean.has_boundary] in H.
    apply orb_false_iff in H as [H Hs]. apply orb_false_iff in H as [Hl _].
    cbn [append PyStr.read_text]. rewrite (linebreak_not_cr c Hl), (IH Hs). reflexivity.
Qed.

Lemma format_record_line (r : LogRecord) :
  format_record r = log_line r +++ String (PyStr.chr 10) "".
Proof. unfold format_record, log_line. now rewrite !append_assoc. Qed.

Lemma concat_cons (x : string) (l : list string) :
  String.concat "" (x :: l) = x +++ String.concat "" l.
Proof. destruct l; simpl; [now rewrite append_nil_r | reflexivity]. Qed.

Lemma log_line_boundary (r : LogRecord) :
  Clean.has_boundary (log_line r) = Clean.has_boundary (msg r).
Proof.
  unfold log_line. destruct (levelname r), (msg r) as [|c1 [|c2 m]]; reflexivity.
Qed.

Lemma split_prefix (p s : string) :
  Clean.has_hyphen p = false ->
  PyStr.split PyStr.hyphen (p +++ String PyStr.hyphen s)
  = p :: PyStr.split PyStr.hyphen s.
Proof.
  induction p as [|c p IH]; intros H.
  - reflexivity.
  - cbn [Clean.has_hyphen] in H. apply orb_false_iff in H as [Hc Hp].
    cbn [append PyStr.split]. rewrite Hc, (IH Hp). reflexivity.
Qed.

Lemma split_head (s : string) :
  exists ps : list string,
    PyStr.split PyStr.hyphen s = Clean.before_hyphen s :: ps.
Proof.
  induction s as [|c s [ps IH]]; cbn [PyStr.split Clean.before_hyphen].
  - now exists [].
  - destruct (Ascii.eqb c PyStr.hyphen); [now eexists|].
    rewrite IH. now exists ps.
Qed.

Lemma before_hyphen_clean (s : string) :
  Clean.has_hyphen s = false -> Clean.before_hyphen s = s.
Proof.
  induction s as [|c s IH]; cbn [Clean.has_hyphen Clean.before_hyphen]; [reflexivity|].
  intros H. apply orb_false_iff in H as [-> Hs]. now rewrite (IH Hs).
Qed.

Lemma log_line_split (r : LogRecord) :
  exists ps : list string,
    PyStr.split PyStr.hyphen (log_line r)
    = (level_text (levelname r) +++ " ") :: (" " +++ Clean.before_hyphen (msg r)) :: ps.
Proof.
  assert (Hl : log_line r
               = (level_text (levelname r) +++ " ")
                   +++ String PyStr.hyphen (" " +++ msg r)).
  { unfold log_line. now destruct (levelname r). }
  destruct (split_head (" " +++ msg r)) as [ps Hps].
  exists ps. rewrite Hl, split_prefix by now destruct (levelname r).
  now rewrite Hps.
Qed.

Lemma log_text_read (rs : list LogRecord) :
  (forall r, In r rs -> Clean.has_boundary (msg r) = false) ->
  PyStr.read_text (String.concat "" (map format_record rs))
  = String.concat "" (map format_record rs).
Proof.
  induction rs as [|r rs IH]; intros H; [reflexivity|].
  cbn [map]. rewrite concat_cons, format_record_line, append_assoc. cbn [append].
  rewrite read_text_line.
  - rewrite IH; [reflexivity|]. intros r' Hr'. apply H. now right.
  - rewrite log_line_boundary. apply H. now left.
Qed.

Lemma log_text_lines (rs : list LogRecord) :
  (forall r, In r rs -> Clean.has_boundary (msg r) = false) ->
  PyStr.splitlines (String.concat "" (map format_record rs)) = map log_line rs.
Proof.
  unfold PyStr.splitlines.
  induction rs as [|r rs IH]; intros H; [reflexivity|].
  cbn [map]. rewrite concat_cons, format_record_line, append_assoc. cbn [append].
  rewrite splitlines_from_line.
  - cbn [append]. rewrite IH; [reflexivity|]. intros r' Hr'. apply H. now right.
  - rewrite log_line_boundary. apply H. now left.
Qed.

Lemma report_items_loop (rs : list LogRecord) (acc : list ReportItem) (w : World) :
  for_fold (map log_line rs) acc
    (fun report_list report =>
       report_level <- first_item (PyStr.split PyStr.hyphen report) ;;
       report_info <- second_item (PyStr.split PyStr.hyphen report) ;;
       let item := {| level := report_level; report_message := report_info |} in
       ret (report_list ++ [item])) w
  = (Return (acc ++ map item_of rs), w).
Proof.
  revert acc. induction rs as [|r rs IH]; intros acc; cbn [map for_fold].
  - unfold ret. now rewrite app_nil_r.
  - unfold bind at 1. unfold bind at 1.
    destruct (log_line_split r) as [ps ->].
    cbn [first_item second_item bind ret].
    rewrite IH, <- app_assoc. reflexivity.
Qed.

Lemma add_response_data_items (w : World) :
  (forall r : LogRecord, In r (log w) -> Clean.has_boundary (msg r) = false) ->
  let answer :=
    {| result := result (response_data w);
       message := message (response_data w);
       reports := Some (map item_of (log w)) |} in
  add_response_data w = (Return answer, {| log := log w; response_data := answer |}).
Proof.
  intros Hb answer. unfold add_response_data.
  rewrite (bind_returns _ _ _ _ _ (eq_refl : read_log w = _)).
  unfold log_text. rewrite (log_text_read _ Hb), (log_text_lines _ Hb).
  rewrite (bind_returns _ _ _ _ _ (report_items_loop (log w) [] w)).
  reflexivity.
Qed.

(** X21. When no message of the report file has a line boundary,
    [add_response_data] returns one item per entry, in the order written:
    the level followed by a blank, and the message preceded by a blank and
    cut at its first hyphen, so that a message without hyphen comes back
    complete.  The result and the message of the response stay as they
    are. *)
Theorem entries_come_back_cut_at_hyphen (w : World) :
  (forall r : LogRecord, In r (log w) -> Clean.has_boundary (msg r) = false) ->
  let answer :=
    {| result := result (response_data w);
       message := message (response_data w);
       reports := Some (map item_of (log w)) |} in
  add_response_data w = (Return answer, {| log := log w; response_data := answer |})
  /\ forall r : LogRecord,
       Clean.has_hyphen (msg r) = false ->
       item_of r = {| level := level_text (levelname r) +++ " ";
                      report_message := " " +++ msg r |}.
Proof.
  intros Hb answer. split; [now apply add_response_data_items|].
  intros r Hr. unfold item_of. now rewrite before_hyphen_clean.
Qed.

(** X22. The messages that carry an identifier cut with
    [split('-')[-1]] have no hyphen, whatever the identifiers: those of
    the decimals, of ORDPF, of the auxiliary points indicated as real, of
    the relation with the tables and of the found points without photo. *)
Theorem cut_identifiers_leave_no_hyphen :
  (forall (num : Type) (p : Punt num), Clean.has_hyphen (decim_msg p) = false)
  /\ (forall r : Proposta, Clean.has_hyphen (ordpf_msg r) = false)
  /\ (forall r : Proposta, Clean.has_hyphen (real_msg r) = false)
  /\ (forall point_id : string,
        Clean.has_hyphen (proposta_rel_msg (PyStr.last_part point_id)) = false)
  /\ (forall point_id : string,
        Clean.has_hyphen (punt_fit_rel_msg (PyStr.last_part point_id)) = false)
  /\ (forall kv : string * string, Clean.has_hyphen (msg (no_photo_msg kv)) = false).
Proof.
  repeat split; intros;
    unfold decim_msg, ordpf_msg, real_msg, proposta_rel_msg, punt_fit_rel_msg,
      no_photo_msg, err, msg;
    rewrite ?has_hyphen_app, ?last_part_no_hyphen; reflexivity.
Qed.

(* ================================================================== *)
(** ** The checks only add to the report *)
(* ================================================================== *)

Lemma ao_ret {A} (a : A) : appends_only (ret a).
Proof. intros w o w' H. injection H as _ <-. exists []. now rewrite append_log_nil. Qed.

Lemma ao_raise {A} (e : PyExc) : appends_only (@raise A e).
Proof. intros w o w' H. injection H as _ <-. exists []. now rewrite append_log_nil. Qed.

Lemma ao_emit (r : LogRecord) : appends_only (emit r).
Proof. intros w o w' H. injection H as _ <-. now exists [r]. Qed.

Lemma ao_bind {A B} (m : M A) (f : A -> M B) :
  appends_only m -> (forall a, appends_only (f a)) -> appends_only (bind m f).
Proof.
  intros Hm Hf w o w' H. unfold bind in H.
  destruct (m w) as [[a|e] w1] eqn:E.
  - destruct (Hm _ _ _ E) as [rs ->]. destruct (Hf a _ _ _ H) as [rs' ->].
    exists (rs ++ rs'). now rewrite append_log_app.
  - injection H as _ <-. exact (Hm _ _ _ E).
Qed.

Lemma ao_for_each {A} (l : list A) (body : A -> M unit) :
  (forall a, appends_only (body a)) -> appends_only (for_each l body).
Proof.
  intros Hb. induction l as [|a l IH]; simpl; [apply ao_ret|].
  apply ao_bind; [apply Hb | intros _; exact IH].
Qed.

Lemma ao_for_fold {A S} (l : list A) (s : S) (body : S -> A -> M S) :
  (forall s a, appends_only (body s a)) -> appends_only (for_fold l s body).
Proof.
  intros Hb. revert s. induction l as [|a l IH]; intros s; simpl; [apply ao_ret|].
  apply ao_bind; [apply Hb | intros s'; apply IH].
Qed.

Lemma ao_when (c : bool) (m : M unit) : appends_only m -> appends_only (when c m).
Proof. intros Hm. destruct c; [exact Hm | apply ao_ret]. Qed.

Ltac ao :=
  repeat first
    [ apply ao_ret | apply ao_raise | apply ao_emit
    | apply ao_bind; [|intros]
    | apply ao_for_each; intros
    | apply ao_for_fold; intros
    | apply ao_when
    | match goal with
      | |- appends_only (if ?b then _ else _) => destruct b
      | |- appends_only (match ?x with _ => _ end) => destruct x
      end
    | progress unfold logger_info, logger_error, first_item, last_item, coords,
        z_of, int_line_id, founded_items, founded_values
    | progress cbv beta zeta ].

Section OnlyAppend.

Context {num : Type} {F : PyFloat num} {G : Shapely num} {pd : Pandas}.

Lemma ao_run_checks (self : Self num) : appends_only (run_checks self).
Proof.
  unfold run_checks, check_layers_geometry, check_lin_tram_geometry,
    check_points_geometry, info_vertexs_line, check_points_decimals,
    info_p_proposta, count_points, check_ordpf, check_real_points,
    check_found_points, check_photo_exists, check_photo_name, check_cota_fita,
    check_3termes, check_relation_points_tables, relation_p_proposta,
    relation_punt_fit, check_topology, check_line_crosses_itself,
    check_line_intersects_db, check_line_overlaps_db,
    check_endpoint_covered_point, check_auxiliary_point, auxiliary_point_body.
  ao.
Qed.

Lemma ao_before_checks (self : Self num) :
  appends_only (check_line_id_exists self)
  /\ appends_only (check_lin_tram_ppta_layer self)
  /\ appends_only (get_round_line_coordinates (layers self)).
Proof.
  unfold check_line_id_exists, check_lin_tram_ppta_layer, check_fields_lin_tram_ppta,
    check_fields_content_lint_tram_ppta, get_round_line_coordinates.
  repeat split; ao.
Qed.

(** X23. The checks that [get] runs after accepting the field structure
    never touch the response and never alter what the report file already
    holds: whether they complete or one of them raises, the world they
    leave is the one they found with records added at the end of the
    report file. *)
Theorem checks_only_append_to_report (self : Self num) (w w' : World) (o : Outcome unit) :
  run_checks self w = (o, w') ->
  exists rs : list LogRecord,
    log w' = log w ++ rs /\ response_data w' = response_data w.
Proof.
  intros H. destruct (ao_run_checks self w o w' H) as [rs ->].
  now exists rs.
Qed.

Lemma add_response_data_log (w w' : World) (o : Outcome ResponseData) :
  add_response_data w = (o, w') -> log w' = log w.
Proof.
  unfold add_response_data. intros H.
  rewrite (bind_returns _ _ _ _ _ (eq_refl : read_log w = _)) in H.
  unfold bind in H.
  destruct (for_fold _ _ _ w) as [[items|e] w1] eqn:E;
    apply report_items_loop_keeps_world in E; subst w1.
  - unfold set_reports, the_response in H. cbn in H. now injection H as _ <-.
  - now injection H as _ <-.
Qed.

(** X24. When [get] returns the result 'OK' and no message of the report
    file has a line boundary, the response lists the whole report file,
    one item per entry in the order written (each message cut at its
    first hyphen), under the message naming the line; and the report file
    is the one [get] found with the entries of this run added. *)
Theorem ok_response_lists_the_report_file
        (ly : Layers num) (w w' : World) (rd : ResponseData) :
  get ly w = (Return rd, w') ->
  result rd = Some "OK" ->
  (forall r : LogRecord, In r (log w') -> Clean.has_boundary (msg r) = false) ->
  reports rd = Some (map item_of (log w'))
  /\ message rd = Some ("Linia " +++ line_id ly +++ " checkejada")
  /\ exists rs : list LogRecord, log w' = log w ++ rs.
Proof.
  unfold get. intros H Hok Hclean.
  apply bind_inv in H as (lc & w1 & H1 & H).
  set (self := set_attributes ly lc) in *.
  destruct (ao_before_checks self) as (A2 & A3 & A1).
  apply A1 in H1 as [rs1 ->].
  apply bind_inv in H as (u & w2 & H2 & H). apply A2 in H2 as [rs2 ->].
  apply bind_inv in H as (ok & w3 & H3 & H). apply A3 in H3 as [rs3 ->].
  destruct ok; cbn [negb] in H.
  - apply bind_inv in H as (u1 & w4 & H4 & H).
    apply ao_run_checks in H4 as [rs4 ->].
    apply bind_inv in H as (u2 & w5 & Hres & H).
    apply bind_inv in H as (u3 & w6 & Hmsg & H).
    unfold set_result in Hres. injection Hres as _ <-.
    unfold set_message in Hmsg. injection Hmsg as _ <-.
    pose proof (add_response_data_log _ _ _ H) as Hlog.
    rewrite Hlog in Hclean.
    pose proof (add_response_data_items _ Hclean) as Hitems.
    cbv zeta in Hitems. rewrite Hitems in H. injection H as <- <-.
    cbn [reports message log response_data append_log].
    split; [reflexivity|]. split; [reflexivity|].
    exists (((rs1 ++ rs2) ++ rs3) ++ rs4). now rewrite !app_assoc.
  - unfold create_error_response in H.
    apply bind_inv in H as (u1 & w4 & _ & H).
    apply bind_inv in H as (u2 & w5 & Hres & H).
    apply bind_inv in H as (u3 & w6 & Hmsg & H).
    unfold the_response in H. injection H as <- _.
    unfold set_message in Hmsg. injection Hmsg as _ <-.
    unfold set_result in Hres. injection Hres as _ <-.
    discriminate Hok.
Qed.

End OnlyAppend.

(* ================================================================== *)
(** ** The further properties at concrete submissions *)
(* ================================================================== *)

Import MoreExamples.

Lemma no_boundary_forallb (l : list LogRecord) :
  forallb (fun r => negb (Clean.has_boundary (msg r))) l = true ->
  forall r : LogRecord, In r l -> Clean.has_boundary (msg r) = false.
Proof.
  intros H r Hr. rewrite forallb_forall in H. apply negb_true_iff. now apply H.
Qed.

Lemma field_content_of_a_sound_line :
  line_id_int (layers (self_of found_not_final)) = Some 1234%Z
  /\ writes (check_fields_content_lint_tram_ppta (self_of found_not_final)) w0 tt
       [info "Els camps de Lin_TramPpta estan correctament emplenats"].
Proof.
  assert (H : line_id_int (layers (self_of found_not_final)) = Some 1234%Z) by reflexivity.
  split; [exact H|].
  exact (field_content_report (self_of found_not_final) w0 1234%Z H).
Defined.

Lemma jpeg_photo_is_reported_missing :
  let p := punt3d "1234-1" "F-1" 0 0 152.5 (Some "F1.jpeg") in
  In p (punt_line_gdf (layers (self_of found_final)))
  /\ PyStr.mem (punt_ID_PUNT p) (ppf_list (self_of found_final)) = true
  /\ punt_FOTOS p = Some "F1.jpeg"
  /\ PyStr.endswith "F1.jpeg" ".jpg" = false
  /\ PyStr.endswith "F1.jpeg" ".JPG" = false
  /\ exists report : list LogRecord,
      writes (check_photo_name (self_of found_final)) w0 tt report
      /\ In (photo_missing_msg "F1.jpeg") report.
Proof.
  intros p.
  assert (H1 : In p (punt_line_gdf (layers (self_of found_final)))) by (left; reflexivity).
  assert (H2 : PyStr.mem (punt_ID_PUNT p) (ppf_list (self_of found_final)) = true)
    by (vm_compute; reflexivity).
  assert (H3 : punt_FOTOS p = Some "F1.jpeg") by reflexivity.
  assert (H4 : PyStr.endswith "F1.jpeg" ".jpg" = false) by (vm_compute; reflexivity).
  assert (H5 : PyStr.endswith "F1.jpeg" ".JPG" = false) by (vm_compute; reflexivity).
  repeat (split; [assumption|]).
  destruct (photo_file_report (self_of found_final) w0) as (report & Hw & _ & H).
  exists report. split; [exact Hw|]. exact (H p "F1.jpeg" H1 H2 H3 H4 H5).
Defined.

Lemma flat_points_abort_the_cota_check :
  (exists p : Punt float,
      In p (punt_line_gdf (layers (self_of found_not_final)))
      /\ pz (punt_geometry p) = None)
  /\ check_cota_fita (self_of found_not_final) w0 = (Raise DimensionError, w0).
Proof.
  assert (H : exists p : Punt float,
             In p (punt_line_gdf (layers (self_of found_not_final)))
             /\ pz (punt_geometry p) = None).
  { exists (punt "1234-1" "F-1" 0 0). split; [left; reflexivity | reflexivity]. }
  split; [exact H|].
  exact (point_without_z_aborts_cota_check (self_of found_not_final) w0 H).
Defined.

Lemma no_final_point_aborts_three_terms :
  (forall p : Punt float,
      In p (punt_line_gdf (layers (self_of no_final_points))) ->
      has_number (punt_ETIQUETA p) = true)
  /\ (forall p : Punt float,
        In p (punt_line_gdf (layers (self_of no_final_points))) ->
        PyStr.mem (punt_ID_PUNT p) (ppf_list (self_of no_final_points)) = false)
  /\ check_3termes (self_of no_final_points) w0 = (Raise IndexError, w0).
Proof.
  assert (H1 : forall p : Punt float,
             In p (punt_line_gdf (layers (self_of no_final_points))) ->
             has_number (punt_ETIQUETA p) = true).
  { intros p [<-|[<-|[]]]; vm_compute; reflexivity. }
  assert (H2 : forall p : Punt float,
             In p (punt_line_gdf (layers (self_of no_final_points))) ->
             PyStr.mem (punt_ID_PUNT p) (ppf_list (self_of no_final_points)) = false).
  { intros p [<-|[<-|[]]]; vm_compute; reflexivity. }
  split; [exact H1|]. split; [exact H2|].
  exact (proj2 (three_terms_check_aborts (self_of no_final_points) w0) H1 H2).
Defined.

Lemma three_terms_of_a_sound_line :
  (forall p : Punt float,
      In p (punt_line_gdf (layers (self_of found_not_final))) ->
      has_number (punt_ETIQUETA p) = true)
  /\ (exists p : Punt float,
        In p (punt_line_gdf (layers (self_of found_not_final)))
        /\ PyStr.mem (punt_ID_PUNT p) (ppf_list (self_of found_not_final)) = true)
  /\ exists first_point last_point : Punt float,
      In first_point (ppf_by_label (self_of found_not_final))
      /\ In last_point (ppf_by_label (self_of found_not_final))
      /\ (forall p : Punt float,
            In p (punt_line_gdf (layers (self_of found_not_final))) ->
            PyStr.mem (punt_ID_PUNT p) (ppf_list (self_of found_not_final)) = true ->
            label_number (punt_ETIQUETA first_point) <= label_number (punt_ETIQUETA p)
            /\ label_number (punt_ETIQUETA p) <= label_number (punt_ETIQUETA last_point))
      /\ writes (check_3termes (self_of found_not_final)) w0 tt
           [if contacte_truthy (punt_CONTACTE first_point)
               && contacte_truthy (punt_CONTACTE last_point)
            then info "Les fites 3T tenen informat el camp CONTACTE."
            else err "Hi ha fites 3T que no tenen informat el camp CONTACTE.";
            contacte_count_msg (self_of found_not_final)].
Proof.
  assert (H1 : forall p : Punt float,
             In p (punt_line_gdf (layers (self_of found_not_final))) ->
             has_number (punt_ETIQUETA p) = true).
  { intros p [<-|[<-|[<-|[]]]]; vm_compute; reflexivity. }
  assert (H2 : exists p : Punt float,
             In p (punt_line_gdf (layers (self_of found_not_final)))
             /\ PyStr.mem (punt_ID_PUNT p) (ppf_list (self_of found_not_final)) = true).
  { exists (punt "1234-1" "F-1" 0 0). split; [left; reflexivity | vm_compute; reflexivity]. }
  split; [exact H1|]. split; [exact H2|].
  exact (three_terms_judges_first_and_last (self_of found_not_final) w0 H1 H2).
Defined.

Lemma distinct_points_keep_their_order :
  NoDup (map punt_ID_PUNT (punt_line_gdf found_not_final))
  /\ PyDict.items (get_round_point_coordinates found_not_final)
     = map coords_item (punt_line_gdf found_not_final).
Proof.
  assert (H : NoDup (map punt_ID_PUNT (punt_line_gdf found_not_final))).
  { cbn. repeat (constructor; [cbn; intuition discriminate|]). constructor. }
  split; [exact H|].
  exact (proj2 (proj2 (point_coordinates_dict found_not_final)) H).
Defined.

Lemma last_found_record_gives_the_item :
  founded_point shared_id_fita (get_ppf_list shared_id_fita) "1234-F1" = Some "1234-2"
  /\ get_founded_points_dict shared_id_fita (get_ppf_list shared_id_fita)
     = FoundedDict [("1234-F1", "1234-2")]
  /\ In ("1234-F1", "1234-2") (PyDict.items [("1234-F1", "1234-2")])
  /\ (exists r : PuntFit,
        In r (punt_fit_df shared_id_fita) /\ pf_TROBADA r = "1"
        /\ pf_ID_FITA r = "1234-F1" /\ pf_ID_PUNT r = "1234-2"
        /\ In "1234-2" (get_ppf_list shared_id_fita))
  /\ ~ In ("1234-F1", "1234-1") (PyDict.items [("1234-F1", "1234-2")])
  /\ ~ In "1234-F9" (PyDict.keys [("1234-F1", "1234-2")]).
Proof.
  assert (Hf : founded_point shared_id_fita (get_ppf_list shared_id_fita) "1234-F1"
               = Some "1234-2") by (vm_compute; reflexivity).
  assert (E : get_founded_points_dict shared_id_fita (get_ppf_list shared_id_fita)
              = FoundedDict [("1234-F1", "1234-2")]) by (vm_compute; reflexivity).
  pose proof (founded_points_dict_items shared_id_fita (get_ppf_list shared_id_fita)) as H.
  rewrite E in H. destruct H as (_ & _ & H3 & _ & H5).
  assert (Hin : In ("1234-F1", "1234-2") (PyDict.items [("1234-F1", "1234-2")]))
    by (apply H5; exact Hf).
  split; [exact Hf|]. split; [exact E|]. split; [exact Hin|].
  split; [exact (H3 "1234-F1" "1234-2" Hin)|]. split.
  - intros Hin'. apply H5 in Hin'. rewrite Hf in Hin'. discriminate Hin'.
  - intros [H|[]]. discriminate H.
Defined.

Lemma open_end_report_follows_first_vertex :
  (forall t : Tram float,
      In t (lin_tram_ppta_line_gdf (layers (self_of open_end))) ->
      geom_type (tram_geometry t) = LineString /\ vertices (tram_geometry t) <> [])
  /\ writes (check_endpoint_covered_point (self_of open_end)) w0 tt
       [info "      Tots els punts finals dels trams de la linia coincideixen amb una fita de la capa Punt."].
Proof.
  assert (H : forall t : Tram float,
             In t (lin_tram_ppta_line_gdf (layers (self_of open_end))) ->
             geom_type (tram_geometry t) = LineString /\ vertices (tram_geometry t) <> []).
  { intros t [<-|[]]. split; [reflexivity | discriminate]. }
  split; [exact H|].
  exact (endpoint_report_follows_first_vertex (self_of open_end) w0 H).
Defined.

Lemma recorded_off_line_points_are_classified :
  aux_precondition (self_of off_line_recorded)
  /\ writes (check_auxiliary_point (self_of off_line_recorded)) w0 tt
       [info (aux_msg_info "1234-F2" "2"); err (aux_msg_error "1234-F3" "3")].
Proof.
  assert (H : aux_precondition (self_of off_line_recorded)).
  { apply aux_precondition_lookup_ok. vm_compute. reflexivity. }
  split; [exact H|].
  exact (auxiliary_point_report (self_of off_line_recorded) w0 H).
Defined.

Lemma unbound_reference_raises :
  p_proposta_df (layers (self_of unbound_reference)) = []
  /\ (exists r : PuntFit,
        In r (punt_fit_df (layers (self_of unbound_reference)))
        /\ missing_id (self_of unbound_reference) (pf_ID_PUNT r) = true)
  /\ check_relation_points_tables (self_of unbound_reference) w0
     = (Raise UnboundLocalError,
        append_log w0
          [info "Comprovant correspondència entre les taules i la capa Punt...";
           info "      Correspondència OK entre els punts de P_PROPOSTA i Punt."]).
Proof.
  assert (H1 : p_proposta_df (layers (self_of unbound_reference)) = []) by reflexivity.
  assert (H2 : exists r : PuntFit,
             In r (punt_fit_df (layers (self_of unbound_reference)))
             /\ missing_id (self_of unbound_reference) (pf_ID_PUNT r) = true).
  { eexists. split; [left; reflexivity | vm_compute; reflexivity]. }
  split; [exact H1|]. split; [exact H2|].
  exact (relation_check_unbound_point_id (self_of unbound_reference) w0 H1 H2).
Defined.

Lemma two_entries_come_back :
  (forall r : LogRecord, In r (log two_entries) -> Clean.has_boundary (msg r) = false)
  /\ fst (add_response_data two_entries)
     = Return {| result := Some "OK"; message := None;
                 reports := Some [{| level := "INFO "; report_message := " Punt :" |};
                                  {| level := "ERROR ";
                                     report_message := "       La fita F 1234" |}] |}.
Proof.
  assert (H : forall r : LogRecord,
             In r (log two_entries) -> Clean.has_boundary (msg r) = false).
  { apply no_boundary_forallb. vm_compute. reflexivity. }
  split; [exact H|].
  rewrite (proj1 (entries_come_back_cut_at_hyphen two_entries H)).
  vm_compute. reflexivity.
Defined.

Lemma checks_of_a_sound_line_only_append :
  run_checks (self_of found_not_final) w0
  = (fst (run_checks (self_of found_not_final) w0),
     snd (run_checks (self_of found_not_final) w0))
  /\ exists rs : list LogRecord,
      log (snd (run_checks (self_of found_not_final) w0)) = log w0 ++ rs
      /\ response_data (snd (run_checks (self_of found_not_final) w0)) = response_data w0.
Proof.
  assert (H : run_checks (self_of found_not_final) w0
              = (fst (run_checks (self_of found_not_final) w0),
                 snd (run_checks (self_of found_not_final) w0)))
    by apply surjective_pairing.
  split; [exact H|].
  exact (checks_only_append_to_report (self_of found_not_final) w0 _ _ H).
Defined.

Lemma sound_line_response_lists_the_report :
  let out := get found_not_final w0 in
  let w' := snd out in
  exists rd : ResponseData,
    out = (Return rd, w')
    /\ result rd = Some "OK"
    /\ (forall r : LogRecord, In r (log w') -> Clean.has_boundary (msg r) = false)
    /\ reports rd = Some (map item_of (log w'))
    /\ message rd = Some ("Linia " +++ line_id found_not_final +++ " checkejada")
    /\ exists rs : list LogRecord, log w' = log w0 ++ rs.
Proof.
  intros out w'.
  assert (E : exists rd : ResponseData, out = (Return rd, w'))
    by (eexists; vm_compute; reflexivity).
  destruct E as [rd E]. exists rd.
  assert (Hok : result rd = Some "OK").
  { pose proof E as E'. vm_compute in E'. injection E' as <-. reflexivity. }
  assert (Hclean : forall r : LogRecord,
             In r (log w') -> Clean.has_boundary (msg r) = false).
  { apply no_boundary_forallb. vm_compute. reflexivity. }
  split; [exact E|]. split; [exact Hok|]. split; [exact Hclean|].
  exact (ok_response_lists_the_report_file found_not_final w0 w' rd E Hok Hclean).
Defined.

Lemma found_marker_with_height_passes :
  (forall p : Punt float,
      In p (punt_line_gdf (layers (self_of found_final))) ->
      pz (punt_geometry p) <> None)
  /\ founded_points_dict (self_of found_final) = FoundedDict [("1234-F1", "1234-1")]
  /\ writes (check_cota_fita (self_of found_final)) w0 tt
       [info "Totes les fites amb coordenada Z són trobades"].
Proof.
  assert (H1 : forall p : Punt float,
             In p (punt_line_gdf (layers (self_of found_final))) ->
             pz (punt_geometry p) <> None).
  { intros p [<-|[<-|[]]]; discriminate. }
  assert (H2 : founded_points_dict (self_of found_final)
               = FoundedDict [("1234-F1", "1234-1")]) by (vm_compute; reflexivity).
  split; [exact H1|]. split; [exact H2|].
  exact (cota_report (self_of found_final) w0 [("1234-F1", "1234-1")] H1 H2).
Defined.

(** C9 at a submission with a found marker of the final proposal: the
    run goes through the three found-point checks, and the report holds
    their entries. *)
Lemma found_final_point_runs_the_found_checks :
  found_final_point found_final
  /\ found_points_guard (self_of found_final) = true
  /\ run_checks (self_of found_final) w0
     = (checks_before_found (self_of found_final) ;;
        check_photo_exists (self_of found_final) ;;
        check_photo_name (self_of found_final) ;;
        check_cota_fita (self_of found_final) ;;
        checks_after_found (self_of found_final)) w0
  /\ (exists (r : LogRecord) (rs : list LogRecord),
        writes (check_photo_exists (self_of found_final)) w0 tt (r :: rs))
  /\ fst (run_checks (self_of found_final) w0) = Return tt
  /\ filter (fun r => PyStr.contains "fotograf" (msg r)
                      || PyStr.contains "coordenada Z" (msg r))
            (log (snd (run_checks (self_of found_final) w0)))
     = [info "Totes les fites trobades tenen fotografia.";
        err "La fotografia F1.jpeg no està a la carpeta de Fotografies.";
        info "Totes les fites amb coordenada Z són trobades"].
Proof.
  assert (Hf : found_final_point found_final).
  { eexists. split; [left; reflexivity|]. split; [reflexivity|].
    apply mem_In. vm_compute. reflexivity. }
  pose proof (found_checks_run_iff_found_final_point
                found_final [(0, 0); (10, 0)]%float w0) as H.
  cbv zeta in H. destruct H as (Hg & Hrun & _).
  split; [exact Hf|]. split; [exact (proj2 Hg Hf)|].
  split; [exact (proj1 (Hrun Hf))|]. split; [exact (proj2 (Hrun Hf) w0)|].
  split; vm_compute; reflexivity.
Defined.

(** C10, counterexample. The layer Punt holds the ID 1234-1 twice, first
    off the line and then on it; the point is of the final proposal and
    PUNT_FIT is empty.  The marker point off the line has no record, and
    yet [check_auxiliary_point] completes, writing nothing: it judges the
    ID by the coordinates of its last point only. *)
Lemma repeated_point_id_hides_a_missing_record :
  ~ off_line_final_points_have_record repeated_id [(0, 0); (10, 0)]%float
  /\ PyDict.items (points_coords_dict (self_of repeated_id)) = [("1234-1", (0, 0)%float)]
  /\ writes (check_auxiliary_point (self_of repeated_id)) w0 tt [].
Proof.
  split; [|split; vm_compute; reflexivity].
  intros H.
  destruct (H (punt "1234-1" "F-1" 10 5)) as (r & Hr & _).
  - left. reflexivity.
  - vm_compute. reflexivity.
  - vm_compute. reflexivity.
  - destruct Hr.
Qed.

(** C10 at a submission with two points of the final proposal off the
    line, both with records. *)
Lemma off_line_points_with_records_are_judged :
  NoDup (map punt_ID_PUNT (punt_line_gdf off_line_recorded))
  /\ off_line_final_points_have_record off_line_recorded [(0, 0); (10, 0)]%float
  /\ aux_precondition_rows off_line_recorded [(0, 0); (10, 0)]%float
  /\ writes (check_auxiliary_point (self_of off_line_recorded)) w0 tt
       [info (aux_msg_info "1234-F2" "2"); err (aux_msg_error "1234-F3" "3")]
  /\ List.length (filter (needs_lookup (self_of off_line_recorded))
                         (PyDict.items (points_coords_dict (self_of off_line_recorded))))
     = 2.
Proof.
  assert (Hnd : NoDup (map punt_ID_PUNT (punt_line_gdf off_line_recorded))).
  { cbn. repeat (constructor; [cbn; intuition discriminate|]). constructor. }
  assert (Hall : off_line_final_points_have_record off_line_recorded
                   [(0, 0); (10, 0)]%float).
  { intros p [<-|[<-|[<-|[<-|[]]]]] Hc Hm.
    - vm_compute in Hc. discriminate Hc.
    - eexists. split; [left; reflexivity | reflexivity].
    - eexists. split; [right; left; reflexivity | reflexivity].
    - vm_compute in Hm. discriminate Hm. }
  pose proof (auxiliary_point_precondition
                off_line_recorded [(0, 0); (10, 0)]%float w0) as H.
  cbv zeta in H. destruct H as (_ & _ & Hrun & _ & Hsuff & _).
  pose proof (Hsuff Hall) as Hrows.
  split; [exact Hnd|]. split; [exact Hall|]. split; [exact Hrows|].
  split; [exact (proj1 (Hrun Hrows))|].
  vm_compute. reflexivity.
Defined.

(** The double nearest to 432123.11 differs from its rounding to one
    decimal by more than the double nearest to 0.01: a point there is
    reported as badly rounded. *)
Lemma rounding_residue_above_tolerance :
  fround1 0x1.a5fec70a3d70ap+18%float = 0x1.a5fec66666666p+18%float
  /\ badly_rounded {| px := 0x1.a5fec70a3d70ap+18%float; py := 0%float; pz := None |}
     = true
  /\ fround1 5.25%float = 0x1.4cccccccccccdp+2%float
  /\ fround1 (-0.25)%float = (-0x1.999999999999ap-3)%float.
Proof.
  repeat split; vm_compute; reflexivity.
Qed.

(** The label numbers of every submission above are distinct, so that
    its points have one arrangement by label number. *)
Lemma submissions_have_distinct_label_numbers :
  Forall (fun ly : Layers float =>
            NoDup (map (fun p => label_number (punt_ETIQUETA p)) (punt_line_gdf ly)))
         [found_not_final; dangling_reference; open_end; off_line_unrecorded;
          without_pf; found_final; no_final_points; unbound_reference;
          off_line_recorded; repeated_id; shared_id_fita].
Proof.
  repeat (constructor;
          [vm_compute; repeat (constructor; [simpl; intuition discriminate|]); constructor|]).
  constructor.
Qed.
